(** * Authentication layer of the Reddit API wrapper

    A shallow embedding of [api_wrapper/jwt_utils.py], [api_wrapper/auth.py],
    [api_wrapper/auth_endpoints.py] and the token-issuing flows kept in
    [api_wrapper/auth_endpoints_backup.py], followed by the properties of
    the session-token codec, the client cache and the authentication flows.

    Conventions
    - a Python [str] is a [string]; header values reach the code decoded one
      byte per character, so slicing by characters is slicing by [ascii];
      free text (post titles, comment bodies) is the sequence of its code
      points instead, since its length and its white space are counted in
      characters;
    - a Python [dict] with string keys is a [gmap string _];
    - a [datetime] is a number of microseconds since the epoch and a
      [timedelta] a number of microseconds, both in [Z];
    - a raised exception is the [Raise] branch of [result];
    - the platform client library (asyncpraw) and the JWT library (jose) are
      outside the repository: the first is an oracle answering every call,
      the second is modelled symbolically (see [Jose]). *)

From Stdlib Require Import ZArith Lia List Ascii String.
From stdpp Require Import base option list strings gmap.

Local Open Scope string_scope.
Local Open Scope Z_scope.

(** ** Exceptions and results *)

(** The exception classes that the modelled code raises or catches.
    [ExpiredSignatureError] and [JWTClaimsError] are subclasses of
    [JWTError] in jose; [PlatformError] stands for any exception raised
    from inside asyncpraw. *)
Inductive exn : Type :=
  | HTTPException (status_code : Z) (detail : string)
                  (headers : list (string * string))
  | RedditAPIException (message : string) (status_code : Z)
  | JWTError (msg : string)
  | ExpiredSignatureError (msg : string)
  | JWTClaimsError (msg : string)
  | KeyError (key : string)
  | AttributeError (msg : string)
  | ValidationError (msg : string)
  | PlatformError (msg : string).

Inductive result (A : Type) : Type :=
  | Ok (a : A)
  | Raise (e : exn).
Arguments Ok {A} a.
Arguments Raise {A} e.

Definition HTTP_400_BAD_REQUEST : Z := 400.
Definition HTTP_401_UNAUTHORIZED : Z := 401.
Definition HTTP_500_INTERNAL_SERVER_ERROR : Z := 500.

(** [isinstance(e, JWTError)] *)
Definition is_JWTError (e : exn) : bool :=
  match e with
  | JWTError _ | ExpiredSignatureError _ | JWTClaimsError _ => true
  | _ => false
  end.

(** [isinstance(e, HTTPException)] *)
Definition is_HTTPException (e : exn) : bool :=
  match e with
  | HTTPException _ _ _ => true
  | _ => false
  end.

Definition status_of (e : exn) : option Z :=
  match e with
  | HTTPException c _ _ => Some c
  | RedditAPIException _ c => Some c
  | _ => None
  end.

(** Decimal rendering of a status code, for [str(e)]. *)
Fixpoint nat_digits (fuel n : nat) (acc : string) : string :=
  match fuel with
  | O => acc
  | S fuel' =>
      let d := ascii_of_nat (48 + Nat.modulo n 10) in
      match Nat.div n 10 with
      | O => String d acc
      | q => nat_digits fuel' q (String d acc)
      end
  end.

Definition str_of_Z (z : Z) : string :=
  if z <? 0 then "-" ++ nat_digits (S (Z.to_nat (- z))) (Z.to_nat (- z)) ""
  else nat_digits (S (Z.to_nat z)) (Z.to_nat z) "".

(** [str(e)].  Starlette renders an [HTTPException] as ["<status>: <detail>"];
    the other classes render their message ([KeyError] quotes its key). *)
Definition str_exn (e : exn) : string :=
  match e with
  | HTTPException c d _ => str_of_Z c ++ ": " ++ d
  | RedditAPIException m _ => m
  | JWTError m | ExpiredSignatureError m | JWTClaimsError m => m
  | KeyError k => "'" ++ k ++ "'"
  | AttributeError m => m
  | ValidationError m => m
  | PlatformError m => m
  end.

(** ** The JWT library *)

Module Jose.

(** A claim value: a string, a number, or (before encoding only) a
    [datetime]. *)
Inductive json : Type :=
  | JStr (s : string)
  | JInt (z : Z)
  | JDate (d : Z).

#[export] Instance json_eq_dec : EqDecision json.
Proof. solve_decision. Defined.

(** Symbolic HS256 tag: the key together with the signed header and
    claims.  Two tags agree exactly when key, algorithm and claims do. *)
Definition hmac (key alg : string) (claims : gmap string json)
  : string * string * gmap string json := (key, alg, claims).

(** What a bearer string can be: three well-formed segments, or anything
    else. *)
Inductive token : Type :=
  | Jws (alg : string) (claims : gmap string json)
        (tag : string * string * gmap string json)
  | Garbage (s : string).

(** [timegm(d.utctimetuple())]: whole seconds, microseconds dropped. *)
Definition timegm (d : Z) : Z := d / 1000000.

(** [jwt.encode] first turns a [datetime] found under a time claim into
    whole seconds. *)
Definition intdate (claims : gmap string json) (time_claim : string)
  : gmap string json :=
  match claims !! time_claim with
  | Some (JDate d) => <[time_claim := JInt (timegm d)]> claims
  | _ => claims
  end.

(** [jwt.encode(claims, key, algorithm)]. *)
Definition encode (claims : gmap string json) (key alg : string) : token :=
  let claims := foldl intdate claims ["exp"; "iat"; "nbf"] in
  Jws alg claims (hmac key alg claims).

(** [_validate_exp]: an absent claim passes; a present one must be a
    number and the token is expired when [exp < now], both in whole
    seconds.  (The library would also accept a numeric string; no token
    issued here carries one.) *)
Definition validate_exp (now : Z) (claims : gmap string json)
  : result unit :=
  match claims !! "exp" with
  | None => Ok tt
  | Some (JInt exp) =>
      if exp <? timegm now
      then Raise (ExpiredSignatureError "Signature has expired.")
      else Ok tt
  | Some _ =>
      Raise (JWTClaimsError
               "Expiration Time claim (exp) must be an integer.")
  end.

(** [jwt.decode(token, key, algorithms)] at instant [now]. *)
Definition decode (now : Z) (t : token) (key : string)
           (algorithms : list string) : result (gmap string json) :=
  match t with
  | Garbage _ => Raise (JWTError "Not enough segments")
  | Jws alg claims tag =>
      if negb (bool_decide (alg ∈ algorithms))
      then Raise (JWTError "The specified alg value is not allowed")
      else if negb (bool_decide (tag = hmac key alg claims))
      then Raise (JWTError "Signature verification failed.")
      else match validate_exp now claims with
           | Raise e => Raise e
           | Ok _ => Ok claims
           end
  end.

End Jose.
Export Jose.

(** ** jwt_utils.py *)

(** Process configuration read from the environment at start-up. *)
Record Config : Type := {
  SECRET_KEY : string;
  ACCESS_TOKEN_EXPIRE_MINUTES : Z
}.

(** The values used when the environment sets neither variable. *)
Definition default_config : Config :=
  {| SECRET_KEY := "your-secret-key-change-in-production";
     ACCESS_TOKEN_EXPIRE_MINUTES := 720 |}.

Definition ALGORITHM : string := "HS256".

(** [timedelta(minutes=m)] *)
Definition timedelta_minutes (m : Z) : Z := m * 60000000.

(** [timedelta(seconds=s)] *)
Definition timedelta_seconds (s : Z) : Z := s * 1000000.

Module TokenManager.

Section WithConfig.
Variable cfg : Config.

(** [create_access_token(data, expires_delta)] called when the clock reads
    [utcnow].  A [timedelta] is falsy exactly when it is zero, so a zero
    [expires_delta] selects the configured lifetime like [None] does. *)
Definition create_access_token (utcnow : Z) (data : gmap string json)
           (expires_delta : option Z) : token :=
  let to_encode := data in
  let expire :=
    match expires_delta with
    | Some d =>
        if d =? 0
        then utcnow + timedelta_minutes (ACCESS_TOKEN_EXPIRE_MINUTES cfg)
        else utcnow + d
    | None => utcnow + timedelta_minutes (ACCESS_TOKEN_EXPIRE_MINUTES cfg)
    end in
  let to_encode := <["exp" := JDate expire]> to_encode in
  let encoded_jwt := encode to_encode (SECRET_KEY cfg) ALGORITHM in
  encoded_jwt.

Definition credentials_exception : exn :=
  HTTPException HTTP_401_UNAUTHORIZED "Could not validate credentials"
                [("WWW-Authenticate", "Bearer")].

(** [verify_token(token)] evaluated at instant [now]. *)
Definition verify_token (now : Z) (t : token) : result (gmap string json) :=
  match decode now t (SECRET_KEY cfg) [ALGORITHM] with
  | Ok payload => Ok payload
  | Raise e => if is_JWTError e then Raise credentials_exception else Raise e
  end.

(** The [token_data] dictionary of [create_reddit_token]. *)
Definition reddit_token_data (client_id client_secret username password
                              user_agent : string) : gmap string json :=
  <["token_type" := JStr "reddit_access"]>
  (<["reddit_user_agent" := JStr user_agent]>
  (<["reddit_password" := JStr password]>
  (<["reddit_username" := JStr username]>
  (<["reddit_client_secret" := JStr client_secret]>
  (<["reddit_client_id" := JStr client_id]> ∅))))).

Definition create_reddit_token (utcnow : Z) (client_id client_secret
           username password user_agent : string) : token :=
  let token_data :=
    reddit_token_data client_id client_secret username password user_agent in
  create_access_token utcnow token_data None.

(** The [token_data] dictionary of [create_refresh_token]. *)
Definition refresh_token_data (client_id client_secret user_agent
                               refresh_token : string) : gmap string json :=
  <["token_type" := JStr "reddit_refresh_access"]>
  (<["reddit_refresh_token" := JStr refresh_token]>
  (<["reddit_user_agent" := JStr user_agent]>
  (<["reddit_client_secret" := JStr client_secret]>
  (<["reddit_client_id" := JStr client_id]> ∅)))).

Definition create_refresh_token (utcnow : Z) (client_id client_secret
           user_agent refresh_token : string) : token :=
  let token_data :=
    refresh_token_data client_id client_secret user_agent refresh_token in
  create_access_token utcnow token_data None.

(** [for field in required_fields: if field not in payload: raise ...] *)
Fixpoint check_required_fields (payload : gmap string json)
         (required_fields : list string) : result unit :=
  match required_fields with
  | [] => Ok tt
  | field :: rest =>
      if bool_decide (payload !! field = None)
      then Raise (HTTPException HTTP_401_UNAUTHORIZED
                    ("Token missing required field: " ++ field) [])
      else check_required_fields payload rest
  end.

(** [payload[key]] *)
Definition getitem (payload : gmap string json) (key : string)
  : result json :=
  match payload !! key with
  | Some v => Ok v
  | None => Raise (KeyError key)
  end.

(** [payload.get("token_type") == kind] *)
Definition token_type_is (payload : gmap string json) (kind : string) : bool :=
  bool_decide (payload !! "token_type" = Some (JStr kind)).

Definition invalid_token_type : exn :=
  HTTPException HTTP_401_UNAUTHORIZED "Invalid token type" [].

(** [extract_reddit_credentials(token)] evaluated at instant [now]. *)
Definition extract_reddit_credentials (now : Z) (t : token)
  : result (gmap string json) :=
  match verify_token now t with
  | Raise e => Raise e
  | Ok payload =>
      if negb (token_type_is payload "reddit_access")
      then Raise invalid_token_type
      else
        match check_required_fields payload
                ["reddit_client_id"; "reddit_client_secret";
                 "reddit_username"; "reddit_password"; "reddit_user_agent"]
        with
        | Raise e => Raise e
        | Ok _ =>
            match getitem payload "reddit_client_id",
                  getitem payload "reddit_client_secret",
                  getitem payload "reddit_username",
                  getitem payload "reddit_password",
                  getitem payload "reddit_user_agent" with
            | Ok cid, Ok csec, Ok usr, Ok pwd, Ok ua =>
                Ok (<["user_agent" := ua]>
                   (<["password" := pwd]>
                   (<["username" := usr]>
                   (<["client_secret" := csec]>
                   (<["client_id" := cid]> ∅)))))
            | Raise e, _, _, _, _ => Raise e
            | _, Raise e, _, _, _ => Raise e
            | _, _, Raise e, _, _ => Raise e
            | _, _, _, Raise e, _ => Raise e
            | _, _, _, _, Raise e => Raise e
            end
        end
  end.

(** [extract_refresh_token_credentials(token)].  The token is verified at
    instant [now]; the legacy fall-back verifies it a second time, at
    instant [now']. *)
Definition extract_refresh_token_credentials (now now' : Z) (t : token)
  : result (gmap string json) :=
  match verify_token now t with
  | Raise e => Raise e
  | Ok payload =>
      if token_type_is payload "reddit_refresh_access" then
        match check_required_fields payload
                ["reddit_client_id"; "reddit_client_secret";
                 "reddit_user_agent"; "reddit_refresh_token"]
        with
        | Raise e => Raise e
        | Ok _ =>
            match getitem payload "reddit_client_id",
                  getitem payload "reddit_client_secret",
                  getitem payload "reddit_user_agent",
                  getitem payload "reddit_refresh_token" with
            | Ok cid, Ok csec, Ok ua, Ok rt =>
                Ok (<["refresh_token" := rt]>
                   (<["user_agent" := ua]>
                   (<["client_secret" := csec]>
                   (<["client_id" := cid]> ∅))))
            | Raise e, _, _, _ => Raise e
            | _, Raise e, _, _ => Raise e
            | _, _, Raise e, _ => Raise e
            | _, _, _, Raise e => Raise e
            end
        end
      else if token_type_is payload "reddit_access" then
        (* Fallback to legacy username/password method *)
        extract_reddit_credentials now' t
      else Raise invalid_token_type
  end.

End WithConfig.
End TokenManager.

(** ** The platform client library *)

Module Platform.

(** Keyword arguments given to [asyncpraw.Reddit(...)].  [token_manager=None]
    is the constructor's default and is not recorded. *)
Record kwargs : Type := {
  kw_client_id : option string;
  kw_client_secret : option string;
  kw_redirect_uri : option string;
  kw_refresh_token : option string;
  kw_username : option string;
  kw_password : option string;
  kw_user_agent : option string;
  kw_scopes : option (list string)
}.

#[export] Instance kwargs_eq_dec : EqDecision kwargs.
Proof. solve_decision. Defined.

Definition no_kwargs : kwargs :=
  {| kw_client_id := None; kw_client_secret := None;
     kw_redirect_uri := None; kw_refresh_token := None;
     kw_username := None; kw_password := None;
     kw_user_agent := None; kw_scopes := None |}.

(** The [scopes] attribute of an authorizer: a list, or any other object
    given by its [str()] rendering. *)
Inductive scopes_value : Type :=
  | ScopeList (l : list string)
  | ScopeOther (rendering : string).

(** What a successful code exchange leaves in the authorizer. *)
Record grant : Type := {
  granted_access_token : string;
  granted_refresh_token : option string;
  granted_scopes : option scopes_value
}.

(** A client instance: what it was built from, and the attributes of
    [reddit._core._authorizer] that the code reads or writes. *)
Record Reddit : Type := {
  config : kwargs;
  authorizer_access_token : option string;
  authorizer_refresh_token : option string;
  authorizer_scopes : option scopes_value
}.

(** The identity returned by [reddit.user.me()].  [created_utc] is only
    ever passed through. *)
Record Redditor : Type := {
  name : string;
  id : string;
  created_utc : Z;
  comment_karma : Z;
  link_karma : Z
}.

(** Outcome of an awaited call into the library: a value, or an exception
    with the given message. *)
Inductive outcome (A : Type) : Type :=
  | Returns (a : A)
  | Raises (msg : string).
Arguments Returns {A} a.
Arguments Raises {A} msg.

(** A client instance is referred to by its position in the heap, so two
    references are the same object exactly when they are equal. *)
Definition handle : Type := nat.

(** Every call into the library, in program order. *)
Inductive event : Type :=
  | EvInit (r : handle)
  | EvInitRaised (kw : kwargs)
  | EvMe (r : handle)
  | EvAuthorize (r : handle) (code : string)
  | EvClose (r : handle).

#[export] Instance event_eq_dec : EqDecision event.
Proof. solve_decision. Defined.

(** The library and the remote service behind it, as an oracle: the answer
    to a call may depend on how many calls were made before it (the first
    argument) and on the call's own arguments. *)
Record oracle : Type := {
  on_init : nat -> kwargs -> option string;
  on_me : nat -> handle -> outcome (option Redditor);
  on_authorize : nat -> handle -> string -> outcome grant
}.

(** Process state: the module-level [_reddit_client_cache], the client
    instances allocated so far, and the log of library calls. *)
Record world : Type := {
  cache : gmap string handle;
  heap : list Reddit;
  trace : list event
}.

Definition empty_world : world :=
  {| cache := ∅; heap := []; trace := [] |}.

(** Computations over the process state that may raise. *)
Definition M (A : Type) : Type := world -> result A * world.

Definition ret {A} (a : A) : M A := fun w => (Ok a, w).

Definition raise {A} (e : exn) : M A := fun w => (Raise e, w).

Definition bind {A B} (m : M A) (k : A -> M B) : M B :=
  fun w =>
    match m w with
    | (Ok a, w') => k a w'
    | (Raise e, w') => (Raise e, w')
    end.

(** [try: m  except Exception as e: handler(e)] *)
Definition try_except {A} (m : M A) (handler : exn -> M A) : M A :=
  fun w =>
    match m w with
    | (Ok a, w') => (Ok a, w')
    | (Raise e, w') => handler e w'
    end.

(** [try: m  finally: cleanup]; an exception raised by [cleanup] replaces
    the outcome of [m]. *)
Definition try_finally {A} (m : M A) (cleanup : M unit) : M A :=
  fun w =>
    match m w with
    | (r, w') =>
        match cleanup w' with
        | (Ok _, w'') => (r, w'')
        | (Raise e, w'') => (Raise e, w'')
        end
    end.

Definition log (ev : event) : M unit :=
  fun w => (Ok tt, {| cache := cache w; heap := heap w;
                      trace := trace w ++ [ev] |}).

Section WithOracle.
Variable env : oracle.

(** [asyncpraw.Reddit(...)] called with the keyword arguments [kw] *)
Definition Reddit_init (kw : kwargs) : M handle :=
  fun w =>
    match on_init env (length (trace w)) kw with
    | Some msg =>
        (Raise (PlatformError msg),
         {| cache := cache w; heap := heap w;
            trace := trace w ++ [EvInitRaised kw] |})
    | None =>
        let r := length (heap w) in
        (Ok r,
         {| cache := cache w;
            heap := heap w ++ [{| config := kw;
                                  authorizer_access_token := None;
                                  authorizer_refresh_token := None;
                                  authorizer_scopes := None |}];
            trace := trace w ++ [EvInit r] |})
    end.

(** [await reddit.user.me()] *)
Definition user_me (r : handle) : M (option Redditor) :=
  fun w =>
    let w' := {| cache := cache w; heap := heap w;
                 trace := trace w ++ [EvMe r] |} in
    match on_me env (length (trace w)) r with
    | Returns u => (Ok u, w')
    | Raises msg => (Raise (PlatformError msg), w')
    end.

(** [await reddit.auth.authorize(code)]: on success the authorizer holds
    the granted tokens and the call returns the refresh token. *)
Definition auth_authorize (r : handle) (code : string) : M (option string) :=
  fun w =>
    let tr := (trace w ++ [EvAuthorize r code])%list in
    match on_authorize env (length (trace w)) r code with
    | Returns g =>
        (Ok (granted_refresh_token g),
         {| cache := cache w;
            heap := alter (fun o =>
                             {| config := config o;
                                authorizer_access_token :=
                                  Some (granted_access_token g);
                                authorizer_refresh_token :=
                                  granted_refresh_token g;
                                authorizer_scopes := granted_scopes g |})
                          r (heap w);
            trace := tr |})
    | Raises msg =>
        (Raise (PlatformError msg),
         {| cache := cache w; heap := heap w; trace := tr |})
    end.

End WithOracle.

(** [await reddit.close()]; closing is taken not to raise. *)
Definition close (r : handle) : M unit := log (EvClose r).

(** [reddit._core._authorizer.access_token = access_token] *)
Definition set_access_token (r : handle) (access_token : string) : M unit :=
  fun w =>
    (Ok tt,
     {| cache := cache w;
        heap := alter (fun o =>
                         {| config := config o;
                            authorizer_access_token := Some access_token;
                            authorizer_refresh_token :=
                              authorizer_refresh_token o;
                            authorizer_scopes := authorizer_scopes o |})
                      r (heap w);
        trace := trace w |}).

(** [reddit._core._authorizer.access_token] *)
Definition get_access_token (r : handle) : M (option string) :=
  fun w => (Ok (o ← heap w !! r; authorizer_access_token o), w).

(** [getattr(reddit._core._authorizer, 'refresh_token', None)] *)
Definition get_refresh_token (r : handle) : M (option string) :=
  fun w => (Ok (o ← heap w !! r; authorizer_refresh_token o), w).

(** [getattr(reddit._core._authorizer, 'scopes', ["*"])] *)
Definition get_scopes (r : handle) : M scopes_value :=
  fun w => (Ok (default (ScopeList ["*"])
                        (o ← heap w !! r; authorizer_scopes o)), w).

(** Runs [m] and hands its outcome, value or exception, to the caller. *)
Definition attempt {A} (m : M A) : M (result A) :=
  fun w => match m w with (r, w') => (Ok r, w') end.

(** [user.<attr>] on what [me()] returned; [None] has no attributes. *)
Definition getattr {A} (user : option Redditor) (attr : string)
           (field : Redditor -> A) : M A :=
  match user with
  | Some u => ret (field u)
  | None =>
      raise (AttributeError
               ("'NoneType' object has no attribute '" ++ attr ++ "'"))
  end.

(** Operations on [_reddit_client_cache]. *)
Definition cache_get (key : string) : M (option handle) :=
  fun w => (Ok (cache w !! key), w).

Definition cache_del (key : string) : M unit :=
  fun w =>
    match cache w !! key with
    | Some _ => (Ok tt, {| cache := delete key (cache w); heap := heap w;
                           trace := trace w |})
    | None => (Raise (KeyError key), w)
    end.

Definition cache_set (key : string) (r : handle) : M unit :=
  fun w => (Ok tt, {| cache := <[key := r]> (cache w); heap := heap w;
                      trace := trace w |}).

(** Observations on the log. *)
Definition closed (r : handle) (w : world) : bool :=
  bool_decide (EvClose r ∈ trace w).

Definition is_probe (ev : event) : bool :=
  match ev with EvMe _ => true | _ => false end.

Definition is_construction (ev : event) : bool :=
  match ev with EvInit _ | EvInitRaised _ => true | _ => false end.

Definition probes (w : world) : nat :=
  length (List.filter is_probe (trace w)).

Definition constructions (w : world) : nat :=
  length (List.filter is_construction (trace w)).

End Platform.
Export Platform.

Notation "x <~ m ;; k" := (bind m (fun x => k))
  (at level 100, m at next level, right associativity).
Notation "m ;;; k" := (bind m (fun _ => k))
  (at level 100, right associativity).

(** ** auth.py *)

Module Auth.

(** Truth value of an [Optional[str]]: [None] and the empty string are
    falsy. *)
Definition truthy (s : option string) : bool :=
  match s with
  | Some s => negb (bool_decide (s = ""))
  | None => false
  end.

(** [s[:n]] *)
Definition prefix (n : nat) (s : string) : string := substring 0 n s.

(** The cache key of [get_reddit_client_with_headers]. *)
Definition cache_key_with_headers (access_token : string)
           (x_reddit_client_id : option string) : string :=
  let cache_key_parts := [prefix 16 access_token] in
  let cache_key_parts :=
    match x_reddit_client_id with
    | Some client_id =>
        if truthy x_reddit_client_id
        then (cache_key_parts ++ [prefix 8 client_id])%list
        else cache_key_parts
    | None => cache_key_parts
    end in
  "reddit_" ++ String.concat "_" cache_key_parts.

(** The cache key of [get_reddit_client]. *)
Definition cache_key_token (access_token : string) : string :=
  "reddit_token_" ++ prefix 16 access_token.

Definition unauthorized (detail : string) : exn :=
  HTTPException HTTP_401_UNAUTHORIZED detail [].

Section WithOracle.
Variable env : oracle.

(** The block "Check if we have a cached client", the same in both
    dependencies.  [Some reddit] is the early [return reddit]; [None]
    falls through to the construction of a new client. *)
Definition check_cached_client (cache_key : string) : M (option handle) :=
  cached <~ cache_get cache_key ;;
  match cached with
  | Some reddit =>
      try_except
        (user <~ user_me env reddit ;;
         match user with
         | Some _ => ret (Some reddit)
         | None =>
             (* Remove invalid client from cache *)
             cache_del cache_key ;;; ret None
         end)
        (fun _ =>
           (* Remove invalid client from cache *)
           present <~ cache_get cache_key ;;
           match present with
           | Some _ => cache_del cache_key ;;; ret None
           | None => ret None
           end)
  | None => ret None
  end.

(** The block "Test authentication", the same in both dependencies (the
    header-aware one also prints the user's name). *)
Definition test_authentication (reddit : handle) : M unit :=
  try_except
    (user <~ user_me env reddit ;;
     match user with
     | None =>
         close reddit ;;;
         raise (unauthorized
                  "Failed to authenticate with Reddit API - invalid token")
     | Some _ => ret tt
     end)
    (fun e =>
       close reddit ;;;
       raise (unauthorized ("Reddit authentication failed: " ++ str_exn e))).

(** [except HTTPException: raise / except Exception as e: raise 401] *)
Definition guard_401 {A} (m : M A) : M A :=
  try_except m
    (fun e =>
       if is_HTTPException e then raise e
       else raise (unauthorized ("Authentication failed: " ++ str_exn e))).

Definition get_reddit_client_with_headers (credentials : string)
           (x_reddit_client_id x_reddit_client_secret
            x_reddit_user_agent : option string) : M handle :=
  guard_401
    (let access_token := credentials in
     (* Use default user agent if not provided *)
     let user_agent :=
       match x_reddit_user_agent with
       | Some ua => if truthy x_reddit_user_agent then ua
                    else "RedditAPIWrapper/1.0"
       | None => "RedditAPIWrapper/1.0"
       end in
     let cache_key :=
       cache_key_with_headers access_token x_reddit_client_id in
     hit <~ check_cached_client cache_key ;;
     match hit with
     | Some reddit => ret reddit
     | None =>
         reddit <~
           (if truthy x_reddit_client_id && truthy x_reddit_client_secret
            then
              (* Create client with provided credentials *)
              Reddit_init env
                {| kw_client_id := x_reddit_client_id;
                   kw_client_secret := x_reddit_client_secret;
                   kw_redirect_uri := None; kw_refresh_token := None;
                   kw_username := None; kw_password := None;
                   kw_user_agent := Some user_agent; kw_scopes := None |}
            else
              (* Create client without credentials (token-only mode) *)
              Reddit_init env
                {| kw_client_id := None; kw_client_secret := None;
                   kw_redirect_uri := None; kw_refresh_token := None;
                   kw_username := None; kw_password := None;
                   kw_user_agent := Some user_agent; kw_scopes := None |}) ;;
         set_access_token reddit access_token ;;;
         test_authentication reddit ;;;
         cache_set cache_key reddit ;;;
         ret reddit
     end).

Definition get_reddit_client (credentials : string) : M handle :=
  guard_401
    (let access_token := credentials in
     let cache_key := cache_key_token access_token in
     hit <~ check_cached_client cache_key ;;
     match hit with
     | Some reddit => ret reddit
     | None =>
         reddit <~
           Reddit_init env
             {| kw_client_id := None; kw_client_secret := None;
                kw_redirect_uri := None; kw_refresh_token := None;
                kw_username := None; kw_password := None;
                kw_user_agent := Some "RedditAPIWrapper/1.0";
                kw_scopes := None |} ;;
         set_access_token reddit access_token ;;;
         test_authentication reddit ;;;
         cache_set cache_key reddit ;;;
         ret reddit
     end).

Definition get_current_user_reddit_client (credentials : string)
  : M handle :=
  get_reddit_client credentials.

End WithOracle.

Definition clear_reddit_client_cache : M unit :=
  fun w => (Ok tt, {| cache := ∅; heap := heap w; trace := trace w |}).

Definition get_cached_client_count : M nat :=
  fun w => (Ok (size (cache w)), w).

End Auth.

(** ** Standard-library helpers used by the endpoints *)

Module Urllib.

Local Open Scope nat_scope.

(** The characters [quote] never escapes: letters, digits and [_.-~]. *)
Definition always_safe (c : ascii) : bool :=
  let n := nat_of_ascii c in
  ((65 <=? n) && (n <=? 90)) || ((97 <=? n) && (n <=? 122))
  || ((48 <=? n) && (n <=? 57))
  || (n =? 95) || (n =? 46) || (n =? 45) || (n =? 126).

Definition hex_digit (n : nat) : ascii :=
  match get n "0123456789ABCDEF" with
  | Some c => c
  | None => "0"%char
  end.

(** One character under [quote_plus(s, safe='')]. *)
Definition quote_plus_char (c : ascii) : string :=
  if always_safe c then String c ""
  else if Ascii.eqb c " " then "+"
  else let n := nat_of_ascii c in
       String "%" (String (hex_digit (n / 16)) (String (hex_digit (n mod 16)) "")).

Fixpoint quote_plus (s : string) : string :=
  match s with
  | EmptyString => ""
  | String c rest => quote_plus_char c ++ quote_plus rest
  end.

(** [urlencode(params)] for a dictionary, in insertion order. *)
Definition urlencode (params : list (string * string)) : string :=
  String.concat "&"
    (List.map (fun kv => quote_plus (fst kv) ++ "=" ++ quote_plus (snd kv))
              params).

End Urllib.

Module Secrets.

Local Open Scope nat_scope.

Definition urlsafe_alphabet : string :=
  "ABCDEFGHIJKLMNOPQRSTUVWXYZabcdefghijklmnopqrstuvwxyz0123456789-_".

Definition b64_char (n : nat) : ascii :=
  match get n urlsafe_alphabet with
  | Some c => c
  | None => "A"%char
  end.

(** [base64.urlsafe_b64encode] *)
Fixpoint urlsafe_b64encode (bs : list ascii) : string :=
  match bs with
  | [] => ""
  | [a] =>
      let x := nat_of_ascii a in
      String (b64_char (x / 4))
        (String (b64_char ((x mod 4) * 16)) "==")
  | [a; b] =>
      let x := nat_of_ascii a in
      let y := nat_of_ascii b in
      String (b64_char (x / 4))
        (String (b64_char ((x mod 4) * 16 + y / 16))
           (String (b64_char ((y mod 16) * 4)) "="))
  | a :: b :: c :: rest =>
      let x := nat_of_ascii a in
      let y := nat_of_ascii b in
      let z := nat_of_ascii c in
      String (b64_char (x / 4))
        (String (b64_char ((x mod 4) * 16 + y / 16))
           (String (b64_char ((y mod 16) * 4 + z / 64))
              (String (b64_char (z mod 64)) (urlsafe_b64encode rest))))
  end.

(** [s.rstrip(c)] for a single character [c]. *)
Fixpoint rstrip (c : ascii) (s : string) : string :=
  match s with
  | EmptyString => ""
  | String a rest =>
      match rstrip c rest with
      | EmptyString => if Ascii.eqb a c then "" else String a ""
      | r => String a r
      end
  end.

(** [secrets.token_bytes(nbytes)]: the next [nbytes] bytes of the system's
    entropy source. *)
Definition token_bytes (urandom : nat -> ascii) (nbytes : nat) : list ascii :=
  List.map urandom (seq 0 nbytes).

(** [secrets.token_urlsafe(nbytes)] *)
Definition token_urlsafe (urandom : nat -> ascii) (nbytes : nat) : string :=
  rstrip "=" (urlsafe_b64encode (token_bytes urandom nbytes)).

End Secrets.

(** ** auth_endpoints.py *)

Module AuthEndpoints.

Module AuthorizationURLRequest.
Record t : Type := {
  client_id : string;
  client_secret : string;
  redirect_uri : string;
  user_agent : string;
  scopes : list string;
  state : option string;
  duration : string
}.
End AuthorizationURLRequest.

Module AuthorizationURLResponse.
Record t : Type := {
  authorization_url : string;
  state : string
}.
End AuthorizationURLResponse.

Module OAuth2CallbackRequest.
Record t : Type := {
  code : string;
  state : option string;
  client_id : string;
  client_secret : string;
  redirect_uri : string;
  user_agent : string
}.
End OAuth2CallbackRequest.

Module TokenResponse.
Record t : Type := {
  access_token : string;
  refresh_token : option string;
  token_type : string;
  expires_in : Z;
  scope : string;
  reddit_username : string
}.
End TokenResponse.

Module TokenValidationRequest.
Record t : Type := {
  access_token : string;
  client_id : string;
  client_secret : string;
  user_agent : string
}.
End TokenValidationRequest.

Module TokenValidationResponse.
Record t : Type := {
  valid : bool;
  username : option string;
  user_id : option string;
  created_utc : option Z;
  comment_karma : option Z;
  link_karma : option Z;
  error : option string
}.
End TokenValidationResponse.

(** [get_authorization_url(request)]; [urandom] is the entropy source read
    by [secrets.token_urlsafe].  Nothing in the body can raise. *)
Definition get_authorization_url (urandom : nat -> ascii)
           (request : AuthorizationURLRequest.t)
  : result AuthorizationURLResponse.t :=
  (* Generate state if not provided *)
  let state :=
    match AuthorizationURLRequest.state request with
    | Some s => if Auth.truthy (Some s) then s
                else Secrets.token_urlsafe urandom 32
    | None => Secrets.token_urlsafe urandom 32
    end in
  (* Build authorization URL parameters *)
  let params :=
    [("client_id", AuthorizationURLRequest.client_id request);
     ("response_type", "code");
     ("state", state);
     ("redirect_uri", AuthorizationURLRequest.redirect_uri request);
     ("duration", AuthorizationURLRequest.duration request);
     ("scope", String.concat " " (AuthorizationURLRequest.scopes request))] in
  (* Create authorization URL *)
  let base_url := "https://www.reddit.com/api/v1/authorize" in
  let authorization_url := base_url ++ "?" ++ Urllib.urlencode params in
  Ok {| AuthorizationURLResponse.authorization_url := authorization_url;
        AuthorizationURLResponse.state := state |}.

Section WithOracle.
Variable env : oracle.

(** [oauth2_callback(request)] *)
Definition oauth2_callback (request : OAuth2CallbackRequest.t)
  : M TokenResponse.t :=
  let failed e :=
    raise (RedditAPIException
             ("Failed to exchange code for tokens: " ++ str_exn e)
             HTTP_400_BAD_REQUEST) in
  (* Create Reddit instance for OAuth flow *)
  created <~ attempt
    (Reddit_init env
       {| kw_client_id := Some (OAuth2CallbackRequest.client_id request);
          kw_client_secret :=
            Some (OAuth2CallbackRequest.client_secret request);
          kw_redirect_uri :=
            Some (OAuth2CallbackRequest.redirect_uri request);
          kw_refresh_token := None; kw_username := None;
          kw_password := None;
          kw_user_agent := Some (OAuth2CallbackRequest.user_agent request);
          kw_scopes := None |}) ;;
  match created with
  | Raise e => failed e  (* [reddit] is still [None]: nothing to close *)
  | Ok reddit =>
      try_finally
        (try_except
           ((* Exchange authorization code for access token *)
            auth_authorize env reddit (OAuth2CallbackRequest.code request) ;;;
            (* Get user info *)
            user <~ user_me env reddit ;;
            let username :=
              match user with Some u => name u | None => "unknown" end in
            (* Get tokens from Reddit's authorizer *)
            access_token <~ get_access_token reddit ;;
            refresh_token <~ get_refresh_token reddit ;;
            scopes <~ get_scopes reddit ;;
            match access_token with
            | None =>
                raise (ValidationError
                         "access_token: Input should be a valid string")
            | Some access_token =>
                ret {| TokenResponse.access_token := access_token;
                       TokenResponse.refresh_token := refresh_token;
                       TokenResponse.token_type := "bearer";
                       TokenResponse.expires_in := 3600;
                       TokenResponse.scope :=
                         match scopes with
                         | ScopeList l => String.concat " " l
                         | ScopeOther rendering => rendering
                         end;
                       TokenResponse.reddit_username := username |}
            end)
           failed)
        (close reddit)
  end.

(** [validate_token(request)] *)
Definition validate_token (request : TokenValidationRequest.t)
  : M TokenValidationResponse.t :=
  let invalid e :=
    ret {| TokenValidationResponse.valid := false;
           TokenValidationResponse.username := None;
           TokenValidationResponse.user_id := None;
           TokenValidationResponse.created_utc := None;
           TokenValidationResponse.comment_karma := None;
           TokenValidationResponse.link_karma := None;
           TokenValidationResponse.error := Some (str_exn e) |} in
  (* Create Reddit instance with access token *)
  created <~ attempt
    (Reddit_init env
       {| kw_client_id := Some (TokenValidationRequest.client_id request);
          kw_client_secret :=
            Some (TokenValidationRequest.client_secret request);
          kw_redirect_uri := None; kw_refresh_token := None;
          kw_username := None; kw_password := None;
          kw_user_agent := Some (TokenValidationRequest.user_agent request);
          kw_scopes := None |}) ;;
  match created with
  | Raise e => invalid e  (* [reddit] is still [None]: nothing to close *)
  | Ok reddit =>
      try_finally
        (try_except
           ((* Set the access token *)
            set_access_token reddit
              (TokenValidationRequest.access_token request) ;;;
            (* Try to get user info to validate token *)
            user <~ user_me env reddit ;;
            username <~ getattr user "name" name ;;
            user_id <~ getattr user "id" id ;;
            created <~ getattr user "created_utc" created_utc ;;
            ckarma <~ getattr user "comment_karma" comment_karma ;;
            lkarma <~ getattr user "link_karma" link_karma ;;
            ret {| TokenValidationResponse.valid := true;
                   TokenValidationResponse.username := Some username;
                   TokenValidationResponse.user_id := Some user_id;
                   TokenValidationResponse.created_utc := Some created;
                   TokenValidationResponse.comment_karma := Some ckarma;
                   TokenValidationResponse.link_karma := Some lkarma;
                   TokenValidationResponse.error := None |})
           invalid)
        (close reddit)
  end.

End WithOracle.
End AuthEndpoints.

(** ** auth_endpoints_backup.py, the session-token endpoints *)

Module AuthEndpointsBackup.

Module OAuth2CallbackRequest.
Record t : Type := {
  code : string;
  state : option string;
  client_id : string;
  client_secret : string;
  redirect_uri : string;
  user_agent : string
}.
End OAuth2CallbackRequest.

Module RefreshTokenRequest.
Record t : Type := {
  client_id : string;
  client_secret : string;
  user_agent : string;
  refresh_token : string
}.
End RefreshTokenRequest.

Module RedditCredentials.
Record t : Type := {
  client_id : string;
  client_secret : string;
  username : string;
  password : string;
  user_agent : string
}.
End RedditCredentials.

Module TokenResponse.
Record t : Type := {
  access_token : token;
  token_type : string;
  expires_in : Z;
  reddit_username : string
}.
End TokenResponse.

(** The dictionary returned by [validate_token]. *)
Module ValidationDict.
Record t : Type := {
  valid : bool;
  username : string;
  user_id : string;
  created_utc : Z;
  comment_karma : Z;
  link_karma : Z
}.
End ValidationDict.

(** A value that cannot raise or touch the process state. *)
Definition lift {A} (r : result A) : M A := fun w => (r, w).

(** [except HTTPException: raise / except Exception as e: raise
    HTTPException(status, detail(e))] *)
Definition guard_http {A} (status : Z) (detail : exn -> string) (m : M A)
  : M A :=
  try_except m
    (fun e => if is_HTTPException e then raise e
              else raise (HTTPException status (detail e) [])).

(** A claim value handed to the client constructor; the credential claims
    of every issued token are strings. *)
Definition str_of_json (v : json) : string :=
  match v with
  | JStr s => s
  | JInt z => str_of_Z z
  | JDate d => str_of_Z d
  end.

Section WithEnvironment.
Variable cfg : Config.
Variable env : oracle.

(** [oauth2_callback(request)]; [utcnow] is the clock reading when the
    session token is created. *)
Definition oauth2_callback (utcnow : Z) (request : OAuth2CallbackRequest.t)
  : M TokenResponse.t :=
  guard_http HTTP_500_INTERNAL_SERVER_ERROR
    (fun e => "OAuth2 callback failed: " ++ str_exn e)
    ((* Create Reddit instance for authorization *)
     reddit <~
       Reddit_init env
         {| kw_client_id := Some (OAuth2CallbackRequest.client_id request);
            kw_client_secret :=
              Some (OAuth2CallbackRequest.client_secret request);
            kw_redirect_uri :=
              Some (OAuth2CallbackRequest.redirect_uri request);
            kw_refresh_token := None; kw_username := None;
            kw_password := None;
            kw_user_agent := Some (OAuth2CallbackRequest.user_agent request);
            kw_scopes := None |} ;;
     (* Exchange code for refresh token *)
     refresh_token <~
       auth_authorize env reddit (OAuth2CallbackRequest.code request) ;;
     match refresh_token with
     | Some refresh_token' =>
         if Auth.truthy refresh_token then
           (* Get user info to verify the token works *)
           username <~
             try_except
               (user <~ user_me env reddit ;; getattr user "name" name)
               (fun e =>
                  close reddit ;;;
                  raise (HTTPException HTTP_400_BAD_REQUEST
                           ("Failed to verify authorization: " ++ str_exn e)
                           [])) ;;
           close reddit ;;;
           (* Create JWT token with refresh token *)
           let access_token :=
             TokenManager.create_refresh_token cfg utcnow
               (OAuth2CallbackRequest.client_id request)
               (OAuth2CallbackRequest.client_secret request)
               (OAuth2CallbackRequest.user_agent request)
               refresh_token' in
           ret {| TokenResponse.access_token := access_token;
                  TokenResponse.token_type := "bearer";
                  TokenResponse.expires_in := 43200;
                  TokenResponse.reddit_username := username |}
         else
           close reddit ;;;
           raise (HTTPException HTTP_400_BAD_REQUEST
                    "Failed to obtain refresh token from authorization code"
                    [])
     | None =>
         close reddit ;;;
         raise (HTTPException HTTP_400_BAD_REQUEST
                  "Failed to obtain refresh token from authorization code"
                  [])
     end).

(** [login_with_refresh_token(request)] *)
Definition login_with_refresh_token (utcnow : Z)
           (request : RefreshTokenRequest.t) : M TokenResponse.t :=
  guard_http HTTP_500_INTERNAL_SERVER_ERROR
    (fun e => "Refresh token authentication failed: " ++ str_exn e)
    ((* Create Reddit instance with refresh token *)
     reddit <~
       Reddit_init env
         {| kw_client_id := Some (RefreshTokenRequest.client_id request);
            kw_client_secret :=
              Some (RefreshTokenRequest.client_secret request);
            kw_redirect_uri := None;
            kw_refresh_token :=
              Some (RefreshTokenRequest.refresh_token request);
            kw_username := None; kw_password := None;
            kw_user_agent := Some (RefreshTokenRequest.user_agent request);
            kw_scopes := None |} ;;
     (* Test the refresh token by getting user info *)
     username <~
       try_except
         (user <~ user_me env reddit ;; getattr user "name" name)
         (fun e =>
            close reddit ;;;
            raise (HTTPException HTTP_401_UNAUTHORIZED
                     ("Invalid refresh token: " ++ str_exn e) [])) ;;
     close reddit ;;;
     (* Create JWT token with refresh token *)
     let access_token :=
       TokenManager.create_refresh_token cfg utcnow
         (RefreshTokenRequest.client_id request)
         (RefreshTokenRequest.client_secret request)
         (RefreshTokenRequest.user_agent request)
         (RefreshTokenRequest.refresh_token request) in
     ret {| TokenResponse.access_token := access_token;
            TokenResponse.token_type := "bearer";
            TokenResponse.expires_in := 43200;
            TokenResponse.reddit_username := username |}).

(** [login(credentials)], the legacy flow *)
Definition login (utcnow : Z) (credentials : RedditCredentials.t)
  : M TokenResponse.t :=
  guard_http HTTP_500_INTERNAL_SERVER_ERROR
    (fun e => "Authentication failed: " ++ str_exn e)
    ((* Validate credentials by creating a Reddit client *)
     reddit <~
       Reddit_init env
         {| kw_client_id := Some (RedditCredentials.client_id credentials);
            kw_client_secret :=
              Some (RedditCredentials.client_secret credentials);
            kw_redirect_uri := None; kw_refresh_token := None;
            kw_username := Some (RedditCredentials.username credentials);
            kw_password := Some (RedditCredentials.password credentials);
            kw_user_agent :=
              Some (RedditCredentials.user_agent credentials);
            kw_scopes := Some ["*"] |} ;;
     (* Test authentication by accessing user info *)
     authenticated_username <~
       try_except
         (user <~ user_me env reddit ;;
          match user with
          | None =>
              raise (HTTPException HTTP_401_UNAUTHORIZED
                       "Invalid Reddit credentials" [])
          | Some u => ret (name u)
          end)
         (fun e =>
            close reddit ;;;
            raise (HTTPException HTTP_401_UNAUTHORIZED
                     ("Reddit authentication failed: " ++ str_exn e) [])) ;;
     (* Close the test connection *)
     close reddit ;;;
     (* Create JWT token with Reddit credentials *)
     let access_token :=
       TokenManager.create_reddit_token cfg utcnow
         (RedditCredentials.client_id credentials)
         (RedditCredentials.client_secret credentials)
         (RedditCredentials.username credentials)
         (RedditCredentials.password credentials)
         (RedditCredentials.user_agent credentials) in
     ret {| TokenResponse.access_token := access_token;
            TokenResponse.token_type := "bearer";
            TokenResponse.expires_in := 43200;
            TokenResponse.reddit_username := authenticated_username |}).

(** [validate_token(credentials)]; [now] is the clock reading when the
    bearer token is verified. *)
Definition validate_token (now : Z) (credentials : token)
  : M ValidationDict.t :=
  guard_http HTTP_401_UNAUTHORIZED (fun _ => "Invalid token")
    ((* Extract and verify token *)
     let token := credentials in
     reddit_creds <~
       lift (TokenManager.extract_reddit_credentials cfg now token) ;;
     (* Create Reddit client to get user info *)
     client_id <~ lift (TokenManager.getitem reddit_creds "client_id") ;;
     client_secret <~
       lift (TokenManager.getitem reddit_creds "client_secret") ;;
     username <~ lift (TokenManager.getitem reddit_creds "username") ;;
     password <~ lift (TokenManager.getitem reddit_creds "password") ;;
     user_agent <~ lift (TokenManager.getitem reddit_creds "user_agent") ;;
     reddit <~
       Reddit_init env
         {| kw_client_id := Some (str_of_json client_id);
            kw_client_secret := Some (str_of_json client_secret);
            kw_redirect_uri := None; kw_refresh_token := None;
            kw_username := Some (str_of_json username);
            kw_password := Some (str_of_json password);
            kw_user_agent := Some (str_of_json user_agent);
            kw_scopes := Some ["*"] |} ;;
     try_except
       (user <~ user_me env reddit ;;
        close reddit ;;;
        uname <~ getattr user "name" name ;;
        user_id <~ getattr user "id" id ;;
        created <~ getattr user "created_utc" created_utc ;;
        ckarma <~ getattr user "comment_karma" comment_karma ;;
        lkarma <~ getattr user "link_karma" link_karma ;;
        ret {| ValidationDict.valid := true;
               ValidationDict.username := uname;
               ValidationDict.user_id := user_id;
               ValidationDict.created_utc := created;
               ValidationDict.comment_karma := ckarma;
               ValidationDict.link_karma := lkarma |})
       (fun e =>
          close reddit ;;;
          raise (HTTPException HTTP_401_UNAUTHORIZED
                   ("Token validation failed: " ++ str_exn e) []))).

End WithEnvironment.
End AuthEndpointsBackup.

(** ** auth_endpoints_backup.py, the remaining session-token endpoints *)

Module SessionEndpoints.

(** [get_current_user_token(credentials)]: the dependency that hands the
    bearer token on once it verifies; [now] is the clock reading. *)
Definition get_current_user_token (cfg : Config) (now : Z)
           (credentials : token) : result token :=
  let token := credentials in
  (* Verify token is valid *)
  match TokenManager.verify_token cfg now token with
  | Ok _ => Ok token
  | Raise _ =>
      Raise (HTTPException HTTP_401_UNAUTHORIZED
               "Invalid authentication token"
               [("WWW-Authenticate", "Bearer")])
  end.

Definition HTTP_501_NOT_IMPLEMENTED : Z := 501.

(** [refresh_token(request)], a placeholder that always refuses. *)
Definition refresh_token (request_refresh_token : string)
  : result AuthEndpointsBackup.TokenResponse.t :=
  Raise (HTTPException HTTP_501_NOT_IMPLEMENTED
           "Token refresh not yet implemented. Please login again." []).

(** [logout(credentials)]: the token is not looked at. *)
Definition logout (credentials : token) : result (list (string * string)) :=
  Ok [("message", "Logout successful. Token will expire naturally.")].

End SessionEndpoints.

(** ** validation.py *)

Module Validation.

Definition bad_request (detail : string) : exn :=
  HTTPException HTTP_400_BAD_REQUEST detail [].

Definition in_range (lo hi : nat) (c : ascii) : bool :=
  (lo <=? nat_of_ascii c)%nat && (nat_of_ascii c <=? hi)%nat.

(** The character class [[A-Za-z0-9_]]. *)
Definition word_char (c : ascii) : bool :=
  in_range 65 90 c || in_range 97 122 c || in_range 48 57 c
  || Ascii.eqb c "_".

(** The character class [[A-Za-z0-9_-]]. *)
Definition word_or_hyphen (c : ascii) : bool :=
  word_char c || Ascii.eqb c "-".

(** The character class [[a-z0-9]]. *)
Definition lower_alnum (c : ascii) : bool :=
  in_range 97 122 c || in_range 48 57 c.

(** The rest of a match of [[cls]+$]: more characters of the class, then
    the end of the string or one newline that ends it. *)
Fixpoint class_then_end (cls : ascii -> bool) (s : string) : bool :=
  match s with
  | EmptyString => true
  | String c rest =>
      if cls c then class_then_end cls rest
      else Ascii.eqb c "010" && bool_decide (rest = "")
  end.

(** [re.match(r'^[cls]+$', s)] is not [None]. *)
Definition re_match_class_plus (cls : ascii -> bool) (s : string) : bool :=
  match s with
  | EmptyString => false
  | String c rest => cls c && class_then_end cls rest
  end.

(** Free text.  A title or a body is a [str] of any characters, so it is
    the sequence of its code points, and [len] is the length of that
    sequence. *)
Definition text : Type := list N.

(** [c.isspace()] for the code point [c]: the white-space characters of
    the Unicode database (tab to carriage return, the four separators,
    space, next line, no-break space, ogham space mark, the spaces from
    en quad to hair space, line and paragraph separator, narrow no-break
    space, medium mathematical space, ideographic space). *)
Definition isspace (c : N) : bool :=
  ((9 <=? c) && (c <=? 13) || (28 <=? c) && (c <=? 32)
   || (c =? 133) || (c =? 160) || (c =? 5760)
   || (8192 <=? c) && (c <=? 8202)
   || (c =? 8232) || (c =? 8233) || (c =? 8239) || (c =? 8287)
   || (c =? 12288))%N.

(** [s.lstrip()] *)
Fixpoint lstrip (s : text) : text :=
  match s with
  | [] => []
  | c :: rest => if isspace c then lstrip rest else s
  end.

(** [s.rstrip()] *)
Fixpoint rstrip (s : text) : text :=
  match s with
  | [] => []
  | c :: rest =>
      match rstrip rest with
      | [] => if isspace c then [] else [c]
      | _ :: _ as kept => c :: kept
      end
  end.

(** [s.strip()] *)
Definition strip (s : text) : text := rstrip (lstrip s).

Definition validate_subreddit_name (name : string) : result bool :=
  if bool_decide (name = "") then
    Raise (bad_request "Subreddit name cannot be empty")
  else if (21 <? String.length name)%nat then
    Raise (bad_request "Subreddit name cannot be longer than 21 characters")
  else if negb (re_match_class_plus word_char name) then
    Raise (bad_request
             "Subreddit name can only contain letters, numbers, and underscores")
  else Ok true.

Definition validate_username (username : string) : result bool :=
  if bool_decide (username = "") then
    Raise (bad_request "Username cannot be empty")
  else if (20 <? String.length username)%nat then
    Raise (bad_request "Username cannot be longer than 20 characters")
  else if negb (re_match_class_plus word_or_hyphen username) then
    Raise (bad_request
             "Username can only contain letters, numbers, underscores, and hyphens")
  else Ok true.

Definition validate_submission_id (submission_id : string) : result bool :=
  if bool_decide (submission_id = "") then
    Raise (bad_request "Submission ID cannot be empty")
  else if negb (re_match_class_plus lower_alnum submission_id) then
    Raise (bad_request "Invalid submission ID format")
  else Ok true.

Definition validate_comment_id (comment_id : string) : result bool :=
  if bool_decide (comment_id = "") then
    Raise (bad_request "Comment ID cannot be empty")
  else if negb (re_match_class_plus lower_alnum comment_id) then
    Raise (bad_request "Invalid comment ID format")
  else Ok true.

Definition validate_post_title (title : text) : result bool :=
  if bool_decide (title = []) || bool_decide (strip title = []) then
    Raise (bad_request "Post title cannot be empty")
  else if (300 <? length title)%nat then
    Raise (bad_request "Post title cannot be longer than 300 characters")
  else Ok true.

Definition validate_comment_body (body : text) : result bool :=
  if bool_decide (body = []) || bool_decide (strip body = []) then
    Raise (bad_request "Comment body cannot be empty")
  else if 10000 <? Z.of_nat (length body) then
    Raise (bad_request
             "Comment body cannot be longer than 10,000 characters")
  else Ok true.

(** [validate_limit(limit, max_limit)]; [max_limit] defaults to 100. *)
Definition validate_limit (limit max_limit : Z) : result bool :=
  if limit <? 1 then Raise (bad_request "Limit must be at least 1")
  else if max_limit <? limit then
    Raise (bad_request ("Limit cannot exceed " ++ str_of_Z max_limit))
  else Ok true.

End Validation.

(** * Vocabulary of the properties *)

Import TokenManager.

(** The lifetime that [create_access_token] gives a token. *)
Definition ttl (cfg : Config) (expires_delta : option Z) : Z :=
  match expires_delta with
  | Some d =>
      if d =? 0 then timedelta_minutes (ACCESS_TOKEN_EXPIRE_MINUTES cfg)
      else d
  | None => timedelta_minutes (ACCESS_TOKEN_EXPIRE_MINUTES cfg)
  end.

(** The payloads that carry a delegated credential set: those built by
    [create_refresh_token] and by [create_reddit_token]. *)
Inductive credential_payload : gmap string json -> Prop :=
  | refresh_payload cid csec ua rt :
      credential_payload (refresh_token_data cid csec ua rt)
  | legacy_payload cid csec usr pwd ua :
      credential_payload (reddit_token_data cid csec usr pwd ua).

(** A delegated credential set of the refresh shape, as a dictionary. *)
Definition refresh_credential_set (client_id client_secret user_agent
                                   refresh_token : string)
  : gmap string json :=
  <["refresh_token" := JStr refresh_token]>
  (<["user_agent" := JStr user_agent]>
  (<["client_secret" := JStr client_secret]>
  (<["client_id" := JStr client_id]> ∅))).

(** A delegated credential set of the legacy shape, as a dictionary. *)
Definition legacy_credential_set (client_id client_secret username password
                                  user_agent : string)
  : gmap string json :=
  <["user_agent" := JStr user_agent]>
  (<["password" := JStr password]>
  (<["username" := JStr username]>
  (<["client_secret" := JStr client_secret]>
  (<["client_id" := JStr client_id]> ∅)))).

Import Auth.
Import AuthEndpoints.

(** The keyword arguments of a token-only construction:
    [asyncpraw.Reddit(token_manager=None, user_agent=user_agent)]. *)
Definition token_only_kwargs (user_agent : string) : kwargs :=
  {| kw_client_id := None; kw_client_secret := None;
     kw_redirect_uri := None; kw_refresh_token := None;
     kw_username := None; kw_password := None;
     kw_user_agent := Some user_agent; kw_scopes := None |}.

(** The shape that [get_reddit_client] and
    [get_reddit_client_with_headers] have in common; they differ in the
    cache key and in the constructor's keyword arguments (see
    [get_reddit_client_authenticate] and
    [get_reddit_client_with_headers_authenticate]). *)
Definition authenticate (env : oracle) (cache_key : string) (kw : kwargs)
           (access_token : string) : M handle :=
  guard_401
    (hit <~ check_cached_client env cache_key ;;
     match hit with
     | Some reddit => ret reddit
     | None =>
         reddit <~ Reddit_init env kw ;;
         set_access_token reddit access_token ;;;
         test_authentication env reddit ;;;
         cache_set cache_key reddit ;;;
         ret reddit
     end).

(** The keyword arguments [get_reddit_client_with_headers] constructs a
    client with. *)
Definition header_kwargs (x_id x_secret x_ua : option string) : kwargs :=
  let user_agent :=
    match x_ua with
    | Some ua => if truthy x_ua then ua else "RedditAPIWrapper/1.0"
    | None => "RedditAPIWrapper/1.0"
    end in
  if truthy x_id && truthy x_secret
  then {| kw_client_id := x_id; kw_client_secret := x_secret;
          kw_redirect_uri := None; kw_refresh_token := None;
          kw_username := None; kw_password := None;
          kw_user_agent := Some user_agent; kw_scopes := None |}
  else token_only_kwargs user_agent.

(** The world [w] after the library calls [evs]. *)
Definition logged (w : world) (evs : list event) : world :=
  {| cache := cache w; heap := heap w; trace := (trace w ++ evs)%list |}.

(** A newly built client after the bearer value has been written into its
    authorizer. *)
Definition fresh_client (kw : kwargs) (access_token : string) : Reddit :=
  {| config := kw; authorizer_access_token := Some access_token;
     authorizer_refresh_token := None; authorizer_scopes := None |}.

(** The exception raised when the probe of a new client returns [None]. *)
Definition invalid_token_exception : exn :=
  unauthorized "Failed to authenticate with Reddit API - invalid token".

(** Two successive runs from [w] both return the handle [r]; each logs one
    probe of [r] and nothing else, and heap and cache stay as they were. *)
Definition reuses (run : M handle) (w : world) (r : handle) : Prop :=
  exists w1 w2,
    run w = (Ok r, w1) /\ run w1 = (Ok r, w2)
    /\ trace w1 = (trace w ++ [EvMe r])%list
    /\ trace w2 = (trace w1 ++ [EvMe r])%list
    /\ probes w1 = S (probes w) /\ probes w2 = S (probes w1)
    /\ constructions w1 = constructions w
    /\ constructions w2 = constructions w
    /\ heap w1 = heap w /\ heap w2 = heap w
    /\ cache w1 = cache w /\ cache w2 = cache w.

(** What the request authenticator does when the entry cached under [key]
    holds the handle [stale] and that handle fails the liveness probe. *)
Definition evicts_and_rebuilds (env : oracle) (run : M handle)
           (key : string) (kw : kwargs) (access_token : string)
           (w : world) (stale : handle) : Prop :=
  let n := length (trace w) in
  let fresh := length (heap w) in
  exists res w',
    run w = (res, w')
    /\ res <> Ok stale
    /\ (exists evs, trace w' = (trace w ++ EvMe stale :: evs)%list)
    /\ constructions w' = S (constructions w)
    /\ match res with
       | Ok r =>
           r = fresh
           /\ on_init env (S n) kw = None
           /\ (exists u, on_me env (S (S n)) fresh = Returns (Some u))
           /\ heap w' !! fresh = Some (fresh_client kw access_token)
           /\ cache w' = <[key := fresh]> (cache w)
       | Raise e =>
           status_of e = Some HTTP_401_UNAUTHORIZED
           /\ cache w' !! key = None
           /\ (on_init env (S n) kw <> None
               \/ forall u, on_me env (S (S n)) fresh <> Returns (Some u))
       end.

(** Sample data for the worked instances below. *)
Definition alice : Redditor :=
  {| name := "alice"; id := "t2_abc"; created_utc := 1234567890;
     comment_karma := 1000; link_karma := 500 |}.

(** A platform that accepts every client and every probe. *)
Definition env_live : oracle :=
  {| on_init := fun _ _ => None;
     on_me := fun _ _ => Returns (Some alice);
     on_authorize := fun _ _ _ => Raises "invalid_grant" |}.

(** A platform whose first answer is a failure and which accepts every
    later probe. *)
Definition env_recovering : oracle :=
  {| on_init := fun _ _ => None;
     on_me := fun n _ => match n with
                         | O => Raises "received 401 HTTP response"
                         | S _ => Returns (Some alice)
                         end;
     on_authorize := fun _ _ _ => Raises "invalid_grant" |}.

(** A process that has one client, cached under the keys both
    dependencies derive from the bearer value ["tok"]. *)
Definition w_cached : world :=
  {| cache := <["reddit_token_tok" := 0%nat]> (<["reddit_tok" := 0%nat]> ∅);
     heap := [fresh_client (token_only_kwargs "RedditAPIWrapper/1.0") "tok"];
     trace := [] |}.

(** Scoped acquisition between the worlds before and after a flow: every
    client constructed in between has been closed. *)
Definition released (w w' : world) : Prop :=
  forall r, EvInit r ∈ trace w' -> EvInit r ∈ trace w \/ EvClose r ∈ trace w'.

(** A callback request whose authorization code [env_live] rejects. *)
Definition sample_callback : AuthEndpointsBackup.OAuth2CallbackRequest.t :=
  {| AuthEndpointsBackup.OAuth2CallbackRequest.code := "rejected-code";
     AuthEndpointsBackup.OAuth2CallbackRequest.state := None;
     AuthEndpointsBackup.OAuth2CallbackRequest.client_id := "cid";
     AuthEndpointsBackup.OAuth2CallbackRequest.client_secret := "secret";
     AuthEndpointsBackup.OAuth2CallbackRequest.redirect_uri :=
       "http://localhost:8080";
     AuthEndpointsBackup.OAuth2CallbackRequest.user_agent := "agent" |}.




(** A platform whose probes raise an exception that carries no message. *)
Definition env_silent_failure : oracle :=
  {| on_init := fun _ _ => None;
     on_me := fun _ _ => Raises "";
     on_authorize := fun _ _ _ => Raises "" |}.


(** The keyword arguments the session-token [oauth2_callback] constructs
    its client with. *)
Definition callback_kwargs
           (request : AuthEndpointsBackup.OAuth2CallbackRequest.t) : kwargs :=
  {| kw_client_id :=
       Some (AuthEndpointsBackup.OAuth2CallbackRequest.client_id request);
     kw_client_secret :=
       Some (AuthEndpointsBackup.OAuth2CallbackRequest.client_secret request);
     kw_redirect_uri :=
       Some (AuthEndpointsBackup.OAuth2CallbackRequest.redirect_uri request);
     kw_refresh_token := None; kw_username := None; kw_password := None;
     kw_user_agent :=
       Some (AuthEndpointsBackup.OAuth2CallbackRequest.user_agent request);
     kw_scopes := None |}.

(** The [required_fields] list of [extract_refresh_token_credentials]. *)
Definition refresh_required_fields : list string :=
  ["reddit_client_id"; "reddit_client_secret";
   "reddit_user_agent"; "reddit_refresh_token"].

(** The [required_fields] list of [extract_reddit_credentials]. *)
Definition legacy_required_fields : list string :=
  ["reddit_client_id"; "reddit_client_secret";
   "reddit_username"; "reddit_password"; "reddit_user_agent"].

(** The error raised for a missing field. *)
Definition missing_field (field : string) : exn :=
  HTTPException HTTP_401_UNAUTHORIZED
    ("Token missing required field: " ++ field) [].

(** Every cached handle refers to a client that has been allocated. *)
Definition cache_wf (w : world) : Prop :=
  forall key r, cache w !! key = Some r -> (r < length (heap w))%nat.

(** The part of the app-id header that enters the cache key: the first 8
    characters of a non-empty header value. *)
Definition id_part (x_reddit_client_id : option string) : option string :=
  match x_reddit_client_id with
  | Some s => if truthy (Some s) then Some (prefix 8 s) else None
  | None => None
  end.

(** How often the character [c] occurs in [s]. *)
Fixpoint count_char (c : ascii) (s : string) : nat :=
  match s with
  | EmptyString => O
  | String a rest =>
      ((if Ascii.eqb a c then 1 else 0) + count_char c rest)%nat
  end.

(** The state that [get_authorization_url] answers with. *)
Definition effective_state (urandom : nat -> ascii)
           (state : option string) : string :=
  match state with
  | Some s => if truthy (Some s) then s else Secrets.token_urlsafe urandom 32
  | None => Secrets.token_urlsafe urandom 32
  end.

(** The keyword arguments the callback of [auth_endpoints.py] constructs
    its client with. *)
Definition live_callback_kwargs (request : OAuth2CallbackRequest.t)
  : kwargs :=
  {| kw_client_id := Some (OAuth2CallbackRequest.client_id request);
     kw_client_secret := Some (OAuth2CallbackRequest.client_secret request);
     kw_redirect_uri := Some (OAuth2CallbackRequest.redirect_uri request);
     kw_refresh_token := None; kw_username := None; kw_password := None;
     kw_user_agent := Some (OAuth2CallbackRequest.user_agent request);
     kw_scopes := None |}.

(** The [scope] string of a token response. *)
Definition scope_string (scopes : option scopes_value) : string :=
  match default (ScopeList ["*"]) scopes with
  | ScopeList l => String.concat " " l
  | ScopeOther rendering => rendering
  end.

(** A grant with a refresh token. *)
Definition sample_grant : grant :=
  {| granted_access_token := "access-1";
     granted_refresh_token := Some "refresh-1";
     granted_scopes := None |}.

(** A platform that exchanges every code and whose probe finds no user. *)
Definition env_anonymous : oracle :=
  {| on_init := fun _ _ => None;
     on_me := fun _ _ => Returns None;
     on_authorize := fun _ _ _ => Returns sample_grant |}.

(** A platform that exchanges every code and accepts every probe. *)
Definition env_granting : oracle :=
  {| on_init := fun _ _ => None;
     on_me := fun _ _ => Returns (Some alice);
     on_authorize := fun _ _ _ => Returns sample_grant |}.

(** A callback request for [auth_endpoints.py]. *)
Definition sample_live_callback : OAuth2CallbackRequest.t :=
  {| OAuth2CallbackRequest.code := "code-1";
     OAuth2CallbackRequest.state := None;
     OAuth2CallbackRequest.client_id := "cid";
     OAuth2CallbackRequest.client_secret := "secret";
     OAuth2CallbackRequest.redirect_uri := "http://localhost:8080";
     OAuth2CallbackRequest.user_agent := "agent" |}.

(** The keyword arguments [login_with_refresh_token] constructs its client
    with. *)
Definition refresh_login_kwargs
           (request : AuthEndpointsBackup.RefreshTokenRequest.t) : kwargs :=
  {| kw_client_id :=
       Some (AuthEndpointsBackup.RefreshTokenRequest.client_id request);
     kw_client_secret :=
       Some (AuthEndpointsBackup.RefreshTokenRequest.client_secret request);
     kw_redirect_uri := None;
     kw_refresh_token :=
       Some (AuthEndpointsBackup.RefreshTokenRequest.refresh_token request);
     kw_username := None; kw_password := None;
     kw_user_agent :=
       Some (AuthEndpointsBackup.RefreshTokenRequest.user_agent request);
     kw_scopes := None |}.

(** The keyword arguments [login] and, for a token that [login] issued,
    [validate_token] construct their client with. *)
Definition legacy_login_kwargs
           (credentials : AuthEndpointsBackup.RedditCredentials.t) : kwargs :=
  {| kw_client_id :=
       Some (AuthEndpointsBackup.RedditCredentials.client_id credentials);
     kw_client_secret :=
       Some (AuthEndpointsBackup.RedditCredentials.client_secret credentials);
     kw_redirect_uri := None; kw_refresh_token := None;
     kw_username :=
       Some (AuthEndpointsBackup.RedditCredentials.username credentials);
     kw_password :=
       Some (AuthEndpointsBackup.RedditCredentials.password credentials);
     kw_user_agent :=
       Some (AuthEndpointsBackup.RedditCredentials.user_agent credentials);
     kw_scopes := Some ["*"] |}.

(** A client as the constructor leaves it. *)
Definition new_client (kw : kwargs) : Reddit :=
  {| config := kw; authorizer_access_token := None;
     authorizer_refresh_token := None; authorizer_scopes := None |}.

(** A refresh-token login request. *)
Definition sample_refresh_login : AuthEndpointsBackup.RefreshTokenRequest.t :=
  {| AuthEndpointsBackup.RefreshTokenRequest.client_id := "cid";
     AuthEndpointsBackup.RefreshTokenRequest.client_secret := "secret";
     AuthEndpointsBackup.RefreshTokenRequest.user_agent := "agent";
     AuthEndpointsBackup.RefreshTokenRequest.refresh_token := "rt" |}.

(** Legacy login credentials. *)
Definition sample_credentials : AuthEndpointsBackup.RedditCredentials.t :=
  {| AuthEndpointsBackup.RedditCredentials.client_id := "cid";
     AuthEndpointsBackup.RedditCredentials.client_secret := "secret";
     AuthEndpointsBackup.RedditCredentials.username := "user";
     AuthEndpointsBackup.RedditCredentials.password := "pw";
     AuthEndpointsBackup.RedditCredentials.user_agent := "agent" |}.

(** The text of the [AttributeError] raised by [user.name] on [None]. *)
Definition no_name_message : string :=
  "'NoneType' object has no attribute 'name'".

(** The one exception [get_current_user_token] raises. *)
Definition invalid_authentication_token : exn :=
  HTTPException HTTP_401_UNAUTHORIZED "Invalid authentication token"
    [("WWW-Authenticate", "Bearer")].

(** What [get_cached_client_count] reports once [m] has run from [w]. *)
Definition count_after {A} (m : M A) (w : world) : result nat :=
  fst (get_cached_client_count (snd (m w))).

(** The bookkeeping of a dependency that works under [key], against the
    count [n] reported before the call: a successful call leaves the count
    as it was when the key was cached and adds one when it was not; a
    failed call takes one away when the key was cached and leaves the
    count as it was when it was not. *)
Definition accounts_for (key : string) (m : M handle) (w : world) : Prop :=
  forall n, fst (get_cached_client_count w) = Ok n ->
    count_after m w
    = Ok (match fst (m w), cache w !! key with
          | Ok _, Some _ => n
          | Ok _, None => S n
          | Raise _, Some _ => pred n
          | Raise _, None => n
          end).

(** What follows ["reddit_"] in the key of the header-aware dependency. *)
Definition header_key_tail (access_token : string)
           (x_reddit_client_id : option string) : string :=
  prefix 16 access_token
  ++ match id_part x_reddit_client_id with
     | Some p => "_" ++ p
     | None => ""
     end.

(** The one-character string that holds a line feed. *)
Definition newline : string := String "010" "".

(** Every character of [s] belongs to the class [cls]. *)
Fixpoint all_chars (cls : ascii -> bool) (s : string) : bool :=
  match s with
  | EmptyString => true
  | String c rest => cls c && all_chars cls rest
  end.

(** [s] is a non-empty word over the class [cls], alone or followed by
    one line feed. *)
Definition word_then_newline (cls : ascii -> bool) (s : string) : Prop :=
  exists w, w <> "" /\ all_chars cls w = true
            /\ (s = w \/ s = w ++ newline).

(** A validator's two outcomes: [True], or HTTP 400 with some detail and
    no headers. *)
Definition true_or_400 (r : result bool) : Prop :=
  r = Ok true \/ exists detail, r = Raise (Validation.bad_request detail).


(** * Properties *)

(** ** The session-token codec *)

Lemma encode_exp_claims (data : gmap string json) (e : Z) key alg :
  data !! "iat" = None -> data !! "nbf" = None ->
  encode (<["exp" := JDate e]> data) key alg =
  Jws alg (<["exp" := JInt (timegm e)]> data)
      (hmac key alg (<["exp" := JInt (timegm e)]> data)).
Proof.
  intros Hi Hn. unfold encode. cbn [foldl].
  assert (E1 : intdate (<["exp" := JDate e]> data) "exp"
               = <["exp" := JInt (timegm e)]> data).
  { unfold intdate. rewrite lookup_insert_eq. by rewrite insert_insert_eq. }
  rewrite E1.
  assert (E2 : forall k, k <> "exp" -> data !! k = None ->
               intdate (<["exp" := JInt (timegm e)]> data) k
               = <["exp" := JInt (timegm e)]> data).
  { intros k Hk Hd. unfold intdate. rewrite lookup_insert_ne by done.
    by rewrite Hd. }
  rewrite !E2 by done. reflexivity.
Qed.

Lemma create_access_token_claims cfg utcnow data expires_delta :
  data !! "iat" = None -> data !! "nbf" = None ->
  create_access_token cfg utcnow data expires_delta
  = Jws ALGORITHM
        (<["exp" := JInt (timegm (utcnow + ttl cfg expires_delta))]> data)
        (hmac (SECRET_KEY cfg) ALGORITHM
           (<["exp" := JInt (timegm (utcnow + ttl cfg expires_delta))]> data)).
Proof.
  intros Hi Hn. unfold create_access_token.
  rewrite <- (encode_exp_claims data _ _ _ Hi Hn).
  do 3 f_equal. unfold ttl. destruct expires_delta as [d|]; [|done].
  by destruct (d =? 0).
Qed.

(** A token carrying this process's tag passes the signature check, and
    every failure of the expiry check surfaces as the one generic error. *)
Lemma verify_signed cfg now claims :
  verify_token cfg now
    (Jws ALGORITHM claims (hmac (SECRET_KEY cfg) ALGORITHM claims))
  = match validate_exp now claims with
    | Ok _ => Ok claims
    | Raise _ => Raise credentials_exception
    end.
Proof.
  unfold verify_token, decode.
  rewrite (bool_decide_eq_true_2 (ALGORITHM ∈ [ALGORITHM]))
    by (by apply list_elem_of_singleton).
  rewrite (bool_decide_eq_true_2 (hmac _ _ _ = _)) by done.
  cbn [negb]. unfold validate_exp.
  destruct (claims !! "exp") as [[s|z|d]|]; try done.
  by destruct (z <? timegm now).
Qed.

Lemma credential_payload_no_time_claims data :
  credential_payload data -> data !! "iat" = None /\ data !! "nbf" = None.
Proof. by intros []. Qed.

Lemma verify_issued cfg now utcnow data expires_delta :
  credential_payload data ->
  verify_token cfg now (create_access_token cfg utcnow data expires_delta)
  = if timegm (utcnow + ttl cfg expires_delta) <? timegm now
    then Raise credentials_exception
    else Ok (<["exp" := JInt (timegm (utcnow + ttl cfg expires_delta))]>
               data).
Proof.
  intros Hd. destruct (credential_payload_no_time_claims _ Hd) as [Hi Hn].
  rewrite (create_access_token_claims _ _ _ _ Hi Hn), verify_signed.
  unfold validate_exp. rewrite lookup_insert_eq.
  by destruct (_ <? timegm now).
Qed.

Lemma timegm_mono a b : a <= b -> timegm a <= timegm b.
Proof. intros. unfold timegm. apply Z.div_le_mono; lia. Qed.

Lemma not_expired_before cfg utcnow expires_delta now :
  now < utcnow + ttl cfg expires_delta ->
  (timegm (utcnow + ttl cfg expires_delta) <? timegm now) = false.
Proof. intros. apply Z.ltb_ge, timegm_mono. lia. Qed.

Lemma verify_garbage cfg now s :
  verify_token cfg now (Garbage s) = Raise credentials_exception.
Proof. reflexivity. Qed.

Lemma extract_refresh_issued cfg utcnow now now'
      client_id client_secret user_agent refresh_token :
  now < utcnow + timedelta_minutes (ACCESS_TOKEN_EXPIRE_MINUTES cfg) ->
  extract_refresh_token_credentials cfg now now'
    (create_refresh_token cfg utcnow client_id client_secret user_agent
       refresh_token)
  = Ok (refresh_credential_set client_id client_secret user_agent
          refresh_token).
Proof.
  intros Hlive.
  unfold extract_refresh_token_credentials, create_refresh_token.
  rewrite verify_issued by apply refresh_payload.
  rewrite (not_expired_before cfg utcnow None now Hlive). reflexivity.
Qed.

Lemma extract_reddit_issued cfg utcnow now
      client_id client_secret username password user_agent :
  now < utcnow + timedelta_minutes (ACCESS_TOKEN_EXPIRE_MINUTES cfg) ->
  extract_reddit_credentials cfg now
    (create_reddit_token cfg utcnow client_id client_secret username
       password user_agent)
  = Ok (legacy_credential_set client_id client_secret username password
          user_agent).
Proof.
  intros Hlive.
  unfold extract_reddit_credentials, create_reddit_token.
  rewrite verify_issued by apply legacy_payload.
  rewrite (not_expired_before cfg utcnow None now Hlive). reflexivity.
Qed.

(** C3.  Issuing a session token for a delegated credential set and
    extracting with the extractor of the same kind, while the token is
    still valid, returns the credential set field for field: the refresh
    shape through [create_refresh_token] and
    [extract_refresh_token_credentials], the legacy shape through
    [create_reddit_token] and [extract_reddit_credentials]. *)
Theorem extract_issue_roundtrip cfg utcnow now now'
        client_id client_secret user_agent refresh_token username password :
  now < utcnow + timedelta_minutes (ACCESS_TOKEN_EXPIRE_MINUTES cfg) ->
  extract_refresh_token_credentials cfg now now'
    (create_refresh_token cfg utcnow client_id client_secret user_agent
       refresh_token)
  = Ok (refresh_credential_set client_id client_secret user_agent
          refresh_token)
  /\ extract_reddit_credentials cfg now
       (create_reddit_token cfg utcnow client_id client_secret username
          password user_agent)
     = Ok (legacy_credential_set client_id client_secret username password
             user_agent).
Proof.
  intros Hlive. split.
  - by apply extract_refresh_issued.
  - by apply extract_reddit_issued.
Qed.

Lemma extract_issue_roundtrip_witness :
  extract_refresh_token_credentials default_config 5000000 5000000
    (create_refresh_token default_config 0 "cid" "secret" "agent" "rt")
  = Ok (refresh_credential_set "cid" "secret" "agent" "rt")
  /\ extract_reddit_credentials default_config 5000000
       (create_reddit_token default_config 0 "cid" "secret" "user" "pw"
          "agent")
     = Ok (legacy_credential_set "cid" "secret" "user" "pw" "agent").
Proof.
  apply (extract_issue_roundtrip default_config 0 5000000 5000000).
  reflexivity.
Defined.

(** C1, as the code has it.  On a token issued by the legacy path and
    still valid, [extract_refresh_token_credentials] takes its legacy
    fall-back and returns the whole legacy credential set; it raises 401
    "Invalid token type" on every verified payload whose [token_type] is
    neither ["reddit_refresh_access"] nor ["reddit_access"]. *)
Theorem extract_refresh_falls_back_on_legacy cfg utcnow now now'
        client_id client_secret username password user_agent :
  now < utcnow + timedelta_minutes (ACCESS_TOKEN_EXPIRE_MINUTES cfg) ->
  now' < utcnow + timedelta_minutes (ACCESS_TOKEN_EXPIRE_MINUTES cfg) ->
  extract_refresh_token_credentials cfg now now'
    (create_reddit_token cfg utcnow client_id client_secret username
       password user_agent)
  = Ok (legacy_credential_set client_id client_secret username password
          user_agent)
  /\ forall t payload,
       verify_token cfg now t = Ok payload ->
       token_type_is payload "reddit_refresh_access" = false ->
       token_type_is payload "reddit_access" = false ->
       extract_refresh_token_credentials cfg now now' t
       = Raise invalid_token_type.
Proof.
  intros Hlive Hlive'. split.
  - pose proof (extract_reddit_issued cfg utcnow now' client_id
                  client_secret username password user_agent Hlive')
      as Hlegacy.
    unfold extract_refresh_token_credentials, create_reddit_token.
    rewrite verify_issued by apply legacy_payload.
    rewrite (not_expired_before cfg utcnow None now Hlive).
    exact Hlegacy.
  - intros t payload Hv Hr Hl. unfold extract_refresh_token_credentials.
    by rewrite Hv, Hr, Hl.
Qed.

Lemma extract_refresh_falls_back_on_legacy_witness :
  extract_refresh_token_credentials default_config 1000000 2000000
    (create_reddit_token default_config 0 "cid" "secret" "user" "pw" "agent")
  = Ok (legacy_credential_set "cid" "secret" "user" "pw" "agent")
  /\ forall t payload,
       verify_token default_config 1000000 t = Ok payload ->
       token_type_is payload "reddit_refresh_access" = false ->
       token_type_is payload "reddit_access" = false ->
       extract_refresh_token_credentials default_config 1000000 2000000 t
       = Raise invalid_token_type.
Proof.
  apply (extract_refresh_falls_back_on_legacy default_config 0);
    reflexivity.
Defined.

(** C1 as stated fails: the refresh extractor applied to a legacy token
    returns the username and password instead of raising. *)
Lemma extract_refresh_on_legacy_returns_credentials :
  extract_refresh_token_credentials default_config 1000000 2000000
    (create_reddit_token default_config 0 "cid" "secret" "user" "pw" "agent")
  = Ok (legacy_credential_set "cid" "secret" "user" "pw" "agent")
  /\ extract_refresh_token_credentials default_config 1000000 2000000
       (create_reddit_token default_config 0 "cid" "secret" "user" "pw"
          "agent")
     <> Raise invalid_token_type.
Proof.
  assert (E : extract_refresh_token_credentials default_config 1000000
                2000000
                (create_reddit_token default_config 0 "cid" "secret" "user"
                   "pw" "agent")
              = Ok (legacy_credential_set "cid" "secret" "user" "pw"
                      "agent")) by reflexivity.
  split; [exact E | rewrite E; discriminate].
Qed.

(** C4, as the code has it.  A credential payload issued at [utcnow] with
    lifetime [ttl] verifies, and [verify_token] returns it with its [exp]
    claim, at every instant before [utcnow + ttl] and more generally up to
    the end of the whole second of [utcnow + ttl]; at every instant in a
    later second verification fails, with the generic 401 "Could not
    validate credentials" that a malformed token gets as well. *)
Theorem verify_token_expiry cfg utcnow data expires_delta now :
  credential_payload data ->
  let issued := create_access_token cfg utcnow data expires_delta in
  let exp := timegm (utcnow + ttl cfg expires_delta) in
  (now < utcnow + ttl cfg expires_delta ->
   verify_token cfg now issued = Ok (<["exp" := JInt exp]> data))
  /\ (timegm now <= exp ->
      verify_token cfg now issued = Ok (<["exp" := JInt exp]> data))
  /\ (exp < timegm now ->
      verify_token cfg now issued = Raise credentials_exception
      /\ forall s, verify_token cfg now (Garbage s)
                   = verify_token cfg now issued).
Proof.
  intros Hd issued exp. subst issued exp.
  rewrite (verify_issued cfg now utcnow data expires_delta Hd).
  repeat split.
  - intros H. by rewrite not_expired_before.
  - intros H. apply Z.ltb_ge in H. by rewrite H.
  - apply Z.ltb_lt in H. by rewrite H.
  - intros s. apply Z.ltb_lt in H. by rewrite H.
Qed.

Lemma verify_token_expiry_witness :
  credential_payload (refresh_token_data "cid" "secret" "agent" "rt")
  /\ verify_token default_config 43199999999
       (create_refresh_token default_config 0 "cid" "secret" "agent" "rt")
     = Ok (<["exp" := JInt 43200]>
             (refresh_token_data "cid" "secret" "agent" "rt"))
  /\ verify_token default_config 43201000000
       (create_refresh_token default_config 0 "cid" "secret" "agent" "rt")
     = Raise credentials_exception.
Proof.
  split; [apply refresh_payload|]. split.
  - exact (proj1 (verify_token_expiry default_config 0 _ None 43199999999
                    (refresh_payload "cid" "secret" "agent" "rt"))
                 eq_refl).
  - exact (proj1 (proj2 (proj2
                    (verify_token_expiry default_config 0 _ None
                       43201000000
                       (refresh_payload "cid" "secret" "agent" "rt")))
                    eq_refl)).
Defined.

(** C4 as stated fails twice over: at the instant issuance + ttl itself
    the token still verifies, and once it has expired the error is the one
    a malformed token gets, so it does not tell expiry apart. *)
Lemma verify_token_boundary_and_generic_error :
  verify_token default_config 43200000000
    (create_refresh_token default_config 0 "cid" "secret" "agent" "rt")
  = Ok (<["exp" := JInt 43200]>
          (refresh_token_data "cid" "secret" "agent" "rt"))
  /\ verify_token default_config 43201000000
       (create_refresh_token default_config 0 "cid" "secret" "agent" "rt")
     = Raise credentials_exception
  /\ verify_token default_config 43201000000 (Garbage "not-a-token")
     = Raise credentials_exception.
Proof. split; [reflexivity | split; reflexivity]. Qed.

(** ** The client cache *)

Lemma get_reddit_client_authenticate env b :
  get_reddit_client env b
  = authenticate env (cache_key_token b)
      (token_only_kwargs "RedditAPIWrapper/1.0") b.
Proof. reflexivity. Qed.

Lemma get_reddit_client_with_headers_authenticate env b x_id x_secret x_ua :
  get_reddit_client_with_headers env b x_id x_secret x_ua
  = authenticate env (cache_key_with_headers b x_id)
      (header_kwargs x_id x_secret x_ua) b.
Proof.
  unfold get_reddit_client_with_headers, authenticate, header_kwargs.
  by destruct (truthy x_id && truthy x_secret).
Qed.

Lemma check_cached_client_miss env key w :
  cache w !! key = None ->
  check_cached_client env key w = (Ok None, w).
Proof.
  intros H. unfold check_cached_client, bind, cache_get. by rewrite H.
Qed.

Lemma check_cached_client_live env key w r u :
  cache w !! key = Some r ->
  on_me env (length (trace w)) r = Returns (Some u) ->
  check_cached_client env key w = (Ok (Some r), logged w [EvMe r]).
Proof.
  intros H Hme.
  unfold check_cached_client, bind, cache_get, try_except, user_me.
  rewrite H. cbn. rewrite Hme. reflexivity.
Qed.

Lemma check_cached_client_stale env key w r :
  cache w !! key = Some r ->
  (forall u, on_me env (length (trace w)) r <> Returns (Some u)) ->
  check_cached_client env key w
  = (Ok None, {| cache := delete key (cache w); heap := heap w;
                 trace := (trace w ++ [EvMe r])%list |}).
Proof.
  intros H Hme.
  unfold check_cached_client, bind, cache_get, try_except, user_me.
  rewrite H. cbn.
  destruct (on_me env (length (trace w)) r) as [[u|]|msg] eqn:E.
  - by destruct (Hme u).
  - unfold cache_del, ret. simpl. rewrite H. reflexivity.
  - unfold cache_del, ret. simpl. rewrite H. simpl. rewrite H. reflexivity.
Qed.

Lemma length_snoc {A} (l : list A) (x : A) :
  length (l ++ [x])%list = S (length l).
Proof. rewrite length_app. cbn. lia. Qed.

Lemma authenticate_construct env key kw tok w w1 :
  check_cached_client env key w = (Ok None, w1) ->
  authenticate env key kw tok w
  = match on_init env (length (trace w1)) kw with
    | Some msg =>
        (Raise (unauthorized ("Authentication failed: " ++ msg)),
         logged w1 [EvInitRaised kw])
    | None =>
        let fresh := length (heap w1) in
        let heap' := (heap w1 ++ [fresh_client kw tok])%list in
        match on_me env (S (length (trace w1))) fresh with
        | Returns (Some u) =>
            (Ok fresh,
             {| cache := <[key := fresh]> (cache w1); heap := heap';
                trace := (trace w1 ++ [EvInit fresh; EvMe fresh])%list |})
        | Returns None =>
            (Raise (unauthorized ("Reddit authentication failed: "
                                  ++ str_exn invalid_token_exception)),
             {| cache := cache w1; heap := heap';
                trace := (trace w1 ++ [EvInit fresh; EvMe fresh;
                                       EvClose fresh; EvClose fresh])%list |})
        | Raises msg =>
            (Raise (unauthorized ("Reddit authentication failed: " ++ msg)),
             {| cache := cache w1; heap := heap';
                trace := (trace w1 ++ [EvInit fresh; EvMe fresh;
                                       EvClose fresh])%list |})
        end
    end.
Proof.
  intros Hc. unfold authenticate, guard_401, try_except, bind at 1.
  rewrite Hc. unfold bind, Reddit_init.
  destruct (on_init env (length (trace w1)) kw) as [msg|] eqn:Ei.
  { reflexivity. }
  unfold set_access_token, test_authentication, try_except, bind, user_me.
  cbn [cache heap trace]. rewrite length_snoc.
  rewrite alter_app_r_alt by lia. rewrite Nat.sub_diag. cbn [alter list_alter].
  destruct (on_me env (S (length (trace w1))) (length (heap w1)))
    as [[u|]|msg] eqn:Em.
  - unfold logged, cache_set, ret. cbn. rewrite <- !app_assoc. reflexivity.
  - unfold logged, close, log, raise. cbn. rewrite <- !app_assoc. reflexivity.
  - unfold logged, close, log, raise. cbn. rewrite <- !app_assoc. reflexivity.
Qed.

Lemma probes_snoc_me w r :
  probes (logged w [EvMe r]) = S (probes w).
Proof.
  unfold probes, logged. cbn [trace]. rewrite List.filter_app, length_app.
  cbn. lia.
Qed.

Lemma constructions_snoc_me w r :
  constructions (logged w [EvMe r]) = constructions w.
Proof.
  unfold constructions, logged. cbn [trace].
  rewrite List.filter_app, length_app. cbn. lia.
Qed.

Lemma authenticate_live env key kw tok w r u :
  cache w !! key = Some r ->
  on_me env (length (trace w)) r = Returns (Some u) ->
  authenticate env key kw tok w = (Ok r, logged w [EvMe r]).
Proof.
  intros Hc Hme. unfold authenticate, guard_401, try_except, bind at 1.
  by rewrite (check_cached_client_live env key w r u Hc Hme).
Qed.

Lemma authenticate_reuses env key kw tok w r u1 u2 :
  cache w !! key = Some r ->
  on_me env (length (trace w)) r = Returns (Some u1) ->
  on_me env (S (length (trace w))) r = Returns (Some u2) ->
  reuses (authenticate env key kw tok) w r.
Proof.
  intros Hc H1 H2.
  exists (logged w [EvMe r]), (logged (logged w [EvMe r]) [EvMe r]).
  rewrite (authenticate_live env key kw tok w r u1 Hc H1).
  rewrite (authenticate_live env key kw tok (logged w [EvMe r]) r u2);
    [| exact Hc | by cbn [logged trace]; rewrite length_snoc ].
  rewrite !probes_snoc_me, !constructions_snoc_me.
  repeat split; reflexivity.
Qed.

Lemma constructions_app w evs :
  constructions (logged w evs)
  = (constructions w + length (List.filter is_construction evs))%nat.
Proof.
  unfold constructions, logged. cbn [trace].
  by rewrite List.filter_app, length_app.
Qed.

Lemma authenticate_stale env key kw tok w stale :
  cache w !! key = Some stale ->
  (stale < length (heap w))%nat ->
  (forall u, on_me env (length (trace w)) stale <> Returns (Some u)) ->
  evicts_and_rebuilds env (authenticate env key kw tok) key kw tok w stale.
Proof.
  intros Hc Hlt Hme. unfold evicts_and_rebuilds.
  pose proof (check_cached_client_stale env key w stale Hc Hme) as Hs.
  rewrite (authenticate_construct env key kw tok w _ Hs).
  cbn [cache heap trace]. rewrite length_snoc.
  destruct (on_init env (S (length (trace w))) kw) as [msg|] eqn:Ei.
  { eexists _, _. split; [reflexivity|]. split; [discriminate|].
    split; [exists [EvInitRaised kw]; cbn; by rewrite <- app_assoc|].
    split.
    { unfold constructions. cbn [trace logged].
      rewrite !List.filter_app, !length_app. cbn. lia. }
    cbn [status_of unauthorized cache logged].
    split; [reflexivity|]. split; [apply lookup_delete_eq|]. by left. }
  cbn zeta.
  destruct (on_me env (S (S (length (trace w)))) (length (heap w)))
    as [[u|]|msg] eqn:Em.
  - eexists _, _. split; [reflexivity|].
    split; [intros [= E]; lia|].
    split; [eexists; cbn [trace]; by rewrite <- app_assoc|].
    split.
    { unfold constructions. cbn [trace].
      rewrite !List.filter_app, !length_app. cbn. lia. }
    split; [reflexivity|]. split; [reflexivity|]. split; [by exists u|].
    cbn [heap cache]. split.
    + rewrite lookup_app_r by lia. by rewrite Nat.sub_diag.
    + apply insert_delete_eq.
  - eexists _, _. split; [reflexivity|]. split; [discriminate|].
    split; [eexists; cbn [trace]; by rewrite <- app_assoc|].
    split.
    { unfold constructions. cbn [trace].
      rewrite !List.filter_app, !length_app. cbn. lia. }
    cbn [status_of unauthorized cache].
    split; [reflexivity|]. split; [apply lookup_delete_eq|].
    right. intros u. congruence.
  - eexists _, _. split; [reflexivity|]. split; [discriminate|].
    split; [eexists; cbn [trace]; by rewrite <- app_assoc|].
    split.
    { unfold constructions. cbn [trace].
      rewrite !List.filter_app, !length_app. cbn. lia. }
    cbn [status_of unauthorized cache].
    split; [reflexivity|]. split; [apply lookup_delete_eq|].
    right. intros u. congruence.
Qed.

(** C6.  When the key derived from the bearer value is cached with a handle
    whose liveness probe succeeds, two successive calls of either
    dependency return that very handle; each call performs exactly one
    probe ([EvMe] on that handle) and constructs nothing, and heap and
    cache are left as they were. *)
Theorem cache_hit_returns_same_handle env b x_id x_secret x_ua w r u1 u2 :
  on_me env (length (trace w)) r = Returns (Some u1) ->
  on_me env (S (length (trace w))) r = Returns (Some u2) ->
  (cache w !! cache_key_token b = Some r ->
   reuses (get_reddit_client env b) w r)
  /\ (cache w !! cache_key_with_headers b x_id = Some r ->
      reuses (get_reddit_client_with_headers env b x_id x_secret x_ua) w r).
Proof.
  intros H1 H2. split; intros Hc.
  - rewrite get_reddit_client_authenticate.
    by apply (authenticate_reuses env _ _ _ w r u1 u2).
  - rewrite get_reddit_client_with_headers_authenticate.
    by apply (authenticate_reuses env _ _ _ w r u1 u2).
Qed.

Lemma cache_hit_returns_same_handle_witness :
  reuses (get_reddit_client env_live "tok") w_cached 0%nat
  /\ reuses (get_reddit_client_with_headers env_live "tok" None None None)
            w_cached 0%nat.
Proof.
  destruct (cache_hit_returns_same_handle env_live "tok" None None None
              w_cached 0%nat alice alice eq_refl eq_refl) as [H1 H2].
  split; [apply H1 | apply H2]; reflexivity.
Defined.

(** C5.  When the handle cached under the derived key fails the liveness
    probe (it raises, or returns [None]), either dependency deletes the
    entry, never returns the stale handle, and goes on to one construction
    attempt.  If the new client is built and its probe succeeds, the new
    handle is cached under the key and returned; otherwise the request
    fails with status 401 and nothing is cached under the key. *)
Theorem stale_entry_is_evicted env b x_id x_secret x_ua w stale :
  (stale < length (heap w))%nat ->
  (forall u, on_me env (length (trace w)) stale <> Returns (Some u)) ->
  (cache w !! cache_key_token b = Some stale ->
   evicts_and_rebuilds env (get_reddit_client env b) (cache_key_token b)
     (token_only_kwargs "RedditAPIWrapper/1.0") b w stale)
  /\ (cache w !! cache_key_with_headers b x_id = Some stale ->
      evicts_and_rebuilds env
        (get_reddit_client_with_headers env b x_id x_secret x_ua)
        (cache_key_with_headers b x_id)
        (header_kwargs x_id x_secret x_ua) b w stale).
Proof.
  intros Hlt Hme. split; intros Hc.
  - rewrite get_reddit_client_authenticate.
    by apply authenticate_stale.
  - rewrite get_reddit_client_with_headers_authenticate.
    by apply authenticate_stale.
Qed.

Lemma stale_entry_is_evicted_witness :
  evicts_and_rebuilds env_recovering (get_reddit_client env_recovering "tok")
    "reddit_token_tok" (token_only_kwargs "RedditAPIWrapper/1.0") "tok"
    w_cached 0%nat
  /\ evicts_and_rebuilds env_recovering
       (get_reddit_client_with_headers env_recovering "tok" None None None)
       "reddit_tok" (token_only_kwargs "RedditAPIWrapper/1.0") "tok"
       w_cached 0%nat.
Proof.
  assert (Hlt : (0 < length (heap w_cached))%nat) by (cbn; lia).
  assert (Hme : forall u, on_me env_recovering (length (trace w_cached)) 0%nat
                          <> Returns (Some u)) by (intros u; discriminate).
  destruct (stale_entry_is_evicted env_recovering "tok" None None None
              w_cached 0%nat Hlt Hme) as [H1 H2].
  split; [apply H1 | apply H2]; reflexivity.
Defined.

Lemma prefix_empty_iff n s : prefix (S n) s = "" <-> s = "".
Proof. destruct s; cbn; split; intros; done. Qed.

Lemma truthy_prefix n (c : option string) :
  truthy (prefix (S n) <$> c) = truthy c.
Proof.
  destruct c as [s|]; [|done]. cbn [fmap option_fmap option_map truthy].
  destruct s; reflexivity.
Qed.

Lemma cache_key_with_headers_prefixes b c :
  cache_key_with_headers b c
  = "reddit_" ++ String.concat "_"
      (prefix 16 b ::
       match prefix 8 <$> c with
       | Some p => if truthy (Some p) then [p] else []
       | None => []
       end).
Proof.
  unfold cache_key_with_headers. destruct c as [s|]; [|done].
  cbn [fmap option_fmap option_map]. by destruct s.
Qed.

(** C9.  The cache key is a function of the first 16 characters of the
    bearer value and, when an app-id header is given, of its first 8
    characters, and of nothing else: two requests that agree on these
    prefixes (app-id headers both absent, or agreeing on 8 characters)
    derive the same key, in the header-aware dependency and in the plain
    one, whose key ignores the header altogether. *)
Theorem cache_key_determined_by_prefixes b1 b2 (c1 c2 : option string) :
  prefix 16 b1 = prefix 16 b2 ->
  prefix 8 <$> c1 = prefix 8 <$> c2 ->
  cache_key_with_headers b1 c1 = cache_key_with_headers b2 c2
  /\ cache_key_token b1 = cache_key_token b2.
Proof.
  intros Hb Hc. split.
  - by rewrite !cache_key_with_headers_prefixes, Hb, Hc.
  - unfold cache_key_token. by rewrite Hb.
Qed.

Lemma cache_key_determined_by_prefixes_witness :
  cache_key_with_headers "0123456789abcdef-first" (Some "app-id-1-alpha")
  = cache_key_with_headers "0123456789abcdef-second" (Some "app-id-1-beta")
  /\ cache_key_token "0123456789abcdef-first"
     = cache_key_token "0123456789abcdef-second".
Proof.
  apply cache_key_determined_by_prefixes; reflexivity.
Defined.

Lemma authenticate_heap env key kw tok w res w' :
  authenticate env key kw tok w = (res, w') ->
  heap w' = heap w \/ heap w' = (heap w ++ [fresh_client kw tok])%list.
Proof.
  assert (Hbuild : forall w1, heap w1 = heap w ->
            check_cached_client env key w = (Ok None, w1) ->
            authenticate env key kw tok w = (res, w') ->
            heap w' = heap w
            \/ heap w' = (heap w ++ [fresh_client kw tok])%list).
  { intros w1 Hh Hs. rewrite (authenticate_construct env key kw tok w w1 Hs).
    destruct (on_init env _ kw); [intros [= _ <-]; by left|].
    cbn zeta. rewrite Hh.
    destruct (on_me env _ _) as [[u|]|msg]; intros [= _ <-]; by right. }
  destruct (cache w !! key) as [r|] eqn:Hc.
  - destruct (on_me env (length (trace w)) r) as [[u|]|msg] eqn:Hme.
    + rewrite (authenticate_live env key kw tok w r u Hc Hme).
      intros [= _ <-]. by left.
    + eapply Hbuild;
        [| apply (check_cached_client_stale env key w r Hc);
           intros u; congruence ]; reflexivity.
    + eapply Hbuild;
        [| apply (check_cached_client_stale env key w r Hc);
           intros u; congruence ]; reflexivity.
  - apply (Hbuild w eq_refl (check_cached_client_miss env key w Hc)).
Qed.

Lemma new_object env key kw tok w res w' (r : handle) (obj : Reddit) :
  authenticate env key kw tok w = (res, w') ->
  heap w' !! r = Some obj -> heap w !! r = None ->
  obj = fresh_client kw tok.
Proof.
  intros Hrun Hnew Hold.
  destruct (authenticate_heap env key kw tok w res w' Hrun) as [E|E];
    rewrite E in Hnew; [congruence|].
  apply lookup_ge_None in Hold.
  rewrite lookup_app_r in Hnew by lia.
  destruct (r - length (heap w))%nat as [|k]; cbn in Hnew.
  - by injection Hnew.
  - by destruct k.
Qed.

(** C10.  In the header-aware dependency, a request that carries a
    non-empty X-Reddit-Client-Id and no X-Reddit-Client-Secret gets a
    cache key ending in the first 8 characters of the client id, while
    every client the call constructs is built without client id and
    secret (token-only mode) and then given the bearer value as access
    token; on a cache miss with a successful constructor such a client is
    indeed built.  For arbitrary headers, a client constructed with a
    client id implies that both headers were present and non-empty. *)
Theorem client_id_without_secret env b cid x_ua w :
  cid <> "" ->
  cache_key_with_headers b (Some cid)
  = "reddit_" ++ prefix 16 b ++ "_" ++ prefix 8 cid
  /\ (forall res w' r obj,
        get_reddit_client_with_headers env b (Some cid) None x_ua w
        = (res, w') ->
        heap w' !! r = Some obj -> heap w !! r = None ->
        kw_client_id (config obj) = None
        /\ kw_client_secret (config obj) = None
        /\ authorizer_access_token obj = Some b)
  /\ (cache w !! cache_key_with_headers b (Some cid) = None ->
      on_init env (length (trace w)) (header_kwargs (Some cid) None x_ua)
      = None ->
      exists obj,
        heap (snd (get_reddit_client_with_headers env b (Some cid) None x_ua
                     w)) !! length (heap w) = Some obj
        /\ kw_client_id (config obj) = None
        /\ kw_client_secret (config obj) = None)
  /\ (forall x_id x_secret res w' r obj,
        get_reddit_client_with_headers env b x_id x_secret x_ua w
        = (res, w') ->
        heap w' !! r = Some obj -> heap w !! r = None ->
        is_Some (kw_client_id (config obj)) ->
        truthy x_id = true /\ truthy x_secret = true).
Proof.
  intros Hcid. split; [|split; [|split]].
  - unfold cache_key_with_headers. cbn [truthy].
    rewrite bool_decide_eq_false_2 by done. reflexivity.
  - intros res w' r obj Hrun Hnew Hold.
    rewrite get_reddit_client_with_headers_authenticate in Hrun.
    rewrite (new_object _ _ _ _ _ _ _ _ _ Hrun Hnew Hold).
    unfold header_kwargs. cbn [truthy andb].
    rewrite andb_false_r. by destruct x_ua as [[|]|].
  - intros Hmiss Hinit.
    rewrite get_reddit_client_with_headers_authenticate.
    rewrite (authenticate_construct _ _ _ _ _ _
               (check_cached_client_miss env _ w Hmiss)).
    rewrite Hinit. cbn zeta.
    exists (fresh_client (header_kwargs (Some cid) None x_ua) b).
    split.
    + destruct (on_me env _ _) as [[u|]|msg]; cbn [snd heap];
        rewrite lookup_app_r by lia; by rewrite Nat.sub_diag.
    + unfold header_kwargs. cbn [truthy andb]. rewrite andb_false_r.
      by destruct x_ua as [[|]|].
  - intros x_id x_secret res w' r obj Hrun Hnew Hold Hsome.
    rewrite get_reddit_client_with_headers_authenticate in Hrun.
    rewrite (new_object _ _ _ _ _ _ _ _ _ Hrun Hnew Hold) in Hsome.
    unfold header_kwargs in Hsome.
    destruct (truthy x_id) eqn:E1, (truthy x_secret) eqn:E2;
      cbn in Hsome; try done; by destruct Hsome.
Qed.

Lemma client_id_without_secret_witness :
  cache_key_with_headers "0123456789abcdef-first" (Some "app-id-1-alpha")
  = "reddit_0123456789abcdef_app-id-1"
  /\ exists obj,
       heap (snd (get_reddit_client_with_headers env_live
                    "0123456789abcdef-first" (Some "app-id-1-alpha") None
                    None empty_world)) !! length (heap empty_world)
       = Some obj
       /\ kw_client_id (config obj) = None
       /\ kw_client_secret (config obj) = None.
Proof.
  destruct (client_id_without_secret env_live "0123456789abcdef-first"
              "app-id-1-alpha" None empty_world ltac:(discriminate))
    as (Hkey & _ & Hbuilt & _).
  split; [exact Hkey | apply Hbuilt; reflexivity].
Defined.

(** ** The authorization URL *)

Lemma b64_char_safe n : Urllib.always_safe (Secrets.b64_char n) = true.
Proof.
  do 64 (destruct n as [|n]; [reflexivity|]). reflexivity.
Qed.

Lemma b64_char_not_pad n : Ascii.eqb (Secrets.b64_char n) "=" = false.
Proof.
  do 64 (destruct n as [|n]; [reflexivity|]). reflexivity.
Qed.

Lemma quote_plus_safe_cons c s :
  Urllib.always_safe c = true ->
  Urllib.quote_plus (String c s) = String c (Urllib.quote_plus s).
Proof.
  intros H. cbn [Urllib.quote_plus]. unfold Urllib.quote_plus_char.
  by rewrite H.
Qed.

Lemma rstrip_b64_char n s :
  Secrets.rstrip "=" (String (Secrets.b64_char n) s)
  = String (Secrets.b64_char n) (Secrets.rstrip "=" s).
Proof.
  cbn [Secrets.rstrip]. rewrite b64_char_not_pad.
  by destruct (Secrets.rstrip "=" s).
Qed.

Lemma token_urlsafe_32 urandom :
  String.length (Secrets.token_urlsafe urandom 32) = 43%nat
  /\ Urllib.quote_plus (Secrets.token_urlsafe urandom 32)
     = Secrets.token_urlsafe urandom 32.
Proof.
  unfold Secrets.token_urlsafe, Secrets.token_bytes.
  cbn [seq List.map Secrets.urlsafe_b64encode].
  rewrite !rstrip_b64_char. cbn [Secrets.rstrip Ascii.eqb Bool.eqb].
  split; [reflexivity|].
  rewrite !quote_plus_safe_cons by apply b64_char_safe. reflexivity.
Qed.

(** C8.  For the request with client id ["cid"], redirect URI
    ["http://localhost:8080"], scopes [["*"]], duration ["permanent"] and
    no state, whatever the other fields and the entropy source, the
    endpoint answers with a URL on the platform's authorize endpoint
    whose query is exactly client_id=cid, response_type=code, state,
    redirect_uri=http%3A%2F%2Flocalhost%3A8080, duration=permanent and
    scope=%2A; the state parameter is the [state] field of the response
    and is 43 characters long, which is at least 32. *)
Theorem authorization_url_of_sample_request urandom secret agent :
  exists response,
    get_authorization_url urandom
      {| AuthorizationURLRequest.client_id := "cid";
         AuthorizationURLRequest.client_secret := secret;
         AuthorizationURLRequest.redirect_uri := "http://localhost:8080";
         AuthorizationURLRequest.user_agent := agent;
         AuthorizationURLRequest.scopes := ["*"];
         AuthorizationURLRequest.state := None;
         AuthorizationURLRequest.duration := "permanent" |}
    = Ok response
    /\ AuthorizationURLResponse.authorization_url response
       = "https://www.reddit.com/api/v1/authorize?"
         ++ String.concat "&"
              ["client_id=cid"; "response_type=code";
               "state=" ++ AuthorizationURLResponse.state response;
               "redirect_uri=http%3A%2F%2Flocalhost%3A8080";
               "duration=permanent"; "scope=%2A"]
    /\ String.length (AuthorizationURLResponse.state response) = 43%nat
    /\ (32 <= String.length (AuthorizationURLResponse.state response))%nat.
Proof.
  destruct (token_urlsafe_32 urandom) as [Hlen Hquote].
  eexists. split; [reflexivity|].
  cbn [AuthorizationURLResponse.authorization_url
       AuthorizationURLResponse.state AuthorizationURLRequest.state
       AuthorizationURLRequest.client_id
       AuthorizationURLRequest.redirect_uri
       AuthorizationURLRequest.duration AuthorizationURLRequest.scopes].
  split; [| split; [exact Hlen | rewrite Hlen; lia]].
  unfold Urllib.urlencode. cbn [List.map fst snd]. rewrite Hquote.
  generalize (Secrets.token_urlsafe urandom 32). intros st.
  reflexivity.
Qed.

(** ** The authentication flows *)

Ltac unfold_flow :=
  unfold AuthEndpointsBackup.guard_http, AuthEndpointsBackup.lift;
  unfold bind, try_except, try_finally, attempt, Reddit_init, user_me,
    auth_authorize, close, log, set_access_token, get_access_token,
    get_refresh_token, get_scopes, getattr, raise, ret.

Ltac step_oracle :=
  match goal with
  | |- context [on_init ?e ?n ?k] =>
      destruct (on_init e n k) as [?msg|] eqn:?
  | |- context [on_authorize ?e ?n ?r ?c] =>
      destruct (on_authorize e n r c) as [?g|?msg] eqn:?
  | |- context [on_me ?e ?n ?r] =>
      destruct (on_me e n r) as [[?u|]|?msg] eqn:?
  end; cbn.

Ltac case_inner :=
  match goal with
  | |- context [match ?x with _ => _ end] =>
      lazymatch x with
      | context [match _ with _ => _ end] => fail
      | _ => destruct x eqn:?
      end
  end; cbn.

Ltac solve_released :=
  intros ?r; unfold_flow; cbn;
  repeat step_oracle; repeat case_inner;
  rewrite ?elem_of_app, ?elem_of_cons, ?elem_of_nil;
  intuition (try discriminate; try congruence).

Lemma current_callback_releases env request w :
  released w (snd (AuthEndpoints.oauth2_callback env request w)).
Proof.
  unfold AuthEndpoints.oauth2_callback. solve_released.
Qed.

Lemma current_validate_releases env request w :
  released w (snd (AuthEndpoints.validate_token env request w)).
Proof.
  unfold AuthEndpoints.validate_token. solve_released.
Qed.

Lemma backup_login_refresh_releases cfg env utcnow request w :
  released w
    (snd (AuthEndpointsBackup.login_with_refresh_token cfg env utcnow
            request w)).
Proof.
  unfold AuthEndpointsBackup.login_with_refresh_token. solve_released.
Qed.

Lemma backup_login_releases cfg env utcnow request w :
  released w (snd (AuthEndpointsBackup.login cfg env utcnow request w)).
Proof.
  unfold AuthEndpointsBackup.login. solve_released.
Qed.

Lemma backup_validate_releases cfg env now t w :
  released w (snd (AuthEndpointsBackup.validate_token cfg env now t w)).
Proof.
  unfold AuthEndpointsBackup.validate_token.
  intros r. unfold_flow.
  destruct (extract_reddit_credentials cfg now t) as [creds|e];
    [| cbn; destruct (is_HTTPException e); cbn; by left ].
  unfold getitem. cbn.
  repeat step_oracle; repeat case_inner;
  rewrite ?elem_of_app, ?elem_of_cons, ?elem_of_nil;
  intuition (try discriminate; try congruence).
Qed.











(** Whenever the code exchange raises, the session-token callback fails
    with status 500 and its client is never closed. *)
Lemma backup_callback_leaks cfg env utcnow request w msg :
  on_init env (length (trace w)) (callback_kwargs request) = None ->
  on_authorize env (S (length (trace w))) (length (heap w))
    (AuthEndpointsBackup.OAuth2CallbackRequest.code request) = Raises msg ->
  AuthEndpointsBackup.oauth2_callback cfg env utcnow request w
  = (Raise (HTTPException HTTP_500_INTERNAL_SERVER_ERROR
              ("OAuth2 callback failed: " ++ msg) []),
     {| cache := cache w;
        heap := (heap w ++ [{| config := callback_kwargs request;
                               authorizer_access_token := None;
                               authorizer_refresh_token := None;
                               authorizer_scopes := None |}])%list;
        trace := (trace w ++ [EvInit (length (heap w));
                              EvAuthorize (length (heap w))
                                (AuthEndpointsBackup.OAuth2CallbackRequest.code
                                   request)])%list |}).
Proof.
  intros Hi Ha. unfold AuthEndpointsBackup.oauth2_callback.
  fold (callback_kwargs request). unfold_flow. cbn.
  rewrite Hi. cbn. rewrite length_snoc, Ha. cbn.
  by rewrite <- app_assoc.
Qed.

(** On every other path the session-token callback closes its client. *)
Lemma backup_callback_releases_otherwise cfg env utcnow request w :
  (forall msg,
     on_authorize env (S (length (trace w))) (length (heap w))
       (AuthEndpointsBackup.OAuth2CallbackRequest.code request)
     <> Raises msg) ->
  released w
    (snd (AuthEndpointsBackup.oauth2_callback cfg env utcnow request w)).
Proof.
  intros Hok r. unfold AuthEndpointsBackup.oauth2_callback.
  unfold_flow. cbn.
  destruct (on_init env _ _) as [msg|]; cbn.
  { rewrite ?elem_of_app, ?elem_of_cons, ?elem_of_nil.
    intuition (try discriminate; try congruence). }
  rewrite length_snoc.
  destruct (on_authorize env _ _ _) as [g|msg] eqn:Ha; cbn;
    [| by destruct (Hok msg) ].
  repeat step_oracle; repeat case_inner;
    rewrite ?elem_of_app, ?elem_of_cons, ?elem_of_nil;
    intuition (try discriminate; try congruence).
Qed.

(** C7 fails on the session-token callback.  With an authorization code
    that the platform rejects, [oauth2_callback] of
    [auth_endpoints_backup.py] constructs a client, the exchange raises,
    and the flow ends in HTTP 500 with the client still open: its log
    holds no [EvClose]. *)
Theorem backup_callback_leaves_client_open :
  let run := AuthEndpointsBackup.oauth2_callback default_config env_live 0
               sample_callback empty_world in
  fst run = Raise (HTTPException HTTP_500_INTERNAL_SERVER_ERROR
                     "OAuth2 callback failed: invalid_grant" [])
  /\ trace (snd run) = [EvInit 0%nat; EvAuthorize 0%nat "rejected-code"]
  /\ closed 0%nat (snd run) = false
  /\ ~ released empty_world (snd run).
Proof.
  cbv zeta.
  rewrite (backup_callback_leaks default_config env_live 0 sample_callback
             empty_world "invalid_grant" eq_refl eq_refl).
  cbn [fst snd trace empty_world heap length app].
  split; [reflexivity|]. split; [reflexivity|]. split; [reflexivity|].
  intros Hrel. destruct (Hrel 0%nat) as [H|H].
  - cbn [trace]. apply list_elem_of_here.
  - cbn [trace empty_world] in H. by apply elem_of_nil in H.
  - cbn [trace] in H.
    rewrite !elem_of_cons, elem_of_nil in H.
    intuition discriminate.
Qed.

(** * Further properties *)

(** ** More on the codec *)

(** X1.  The legacy extractor has no fall-back: applied to a still-valid
    token issued by [create_refresh_token] it raises 401 "Invalid token
    type". *)
Theorem extract_reddit_rejects_refresh_token cfg utcnow now
        client_id client_secret user_agent refresh_token :
  now < utcnow + timedelta_minutes (ACCESS_TOKEN_EXPIRE_MINUTES cfg) ->
  extract_reddit_credentials cfg now
    (create_refresh_token cfg utcnow client_id client_secret user_agent
       refresh_token)
  = Raise invalid_token_type.
Proof.
  intros Hlive. unfold extract_reddit_credentials, create_refresh_token.
  rewrite verify_issued by apply refresh_payload.
  rewrite (not_expired_before cfg utcnow None now Hlive). reflexivity.
Qed.

Lemma extract_reddit_rejects_refresh_token_witness :
  extract_reddit_credentials default_config 1000000
    (create_refresh_token default_config 0 "cid" "secret" "agent" "rt")
  = Raise invalid_token_type.
Proof.
  apply (extract_reddit_rejects_refresh_token default_config 0 1000000).
  reflexivity.
Defined.

Lemma verify_bad_tag cfg now alg claims tag :
  tag <> hmac (SECRET_KEY cfg) alg claims ->
  verify_token cfg now (Jws alg claims tag) = Raise credentials_exception.
Proof.
  intros Htag. unfold verify_token, decode.
  destruct (negb (bool_decide (alg ∈ [ALGORITHM]))); [reflexivity|].
  by rewrite (bool_decide_eq_false_2 _ Htag).
Qed.

Lemma create_access_token_shape cfg utcnow data expires_delta :
  exists claims,
    create_access_token cfg utcnow data expires_delta
    = Jws ALGORITHM claims (hmac (SECRET_KEY cfg) ALGORITHM claims).
Proof. unfold create_access_token, encode. by eexists. Qed.

Lemma check_required_fields_first_missing payload pre field post :
  Forall (fun g => payload !! g <> None) pre ->
  payload !! field = None ->
  check_required_fields payload (pre ++ field :: post)
  = Raise (missing_field field).
Proof.
  intros Hpre Hmiss. induction Hpre as [|g pre Hg _ IH]; cbn.
  - by rewrite bool_decide_eq_true_2.
  - by rewrite bool_decide_eq_false_2.
Qed.

(** X3.  A verified token of the right kind that lacks a required field is
    refused with 401 "Token missing required field: f", where f is the
    first missing field in the order the extractor lists them; this holds
    for the refresh extractor and for the legacy one. *)
Theorem extract_names_first_missing_field cfg now now' t payload
        pre field post :
  verify_token cfg now t = Ok payload ->
  Forall (fun g => payload !! g <> None) pre ->
  payload !! field = None ->
  (token_type_is payload "reddit_refresh_access" = true ->
   refresh_required_fields = (pre ++ field :: post)%list ->
   extract_refresh_token_credentials cfg now now' t
   = Raise (missing_field field))
  /\ (token_type_is payload "reddit_access" = true ->
      legacy_required_fields = (pre ++ field :: post)%list ->
      extract_reddit_credentials cfg now t = Raise (missing_field field)).
Proof.
  intros Hv Hpre Hmiss. split; intros Hkind Hfields.
  - unfold extract_refresh_token_credentials. rewrite Hv, Hkind.
    fold refresh_required_fields. rewrite Hfields.
    by rewrite (check_required_fields_first_missing _ _ _ _ Hpre Hmiss).
  - unfold extract_reddit_credentials. rewrite Hv, Hkind. cbn [negb].
    fold legacy_required_fields. rewrite Hfields.
    by rewrite (check_required_fields_first_missing _ _ _ _ Hpre Hmiss).
Qed.

Lemma extract_names_first_missing_field_witness :
  extract_refresh_token_credentials default_config 1000000 1000000
    (create_access_token default_config 0
       (<["token_type" := JStr "reddit_refresh_access"]>
          (<["reddit_client_id" := JStr "cid"]> ∅)) None)
  = Raise (missing_field "reddit_client_secret").
Proof.
  refine (proj1 (extract_names_first_missing_field default_config 1000000
                   1000000 _
                   (<["exp" := JInt 43200]>
                      (<["token_type" := JStr "reddit_refresh_access"]>
                         (<["reddit_client_id" := JStr "cid"]> ∅)))
                   ["reddit_client_id"] "reddit_client_secret"
                   ["reddit_user_agent"; "reddit_refresh_token"]
                   _ _ _) _ _).
  - reflexivity.
  - constructor; [discriminate | constructor].
  - reflexivity.
  - reflexivity.
  - reflexivity.
Defined.

Lemma extract_reddit_credentials_success cfg now t creds :
  extract_reddit_credentials cfg now t = Ok creds ->
  exists payload cid csec usr pwd ua,
    verify_token cfg now t = Ok payload
    /\ token_type_is payload "reddit_access" = true
    /\ payload !! "reddit_client_id" = Some cid
    /\ payload !! "reddit_client_secret" = Some csec
    /\ payload !! "reddit_username" = Some usr
    /\ payload !! "reddit_password" = Some pwd
    /\ payload !! "reddit_user_agent" = Some ua
    /\ creds = <["user_agent" := ua]> (<["password" := pwd]>
               (<["username" := usr]> (<["client_secret" := csec]>
               (<["client_id" := cid]> ∅)))).
Proof.
  unfold extract_reddit_credentials.
  destruct (verify_token cfg now t) as [payload|e] eqn:Hv; [|discriminate].
  destruct (token_type_is payload "reddit_access") eqn:Hk;
    cbn [negb]; [|discriminate].
  destruct (check_required_fields payload _); [|discriminate].
  unfold getitem.
  destruct (payload !! "reddit_client_id") as [cid|] eqn:H1; [|discriminate].
  destruct (payload !! "reddit_client_secret") as [csec|] eqn:H2;
    [|discriminate].
  destruct (payload !! "reddit_username") as [usr|] eqn:H3; [|discriminate].
  destruct (payload !! "reddit_password") as [pwd|] eqn:H4; [|discriminate].
  destruct (payload !! "reddit_user_agent") as [ua|] eqn:H5; [|discriminate].
  intros [= <-]. by exists payload, cid, csec, usr, pwd, ua.
Qed.

(** X4.  The extractors never return partial data.  Whatever the token,
    a result of [extract_reddit_credentials] has exactly the five keys
    client_id, client_secret, username, password and user_agent, and a
    result of [extract_refresh_token_credentials] has either exactly the
    four keys client_id, client_secret, user_agent and refresh_token or,
    through the legacy fall-back, exactly those five. *)
Theorem extractors_return_complete_sets cfg now now' t :
  (forall creds,
     extract_reddit_credentials cfg now t = Ok creds ->
     dom creds
     = ({["client_id"; "client_secret"; "username"; "password";
          "user_agent"]} : gset string))
  /\ (forall creds,
        extract_refresh_token_credentials cfg now now' t = Ok creds ->
        dom creds
        = ({["client_id"; "client_secret"; "user_agent";
             "refresh_token"]} : gset string)
        \/ dom creds
           = ({["client_id"; "client_secret"; "username"; "password";
                "user_agent"]} : gset string)).
Proof.
  assert (Hlegacy : forall n creds,
            extract_reddit_credentials cfg n t = Ok creds ->
            dom creds
            = ({["client_id"; "client_secret"; "username"; "password";
                 "user_agent"]} : gset string)).
  { intros n creds H.
    destruct (extract_reddit_credentials_success cfg n t creds H)
      as (payload & cid & csec & usr & pwd & ua & _ & _ & _ & _ & _ & _ & _
          & ->).
    rewrite !dom_insert_L, dom_empty_L. set_solver. }
  split; [apply Hlegacy|].
  intros creds. unfold extract_refresh_token_credentials.
  destruct (verify_token cfg now t) as [payload|e]; [|discriminate].
  destruct (token_type_is payload "reddit_refresh_access").
  - destruct (check_required_fields payload _); [|discriminate].
    unfold getitem.
    destruct (payload !! "reddit_client_id") as [cid|]; [|discriminate].
    destruct (payload !! "reddit_client_secret") as [csec|]; [|discriminate].
    destruct (payload !! "reddit_user_agent") as [ua|]; [|discriminate].
    destruct (payload !! "reddit_refresh_token") as [rt|]; [|discriminate].
    intros [= <-]. left. rewrite !dom_insert_L, dom_empty_L. set_solver.
  - destruct (token_type_is payload "reddit_access"); [|discriminate].
    intros H. right. by apply (Hlegacy now').
Qed.

Lemma extractors_return_complete_sets_witness :
  dom (legacy_credential_set "cid" "secret" "user" "pw" "agent")
  = ({["client_id"; "client_secret"; "username"; "password";
       "user_agent"]} : gset string).
Proof.
  apply (proj1 (extractors_return_complete_sets default_config 1000000
                  1000000
                  (create_reddit_token default_config 0 "cid" "secret"
                     "user" "pw" "agent"))).
  reflexivity.
Defined.

Lemma timegm_shift a : timegm (a - 1000000) = timegm a - 1.
Proof.
  unfold timegm. replace (a - 1000000) with (a + (-1) * 1000000) by lia.
  rewrite Z.div_add by lia. lia.
Qed.

(** X5.  The lifetime argument at its edges.  An [expires_delta] of zero
    is falsy, so the token gets the configured lifetime and, that lifetime
    not being negative, verifies at the instant of issuance; a negative
    [expires_delta] of a second or more gives a token that is already
    rejected at the instant of issuance. *)
Theorem expires_delta_zero_and_negative cfg utcnow data d :
  credential_payload data ->
  0 <= ACCESS_TOKEN_EXPIRE_MINUTES cfg ->
  d <= - 1000000 ->
  verify_token cfg utcnow (create_access_token cfg utcnow data (Some 0))
  = Ok (<["exp" := JInt (timegm (utcnow + timedelta_minutes
                                   (ACCESS_TOKEN_EXPIRE_MINUTES cfg)))]>
          data)
  /\ verify_token cfg utcnow (create_access_token cfg utcnow data (Some d))
     = Raise credentials_exception.
Proof.
  intros Hd Hmin Hneg. rewrite !verify_issued by done. split.
  - cbn [ttl Z.eqb].
    assert (H : (timegm (utcnow + timedelta_minutes
                           (ACCESS_TOKEN_EXPIRE_MINUTES cfg))
                 <? timegm utcnow) = false).
    { apply Z.ltb_ge, timegm_mono. unfold timedelta_minutes. lia. }
    by rewrite H.
  - unfold ttl. destruct (d =? 0) eqn:E; [apply Z.eqb_eq in E; lia|].
    assert (H : (timegm (utcnow + d) <? timegm utcnow) = true).
    { apply Z.ltb_lt.
      pose proof (timegm_mono (utcnow + d) (utcnow - 1000000)
                    ltac:(lia)) as Hm.
      rewrite timegm_shift in Hm. lia. }
    by rewrite H.
Qed.

Lemma expires_delta_zero_and_negative_witness :
  verify_token default_config 5000000
    (create_access_token default_config 5000000
       (refresh_token_data "cid" "secret" "agent" "rt") (Some 0))
  = Ok (<["exp" := JInt 43205]>
          (refresh_token_data "cid" "secret" "agent" "rt"))
  /\ verify_token default_config 5000000
       (create_access_token default_config 5000000
          (refresh_token_data "cid" "secret" "agent" "rt")
          (Some (- 1000000)))
     = Raise credentials_exception.
Proof.
  apply (expires_delta_zero_and_negative default_config 5000000
           (refresh_token_data "cid" "secret" "agent" "rt") (- 1000000)).
  - apply refresh_payload.
  - vm_compute. discriminate.
  - lia.
Defined.

(** ** More on the client cache *)

Lemma check_cached_client_cases env key w :
  (exists r u,
     cache w !! key = Some r
     /\ on_me env (length (trace w)) r = Returns (Some u)
     /\ check_cached_client env key w = (Ok (Some r), logged w [EvMe r]))
  \/ (exists w1,
        check_cached_client env key w = (Ok None, w1)
        /\ cache w1 = delete key (cache w)
        /\ heap w1 = heap w
        /\ (trace w1 = trace w /\ cache w !! key = None
            \/ exists stale,
                 cache w !! key = Some stale
                 /\ trace w1 = (trace w ++ [EvMe stale])%list)).
Proof.
  destruct (cache w !! key) as [r|] eqn:Hc.
  - destruct (on_me env (length (trace w)) r) as [[u|]|msg] eqn:Hme.
    + left. exists r, u. split; [done|]. split; [done|].
      by apply (check_cached_client_live env key w r u).
    + right. eexists. split.
      { apply (check_cached_client_stale env key w r Hc).
        intros u. congruence. }
      cbn. split; [done|]. split; [done|]. right. by exists r.
    + right. eexists. split.
      { apply (check_cached_client_stale env key w r Hc).
        intros u. congruence. }
      cbn. split; [done|]. split; [done|]. right. by exists r.
  - right. exists w. split; [by apply check_cached_client_miss|].
    split; [by rewrite delete_id|]. split; [done|]. by left.
Qed.

Lemma authenticate_raises env key kw tok w e w' :
  authenticate env key kw tok w = (Raise e, w') ->
  is_HTTPException e = true
  /\ status_of e = Some HTTP_401_UNAUTHORIZED
  /\ cache w' = delete key (cache w).
Proof.
  destruct (check_cached_client_cases env key w)
    as [(r & u & Hc & Hme & _)|(w1 & Hs & Hcache & _)].
  { rewrite (authenticate_live env key kw tok w r u Hc Hme). discriminate. }
  rewrite (authenticate_construct env key kw tok w w1 Hs).
  destruct (on_init env _ kw); [intros [= <- <-]; by cbn|].
  cbn zeta. destruct (on_me env _ _) as [[u|]|msg];
    intros [= <- <-] || discriminate; by cbn.
Qed.

(** X6.  Both dependencies fail in one way only: whatever the platform
    does (the constructor raising included), an exception that leaves
    them is an [HTTPException] with status 401, and after a failed call
    the cache holds no entry under the request's key while every other
    entry is untouched. *)
Theorem dependencies_fail_with_401_only env b x_id x_secret x_ua w e w' :
  (get_reddit_client env b w = (Raise e, w') ->
   is_HTTPException e = true
   /\ status_of e = Some HTTP_401_UNAUTHORIZED
   /\ cache w' = delete (cache_key_token b) (cache w))
  /\ (get_reddit_client_with_headers env b x_id x_secret x_ua w
      = (Raise e, w') ->
      is_HTTPException e = true
      /\ status_of e = Some HTTP_401_UNAUTHORIZED
      /\ cache w' = delete (cache_key_with_headers b x_id) (cache w)).
Proof.
  split.
  - rewrite get_reddit_client_authenticate. apply authenticate_raises.
  - rewrite get_reddit_client_with_headers_authenticate.
    apply authenticate_raises.
Qed.

Lemma dependencies_fail_with_401_only_witness :
  status_of (unauthorized "Reddit authentication failed: ")
  = Some HTTP_401_UNAUTHORIZED
  /\ cache (snd (get_reddit_client env_silent_failure "tok" w_cached))
     = delete (cache_key_token "tok") (cache w_cached).
Proof.
  destruct (proj1 (dependencies_fail_with_401_only env_silent_failure "tok"
                     None None None w_cached
                     (unauthorized "Reddit authentication failed: ")
                     (snd (get_reddit_client env_silent_failure "tok"
                             w_cached)))
                  eq_refl) as (_ & Hstatus & Hcache).
  split; [exact Hstatus | exact Hcache].
Defined.

Lemma cache_wf_delete w w1 key :
  cache_wf w -> cache w1 = delete key (cache w) ->
  (length (heap w) <= length (heap w1))%nat -> cache_wf w1.
Proof.
  intros Hwf Hc Hh k r. rewrite Hc. intros [_ H]%lookup_delete_Some.
  specialize (Hwf k r H). lia.
Qed.

Lemma authenticate_wf env key kw tok w :
  cache_wf w -> cache_wf (snd (authenticate env key kw tok w)).
Proof.
  intros Hwf.
  destruct (check_cached_client_cases env key w)
    as [(r & u & Hc & Hme & _)|(w1 & Hs & Hcache & Hheap & _)].
  { rewrite (authenticate_live env key kw tok w r u Hc Hme). exact Hwf. }
  rewrite (authenticate_construct env key kw tok w w1 Hs).
  destruct (on_init env _ kw).
  { cbn. apply (cache_wf_delete w _ key Hwf); cbn; [done|]. by rewrite Hheap. }
  cbn zeta. destruct (on_me env _ _) as [[u|]|msg]; cbn [snd].
  - intros k r. cbn [cache heap]. rewrite length_app, Hcache, Hheap. cbn.
    intros [[_ <-]|[_ [_ H]%lookup_delete_Some]]%lookup_insert_Some.
    + lia.
    + specialize (Hwf k r H). lia.
  - apply (cache_wf_delete w _ key Hwf); cbn [cache heap]; [done|].
    rewrite length_app, Hheap. lia.
  - apply (cache_wf_delete w _ key Hwf); cbn [cache heap]; [done|].
    rewrite length_app, Hheap. lia.
Qed.

(** X7.  The cache only ever refers to allocated clients.  The invariant
    holds in the empty process and is kept by both dependencies, whatever
    the platform answers, and by [clear_reddit_client_cache]. *)
Theorem cache_wf_invariant env b x_id x_secret x_ua w :
  cache_wf w ->
  cache_wf empty_world
  /\ cache_wf (snd (get_reddit_client env b w))
  /\ cache_wf (snd (get_reddit_client_with_headers env b x_id x_secret x_ua
                      w))
  /\ cache_wf (snd (clear_reddit_client_cache w)).
Proof.
  intros Hwf. split; [|split; [|split]].
  - intros k r. cbn. by rewrite lookup_empty.
  - rewrite get_reddit_client_authenticate. by apply authenticate_wf.
  - rewrite get_reddit_client_with_headers_authenticate.
    by apply authenticate_wf.
  - intros k r. cbn. by rewrite lookup_empty.
Qed.

Lemma cache_wf_invariant_witness :
  cache_wf (snd (get_reddit_client env_live "tok" empty_world)).
Proof.
  assert (Hwf : cache_wf empty_world).
  { intros k r H. cbn in H. by rewrite lookup_empty in H. }
  exact (proj1 (proj2 (cache_wf_invariant env_live "tok" None None None
                         empty_world Hwf))).
Defined.

Lemma authenticate_builds env key kw tok w u :
  cache w !! key = None ->
  on_init env (length (trace w)) kw = None ->
  on_me env (S (length (trace w))) (length (heap w)) = Returns (Some u) ->
  authenticate env key kw tok w
  = (Ok (length (heap w)),
     {| cache := <[key := length (heap w)]> (cache w);
        heap := (heap w ++ [fresh_client kw tok])%list;
        trace := (trace w ++ [EvInit (length (heap w));
                              EvMe (length (heap w))])%list |}).
Proof.
  intros Hmiss Hinit Hme.
  rewrite (authenticate_construct env key kw tok w w
             (check_cached_client_miss env key w Hmiss)).
  rewrite Hinit. cbn zeta. by rewrite Hme.
Qed.

Lemma authenticate_build_then_reuse env key kw tok tok' w u1 u2 :
  cache w !! key = None ->
  on_init env (length (trace w)) kw = None ->
  on_me env (S (length (trace w))) (length (heap w)) = Returns (Some u1) ->
  on_me env (S (S (length (trace w)))) (length (heap w))
  = Returns (Some u2) ->
  exists w1 w2,
    authenticate env key kw tok w = (Ok (length (heap w)), w1)
    /\ authenticate env key kw tok' w1 = (Ok (length (heap w)), w2)
    /\ heap w2 = (heap w ++ [fresh_client kw tok])%list
    /\ trace w2 = (trace w ++ [EvInit (length (heap w));
                               EvMe (length (heap w));
                               EvMe (length (heap w))])%list
    /\ cache w2 = <[key := length (heap w)]> (cache w)
    /\ size (cache w2) = S (size (cache w)).
Proof.
  intros Hmiss Hinit Hme1 Hme2.
  rewrite (authenticate_builds env key kw tok w u1 Hmiss Hinit Hme1).
  eexists _, _. split; [reflexivity|].
  rewrite (authenticate_live env key kw tok' _ (length (heap w)) u2).
  - split; [reflexivity|]. cbn [logged heap trace cache].
    split; [reflexivity|]. split; [by rewrite <- app_assoc|].
    split; [reflexivity|]. by apply map_size_insert_None.
  - cbn [cache]. apply lookup_insert_eq.
  - cbn [trace]. rewrite length_app. cbn [length].
    by rewrite Nat.add_comm.
Qed.

(** X8.  When nothing is cached under the key, the constructor succeeds
    and the probe returns a user, the call builds one client, writes the
    bearer value into it, caches it and returns it, and the cache grows by
    one entry.  A later call of the same dependency with any bearer value
    that has the same first 16 characters (and a live probe) returns that
    same client without constructing anything: the client still holds the
    first bearer value as its access token, and the later bearer value is
    neither written nor checked. *)
Theorem first_call_builds_later_calls_reuse env b1 b2 x_id x_secret x_ua w
        u1 u2 :
  prefix 16 b2 = prefix 16 b1 ->
  on_me env (S (length (trace w))) (length (heap w)) = Returns (Some u1) ->
  on_me env (S (S (length (trace w)))) (length (heap w))
  = Returns (Some u2) ->
  (cache w !! cache_key_token b1 = None ->
   on_init env (length (trace w)) (token_only_kwargs "RedditAPIWrapper/1.0")
   = None ->
   exists w1 w2,
     get_reddit_client env b1 w = (Ok (length (heap w)), w1)
     /\ get_reddit_client env b2 w1 = (Ok (length (heap w)), w2)
     /\ heap w2
        = (heap w ++ [fresh_client
                        (token_only_kwargs "RedditAPIWrapper/1.0") b1])%list
     /\ trace w2 = (trace w ++ [EvInit (length (heap w));
                                EvMe (length (heap w));
                                EvMe (length (heap w))])%list
     /\ cache w2 = <[cache_key_token b1 := length (heap w)]> (cache w)
     /\ size (cache w2) = S (size (cache w)))
  /\ (cache w !! cache_key_with_headers b1 x_id = None ->
      on_init env (length (trace w)) (header_kwargs x_id x_secret x_ua)
      = None ->
      exists w1 w2,
        get_reddit_client_with_headers env b1 x_id x_secret x_ua w
        = (Ok (length (heap w)), w1)
        /\ get_reddit_client_with_headers env b2 x_id x_secret x_ua w1
           = (Ok (length (heap w)), w2)
        /\ heap w2
           = (heap w ++ [fresh_client (header_kwargs x_id x_secret x_ua)
                           b1])%list
        /\ trace w2 = (trace w ++ [EvInit (length (heap w));
                                   EvMe (length (heap w));
                                   EvMe (length (heap w))])%list
        /\ cache w2
           = <[cache_key_with_headers b1 x_id := length (heap w)]> (cache w)
        /\ size (cache w2) = S (size (cache w))).
Proof.
  intros Hpre Hme1 Hme2. split; intros Hmiss Hinit.
  - rewrite !get_reddit_client_authenticate.
    assert (Hk : cache_key_token b2 = cache_key_token b1)
      by (unfold cache_key_token; by rewrite Hpre).
    destruct (authenticate_build_then_reuse env _ _ b1 b2 w u1 u2
                Hmiss Hinit Hme1 Hme2) as (w1 & w2 & H1 & H2 & H).
    exists w1, w2. split; [exact H1|]. split; [|exact H].
    rewrite Hk. exact H2.
  - rewrite !get_reddit_client_with_headers_authenticate.
    assert (Hk : cache_key_with_headers b2 x_id
                 = cache_key_with_headers b1 x_id)
      by (by rewrite !cache_key_with_headers_prefixes, Hpre).
    destruct (authenticate_build_then_reuse env _ _ b1 b2 w u1 u2
                Hmiss Hinit Hme1 Hme2) as (w1 & w2 & H1 & H2 & H).
    exists w1, w2. split; [exact H1|]. split; [|exact H].
    rewrite Hk. exact H2.
Qed.

Lemma first_call_builds_later_calls_reuse_witness :
  exists w1 w2,
    get_reddit_client env_live "0123456789abcdef-alice" empty_world
    = (Ok 0%nat, w1)
    /\ get_reddit_client env_live "0123456789abcdef-mallory" w1
       = (Ok 0%nat, w2)
    /\ heap w2
       = [fresh_client (token_only_kwargs "RedditAPIWrapper/1.0")
            "0123456789abcdef-alice"].
Proof.
  destruct (proj1 (first_call_builds_later_calls_reuse env_live
                     "0123456789abcdef-alice" "0123456789abcdef-mallory"
                     None None None empty_world alice alice
                     eq_refl eq_refl eq_refl) eq_refl eq_refl)
    as (w1 & w2 & H1 & H2 & H3 & _).
  exists w1, w2. split; [exact H1|]. split; [exact H2|exact H3].
Defined.

Lemma authenticate_keeps_old_clients_open env key kw tok w r :
  (r < length (heap w))%nat ->
  closed r (snd (authenticate env key kw tok w)) = closed r w.
Proof.
  intros Hlt. unfold closed. apply bool_decide_ext.
  destruct (check_cached_client_cases env key w)
    as [(r0 & u & Hc & Hme & _)|(w1 & Hs & _ & Hheap & Htrace)].
  { rewrite (authenticate_live env key kw tok w r0 u Hc Hme).
    cbn [snd logged trace]. rewrite elem_of_app, list_elem_of_singleton.
    intuition discriminate. }
  rewrite (authenticate_construct env key kw tok w w1 Hs).
  assert (Hw1 : EvClose r ∈ trace w1 <-> EvClose r ∈ trace w).
  { destruct Htrace as [[-> _]|(stale & _ & ->)]; [done|].
    rewrite elem_of_app, list_elem_of_singleton. intuition discriminate. }
  assert (Hne : EvClose r <> EvClose (length (heap w1)))
    by (rewrite Hheap; intros [= ->]; lia).
  destruct (on_init env _ kw); cbn [snd logged trace].
  { rewrite elem_of_app, list_elem_of_singleton, Hw1.
    intuition discriminate. }
  cbn zeta. destruct (on_me env _ _) as [[u|]|msg]; cbn [snd trace];
    rewrite elem_of_app, !elem_of_cons, elem_of_nil, Hw1;
    intuition (try discriminate; try congruence).
Qed.

Lemma authenticate_closes_failed_client env key kw tok w e w' :
  authenticate env key kw tok w = (Raise e, w') ->
  heap w' <> heap w ->
  closed (length (heap w)) w' = true.
Proof.
  destruct (check_cached_client_cases env key w)
    as [(r0 & u & Hc & Hme & _)|(w1 & Hs & _ & Hheap & _)].
  { rewrite (authenticate_live env key kw tok w r0 u Hc Hme). discriminate. }
  rewrite (authenticate_construct env key kw tok w w1 Hs), Hheap.
  destruct (on_init env _ kw).
  { intros [= _ <-] H. cbn in H. congruence. }
  cbn zeta. destruct (on_me env _ _) as [[u|]|msg];
    [discriminate| |]; intros [= _ <-] _; unfold closed;
    apply bool_decide_eq_true_2; cbn [trace];
    rewrite elem_of_app, !elem_of_cons; tauto.
Qed.

(** X9.  What the dependencies close.  A call never closes a client that
    existed before it: in particular a cached client that fails its probe
    is dropped from the cache and stays open.  A client built by the call
    is closed when the call goes on to fail. *)
Theorem dependencies_close_only_failed_new_clients env b x_id x_secret x_ua
        w r :
  (r < length (heap w))%nat ->
  closed r (snd (get_reddit_client env b w)) = closed r w
  /\ closed r (snd (get_reddit_client_with_headers env b x_id x_secret x_ua
                      w))
     = closed r w
  /\ (forall e w',
        get_reddit_client env b w = (Raise e, w') ->
        heap w' <> heap w -> closed (length (heap w)) w' = true)
  /\ (forall e w',
        get_reddit_client_with_headers env b x_id x_secret x_ua w
        = (Raise e, w') ->
        heap w' <> heap w -> closed (length (heap w)) w' = true).
Proof.
  intros Hlt. rewrite get_reddit_client_authenticate,
    get_reddit_client_with_headers_authenticate.
  split; [by apply authenticate_keeps_old_clients_open|].
  split; [by apply authenticate_keeps_old_clients_open|].
  split; intros e w'; apply authenticate_closes_failed_client.
Qed.

Lemma dependencies_close_only_failed_new_clients_witness :
  closed 0%nat (snd (get_reddit_client env_silent_failure "tok" w_cached))
  = closed 0%nat w_cached
  /\ closed 1%nat (snd (get_reddit_client env_silent_failure "tok" w_cached))
     = true.
Proof.
  assert (Hlt : (0 < length (heap w_cached))%nat) by (cbn; lia).
  destruct (dependencies_close_only_failed_new_clients env_silent_failure
              "tok" None None None w_cached 0%nat Hlt)
    as (Hold & _ & Hnew & _).
  split; [exact Hold|].
  apply (Hnew (unauthorized "Reddit authentication failed: ")
              (snd (get_reddit_client env_silent_failure "tok" w_cached)));
    [reflexivity | discriminate].
Defined.

Lemma prefix_length n s :
  (n <= String.length s)%nat -> String.length (prefix n s) = n.
Proof.
  revert s. induction n as [|n IH]; intros [|c s] H; cbn in *;
    try lia; try reflexivity.
  unfold prefix in IH. rewrite IH; [reflexivity | lia].
Qed.

Lemma append_inj_length (s1 s2 t1 t2 : string) :
  String.length s1 = String.length s2 ->
  s1 ++ t1 = s2 ++ t2 -> s1 = s2 /\ t1 = t2.
Proof.
  revert s2. induction s1 as [|c s1 IH]; intros [|d s2] Hlen H;
    cbn in *; try discriminate.
  - by split.
  - injection H as -> H. injection Hlen as Hlen.
    destruct (IH s2 Hlen H) as [-> ->]. by split.
Qed.

Lemma append_empty_r (s : string) : s ++ "" = s.
Proof. induction s as [|c s IH]; [reflexivity|]. cbv [String.append]. fold String.append. by rewrite IH. Qed.

Lemma cache_key_with_headers_form b c :
  cache_key_with_headers b c
  = "reddit_" ++ prefix 16 b
    ++ match id_part c with Some p => "_" ++ p | None => "" end.
Proof.
  unfold cache_key_with_headers, id_part.
  destruct c as [[|a s]|]; cbn [truthy negb].
  - rewrite bool_decide_eq_true_2 by done. cbn [negb].
    by rewrite append_empty_r.
  - rewrite bool_decide_eq_false_2 by done. reflexivity.
  - by rewrite append_empty_r.
Qed.

(** X10.  For bearer values of at least 16 characters the cache key of the
    header-aware dependency tells requests apart as finely as the prefixes
    allow: two requests get the same key only if their bearer values agree
    on the first 16 characters and their app-id headers are both empty or
    absent, or agree on the first 8 characters.  The key of the plain
    dependency is the same only if the 16-character prefixes are. *)
Theorem cache_key_separates_prefixes b1 b2 (c1 c2 : option string) :
  (16 <= String.length b1)%nat ->
  (16 <= String.length b2)%nat ->
  (cache_key_with_headers b1 c1 = cache_key_with_headers b2 c2 ->
   prefix 16 b1 = prefix 16 b2 /\ id_part c1 = id_part c2)
  /\ (cache_key_token b1 = cache_key_token b2 ->
      prefix 16 b1 = prefix 16 b2).
Proof.
  intros H1 H2. split.
  - rewrite !cache_key_with_headers_form. intros H.
    apply (inj (String.append "reddit_")) in H.
    apply append_inj_length in H as [Hp Hrest];
      [| by rewrite !prefix_length ].
    split; [exact Hp|].
    destruct (id_part c1), (id_part c2);
      try discriminate; [|reflexivity].
    apply (inj (String.append "_")) in Hrest. by rewrite Hrest.
  - unfold cache_key_token. intros H.
    by apply (inj (String.append "reddit_token_")) in H.
Qed.

Lemma cache_key_separates_prefixes_witness :
  prefix 16 "0123456789abcdef-first" = prefix 16 "0123456789abcdef-second"
  /\ id_part (Some "app-id-1-alpha") = id_part (Some "app-id-1-beta").
Proof.
  apply (proj1 (cache_key_separates_prefixes "0123456789abcdef-first"
                  "0123456789abcdef-second" (Some "app-id-1-alpha")
                  (Some "app-id-1-beta") ltac:(cbn; lia) ltac:(cbn; lia))).
  reflexivity.
Defined.

(** ** More on the authorization URL *)

Lemma string_cons_app (a : ascii) (s t : string) :
  String a s ++ t = String a (s ++ t).
Proof. reflexivity. Qed.

Lemma count_char_app c s t :
  count_char c (s ++ t) = (count_char c s + count_char c t)%nat.
Proof.
  induction s as [|a s IH]; [reflexivity|].
  rewrite string_cons_app. cbn [count_char]. rewrite IH. lia.
Qed.

Lemma hex_digit_plain n c :
  Urllib.always_safe c = false -> Ascii.eqb c "+" = false ->
  Ascii.eqb c "%" = false ->
  Ascii.eqb (Urllib.hex_digit n) c = false.
Proof.
  intros Hs _ _. apply Ascii.eqb_neq. intros <-.
  revert Hs. do 16 (destruct n as [|n]; [discriminate|]). discriminate.
Qed.

Lemma count_char_quote_plus c s :
  Urllib.always_safe c = false -> Ascii.eqb c "+" = false ->
  Ascii.eqb c "%" = false ->
  count_char c (Urllib.quote_plus s) = O.
Proof.
  intros Hs Hp Hq. induction s as [|a s IH]; [reflexivity|].
  cbn [Urllib.quote_plus]. rewrite count_char_app, IH.
  unfold Urllib.quote_plus_char.
  destruct (Urllib.always_safe a) eqn:Ha.
  { cbn [count_char]. destruct (Ascii.eqb_spec a c) as [->|]; [congruence|].
    reflexivity. }
  destruct (Ascii.eqb a " ").
  { cbn [count_char]. rewrite Ascii.eqb_sym, Hp. reflexivity. }
  cbn [count_char]. rewrite !hex_digit_plain by done.
  rewrite Ascii.eqb_sym, Hq. reflexivity.
Qed.

Lemma get_authorization_url_form urandom request :
  get_authorization_url urandom request
  = Ok {| AuthorizationURLResponse.authorization_url :=
            "https://www.reddit.com/api/v1/authorize?client_id="
            ++ Urllib.quote_plus (AuthorizationURLRequest.client_id request)
            ++ "&response_type=code&state="
            ++ Urllib.quote_plus
                 (effective_state urandom
                    (AuthorizationURLRequest.state request))
            ++ "&redirect_uri="
            ++ Urllib.quote_plus
                 (AuthorizationURLRequest.redirect_uri request)
            ++ "&duration="
            ++ Urllib.quote_plus (AuthorizationURLRequest.duration request)
            ++ "&scope="
            ++ Urllib.quote_plus
                 (String.concat " " (AuthorizationURLRequest.scopes request));
          AuthorizationURLResponse.state :=
            effective_state urandom
              (AuthorizationURLRequest.state request) |}.
Proof.
  unfold get_authorization_url. fold (effective_state urandom
    (AuthorizationURLRequest.state request)).
  generalize (effective_state urandom
                (AuthorizationURLRequest.state request)).
  intros st. unfold Urllib.urlencode. cbn [List.map fst snd].
  generalize (Urllib.quote_plus st)
             (Urllib.quote_plus (AuthorizationURLRequest.client_id request))
             (Urllib.quote_plus
                (AuthorizationURLRequest.redirect_uri request))
             (Urllib.quote_plus (AuthorizationURLRequest.duration request))
             (Urllib.quote_plus
                (String.concat " " (AuthorizationURLRequest.scopes request))).
  intros q1 q2 q3 q4 q5. reflexivity.
Qed.

Lemma effective_state_cases urandom state :
  (exists s, state = Some s /\ s <> "" /\ effective_state urandom state = s)
  \/ ((state = None \/ state = Some "")
      /\ effective_state urandom state = Secrets.token_urlsafe urandom 32).
Proof.
  destruct state as [[|a s]|].
  - right. split; [by right|reflexivity].
  - left. exists (String a s). by split.
  - right. split; [by left|reflexivity].
Qed.

(** X11.  The state parameter.  A state the caller supplies, if it is not
    the empty string, is answered back unchanged; when the state is absent
    or the empty string the endpoint generates one of 43 URL-safe
    characters.  In both cases the [state] field of the response is the
    value whose URL encoding stands in the URL, between client_id,
    response_type=code and redirect_uri, duration, scope, in that order. *)
Theorem authorization_url_state urandom request :
  let state := effective_state urandom
                 (AuthorizationURLRequest.state request) in
  get_authorization_url urandom request
  = Ok {| AuthorizationURLResponse.authorization_url :=
            "https://www.reddit.com/api/v1/authorize?client_id="
            ++ Urllib.quote_plus (AuthorizationURLRequest.client_id request)
            ++ "&response_type=code&state=" ++ Urllib.quote_plus state
            ++ "&redirect_uri="
            ++ Urllib.quote_plus
                 (AuthorizationURLRequest.redirect_uri request)
            ++ "&duration="
            ++ Urllib.quote_plus (AuthorizationURLRequest.duration request)
            ++ "&scope="
            ++ Urllib.quote_plus
                 (String.concat " " (AuthorizationURLRequest.scopes request));
          AuthorizationURLResponse.state := state |}
  /\ (forall s, AuthorizationURLRequest.state request = Some s ->
                s <> "" -> state = s)
  /\ (AuthorizationURLRequest.state request = None
      \/ AuthorizationURLRequest.state request = Some "" ->
      String.length state = 43%nat /\ Urllib.quote_plus state = state).
Proof.
  cbv zeta. split; [apply get_authorization_url_form|]. split.
  - intros s -> Hs. cbn. by destruct s.
  - intros [-> | ->]; cbn [effective_state truthy];
      apply token_urlsafe_32.
Qed.

Lemma authorization_url_state_witness :
  effective_state (fun _ => "000"%char) (Some "my-state") = "my-state"
  /\ String.length (effective_state (fun _ => "000"%char) (Some ""))
     = 43%nat.
Proof.
  destruct (authorization_url_state (fun _ => "000"%char)
              {| AuthorizationURLRequest.client_id := "cid";
                 AuthorizationURLRequest.client_secret := "secret";
                 AuthorizationURLRequest.redirect_uri := "http://localhost";
                 AuthorizationURLRequest.user_agent := "agent";
                 AuthorizationURLRequest.scopes := ["*"];
                 AuthorizationURLRequest.state := Some "my-state";
                 AuthorizationURLRequest.duration := "permanent" |})
    as (_ & Hgiven & _).
  destruct (authorization_url_state (fun _ => "000"%char)
              {| AuthorizationURLRequest.client_id := "cid";
                 AuthorizationURLRequest.client_secret := "secret";
                 AuthorizationURLRequest.redirect_uri := "http://localhost";
                 AuthorizationURLRequest.user_agent := "agent";
                 AuthorizationURLRequest.scopes := ["*"];
                 AuthorizationURLRequest.state := Some "";
                 AuthorizationURLRequest.duration := "permanent" |})
    as (_ & _ & Hempty).
  split.
  - apply (Hgiven "my-state"); [reflexivity | discriminate].
  - apply Hempty. by right.
Defined.

(** X12.  No request can add, remove or split query parameters.  Whatever
    the fields of the request, the authorization URL holds exactly one
    question mark, five ampersands and six equals signs, no space and no
    hash sign: every such character in a supplied value is escaped. *)
Theorem authorization_url_separators urandom request response :
  get_authorization_url urandom request = Ok response ->
  let url := AuthorizationURLResponse.authorization_url response in
  count_char "?" url = 1%nat
  /\ count_char "&" url = 5%nat
  /\ count_char "=" url = 6%nat
  /\ count_char " " url = 0%nat
  /\ count_char "#" url = 0%nat.
Proof.
  rewrite get_authorization_url_form. intros [= <-]. cbv zeta.
  cbn [AuthorizationURLResponse.authorization_url].
  rewrite !count_char_app, !count_char_quote_plus by reflexivity.
  repeat split; reflexivity.
Qed.

Lemma authorization_url_separators_witness :
  exists response,
    get_authorization_url (fun _ => "000"%char)
      {| AuthorizationURLRequest.client_id := "c&d=e";
         AuthorizationURLRequest.client_secret := "secret";
         AuthorizationURLRequest.redirect_uri := "http://h/?a=b&c=d#e";
         AuthorizationURLRequest.user_agent := "agent";
         AuthorizationURLRequest.scopes := ["read"; "identity"];
         AuthorizationURLRequest.state := Some "s t&u";
         AuthorizationURLRequest.duration := "permanent" |}
    = Ok response
    /\ count_char "&" (AuthorizationURLResponse.authorization_url response)
       = 5%nat.
Proof.
  destruct (get_authorization_url (fun _ => "000"%char)
      {| AuthorizationURLRequest.client_id := "c&d=e";
         AuthorizationURLRequest.client_secret := "secret";
         AuthorizationURLRequest.redirect_uri := "http://h/?a=b&c=d#e";
         AuthorizationURLRequest.user_agent := "agent";
         AuthorizationURLRequest.scopes := ["read"; "identity"];
         AuthorizationURLRequest.state := Some "s t&u";
         AuthorizationURLRequest.duration := "permanent" |})
    as [response|e] eqn:E; [|discriminate E].
  exists response. split; [reflexivity|].
  exact (proj1 (proj2 (authorization_url_separators _ _ _ E))).
Defined.

(** ** More on the flows of auth_endpoints.py *)

Ltac run_flow :=
  unfold_flow; cbn; repeat step_oracle; repeat case_inner.

(** X13.  The callback and the validation endpoint of [auth_endpoints.py]
    are self-contained: on every path, whatever the platform answers, the
    client they construct is closed when they return or raise, and the
    client cache is left exactly as it was. *)
Theorem live_flows_release_and_keep_cache env callback validation w :
  released w (snd (oauth2_callback env callback w))
  /\ cache (snd (oauth2_callback env callback w)) = cache w
  /\ released w (snd (validate_token env validation w))
  /\ cache (snd (validate_token env validation w)) = cache w.
Proof.
  split; [apply current_callback_releases|].
  split; [unfold oauth2_callback; run_flow; reflexivity|].
  split; [apply current_validate_releases|].
  unfold validate_token; run_flow; reflexivity.
Qed.

Lemma lookup_alter_snoc {A} (f : A -> A) (l : list A) (x : A) :
  alter f (length l) (l ++ [x])%list !! length l = Some (f x).
Proof.
  rewrite list_lookup_alter_eq, lookup_app_r by lia.
  by rewrite Nat.sub_diag.
Qed.

(** X14.  Outcomes of the callback of [auth_endpoints.py].  Every failure
    leaves it as a [RedditAPIException] with status 400 whose message
    starts with "Failed to exchange code for tokens: ".  A probe that
    returns no user is not a failure: once the code exchange has
    succeeded the response carries the granted tokens, token type
    "bearer", 3600 seconds, and the user name "unknown". *)
Theorem callback_outcomes env request w :
  (forall e w',
     oauth2_callback env request w = (Raise e, w') ->
     exists m,
       e = RedditAPIException ("Failed to exchange code for tokens: " ++ m)
             HTTP_400_BAD_REQUEST)
  /\ (forall g,
        on_init env (length (trace w)) (live_callback_kwargs request)
        = None ->
        on_authorize env (S (length (trace w))) (length (heap w))
          (OAuth2CallbackRequest.code request) = Returns g ->
        on_me env (S (S (length (trace w)))) (length (heap w))
        = Returns None ->
        fst (oauth2_callback env request w)
        = Ok {| TokenResponse.access_token := granted_access_token g;
                TokenResponse.refresh_token := granted_refresh_token g;
                TokenResponse.token_type := "bearer";
                TokenResponse.expires_in := 3600;
                TokenResponse.scope := scope_string (granted_scopes g);
                TokenResponse.reddit_username := "unknown" |}).
Proof.
  split.
  - intros e w'. unfold oauth2_callback. run_flow;
      intros [= <- _] || discriminate; by eexists.
  - intros g Hi Ha Hme. unfold oauth2_callback.
    fold (live_callback_kwargs request). unfold_flow. cbn.
    rewrite Hi. cbn. rewrite length_snoc, Ha. cbn.
    rewrite !length_snoc, Hme. cbn.
    rewrite !lookup_alter_snoc. reflexivity.
Qed.

Lemma callback_outcomes_witness :
  fst (oauth2_callback env_anonymous sample_live_callback empty_world)
  = Ok {| TokenResponse.access_token := "access-1";
          TokenResponse.refresh_token := Some "refresh-1";
          TokenResponse.token_type := "bearer";
          TokenResponse.expires_in := 3600;
          TokenResponse.scope := "*";
          TokenResponse.reddit_username := "unknown" |}.
Proof.
  exact (proj2 (callback_outcomes env_anonymous sample_live_callback
                  empty_world) sample_grant eq_refl eq_refl eq_refl).
Defined.

(** ** More on the session-token flows *)

(** X15.  Outcomes of [login_with_refresh_token].  If the constructor
    raises, the flow fails with status 500.  If the probe raises or
    returns no user, the client is closed and the flow fails with status
    401 "Invalid refresh token: ...".  Otherwise the client is closed and
    the response carries the user's name, token type "bearer", 43200
    seconds, and a session token from which, until it expires,
    [extract_refresh_token_credentials] recovers exactly the four
    credentials of the request. *)
Theorem login_with_refresh_token_outcomes cfg env utcnow request w :
  let fresh := length (heap w) in
  let kw := refresh_login_kwargs request in
  let heap' := (heap w ++ [new_client kw])%list in
  let issued :=
    create_refresh_token cfg utcnow
      (AuthEndpointsBackup.RefreshTokenRequest.client_id request)
      (AuthEndpointsBackup.RefreshTokenRequest.client_secret request)
      (AuthEndpointsBackup.RefreshTokenRequest.user_agent request)
      (AuthEndpointsBackup.RefreshTokenRequest.refresh_token request) in
  AuthEndpointsBackup.login_with_refresh_token cfg env utcnow request w
  = match on_init env (length (trace w)) kw with
    | Some msg =>
        (Raise (HTTPException HTTP_500_INTERNAL_SERVER_ERROR
                  ("Refresh token authentication failed: " ++ msg) []),
         logged w [EvInitRaised kw])
    | None =>
        let w' := {| cache := cache w; heap := heap';
                     trace := (trace w ++ [EvInit fresh; EvMe fresh;
                                           EvClose fresh])%list |} in
        match on_me env (S (length (trace w))) fresh with
        | Returns (Some u) =>
            (Ok {| AuthEndpointsBackup.TokenResponse.access_token := issued;
                   AuthEndpointsBackup.TokenResponse.token_type := "bearer";
                   AuthEndpointsBackup.TokenResponse.expires_in := 43200;
                   AuthEndpointsBackup.TokenResponse.reddit_username :=
                     name u |}, w')
        | Returns None =>
            (Raise (HTTPException HTTP_401_UNAUTHORIZED
                      ("Invalid refresh token: " ++ no_name_message) []),
             w')
        | Raises msg =>
            (Raise (HTTPException HTTP_401_UNAUTHORIZED
                      ("Invalid refresh token: " ++ msg) []), w')
        end
    end
  /\ forall now now',
       now < utcnow + timedelta_minutes (ACCESS_TOKEN_EXPIRE_MINUTES cfg) ->
       extract_refresh_token_credentials cfg now now' issued
       = Ok (refresh_credential_set
               (AuthEndpointsBackup.RefreshTokenRequest.client_id request)
               (AuthEndpointsBackup.RefreshTokenRequest.client_secret request)
               (AuthEndpointsBackup.RefreshTokenRequest.user_agent request)
               (AuthEndpointsBackup.RefreshTokenRequest.refresh_token
                  request)).
Proof.
  cbv zeta. split.
  - unfold AuthEndpointsBackup.login_with_refresh_token.
    fold (refresh_login_kwargs request). unfold_flow. cbn.
    destruct (on_init env _ _) as [msg|]; cbn; [reflexivity|].
    rewrite length_snoc.
    destruct (on_me env _ _) as [[u|]|msg]; cbn;
      rewrite <- ?app_assoc; reflexivity.
  - intros now now' Hlive. by apply extract_refresh_issued.
Qed.

Lemma login_with_refresh_token_outcomes_witness :
  extract_refresh_token_credentials default_config 1000000 1000000
    (create_refresh_token default_config 0 "cid" "secret" "agent" "rt")
  = Ok (refresh_credential_set "cid" "secret" "agent" "rt").
Proof.
  exact (proj2 (login_with_refresh_token_outcomes default_config env_live 0
                  sample_refresh_login empty_world)
               1000000 1000000 eq_refl).
Defined.

(** X16.  A session token issued by the legacy [login] replays the login.
    When [login] succeeds, the client is closed and the response carries
    the user's name, "bearer" and 43200 seconds; presenting the returned
    token to [validate_token] before it expires makes that endpoint build
    a client with exactly the keyword arguments [login] used (the same
    application credentials, user name and password), and, the platform
    accepting them again, answer with the user's data and close that
    client too. *)
Theorem login_then_validate cfg env utcnow now credentials w u u' :
  let kw := legacy_login_kwargs credentials in
  let n := length (trace w) in
  let fresh := length (heap w) in
  on_init env n kw = None ->
  on_me env (S n) fresh = Returns (Some u) ->
  now < utcnow + timedelta_minutes (ACCESS_TOKEN_EXPIRE_MINUTES cfg) ->
  on_init env (S (S (S n))) kw = None ->
  on_me env (S (S (S (S n)))) (S fresh) = Returns (Some u') ->
  exists response w1 w2,
    AuthEndpointsBackup.login cfg env utcnow credentials w
    = (Ok response, w1)
    /\ AuthEndpointsBackup.TokenResponse.reddit_username response = name u
    /\ AuthEndpointsBackup.TokenResponse.token_type response = "bearer"
    /\ AuthEndpointsBackup.TokenResponse.expires_in response = 43200
    /\ AuthEndpointsBackup.validate_token cfg env now
         (AuthEndpointsBackup.TokenResponse.access_token response) w1
       = (Ok {| AuthEndpointsBackup.ValidationDict.valid := true;
                AuthEndpointsBackup.ValidationDict.username := name u';
                AuthEndpointsBackup.ValidationDict.user_id := id u';
                AuthEndpointsBackup.ValidationDict.created_utc :=
                  created_utc u';
                AuthEndpointsBackup.ValidationDict.comment_karma :=
                  comment_karma u';
                AuthEndpointsBackup.ValidationDict.link_karma :=
                  link_karma u' |}, w2)
    /\ heap w2 = (heap w ++ [new_client kw; new_client kw])%list
    /\ trace w2 = (trace w ++ [EvInit fresh; EvMe fresh; EvClose fresh;
                               EvInit (S fresh); EvMe (S fresh);
                               EvClose (S fresh)])%list
    /\ cache w2 = cache w.
Proof.
  cbv zeta. intros Hi Hme Hlive Hi' Hme'.
  unfold AuthEndpointsBackup.login.
  fold (legacy_login_kwargs credentials). unfold_flow. cbn.
  rewrite Hi. cbn. rewrite length_snoc, Hme. cbn.
  eexists _, _, _. split; [reflexivity|].
  cbn [AuthEndpointsBackup.TokenResponse.reddit_username
       AuthEndpointsBackup.TokenResponse.token_type
       AuthEndpointsBackup.TokenResponse.expires_in
       AuthEndpointsBackup.TokenResponse.access_token].
  split; [reflexivity|]. split; [reflexivity|]. split; [reflexivity|].
  unfold AuthEndpointsBackup.validate_token. unfold_flow.
  rewrite (extract_reddit_issued cfg utcnow now _ _ _ _ _ Hlive).
  unfold legacy_credential_set.
  cbn [getitem]. unfold getitem.
  rewrite !lookup_insert_eq.
  repeat (rewrite lookup_insert_ne by done; rewrite ?lookup_insert_eq).
  cbn [AuthEndpointsBackup.str_of_json].
  fold (legacy_login_kwargs credentials).
  cbn [trace heap cache]. rewrite !length_snoc, Hi'.
  cbn [trace heap cache]. rewrite !length_snoc, Hme'. cbn.
  split; [reflexivity|].
  rewrite <- !app_assoc. by cbn.
Qed.

Lemma login_then_validate_witness :
  exists response w1,
    AuthEndpointsBackup.login default_config env_live 0 sample_credentials
      empty_world
    = (Ok response, w1)
    /\ fst (AuthEndpointsBackup.validate_token default_config env_live
              1000000
              (AuthEndpointsBackup.TokenResponse.access_token response) w1)
       = Ok {| AuthEndpointsBackup.ValidationDict.valid := true;
               AuthEndpointsBackup.ValidationDict.username := "alice";
               AuthEndpointsBackup.ValidationDict.user_id := "t2_abc";
               AuthEndpointsBackup.ValidationDict.created_utc := 1234567890;
               AuthEndpointsBackup.ValidationDict.comment_karma := 1000;
               AuthEndpointsBackup.ValidationDict.link_karma := 500 |}.
Proof.
  destruct (login_then_validate default_config env_live 0 1000000
              sample_credentials empty_world alice alice
              eq_refl eq_refl eq_refl eq_refl eq_refl)
    as (response & w1 & w2 & H1 & _ & _ & _ & H2 & _).
  exists response, w1. split; [exact H1|]. by rewrite H2.
Defined.

(** X17.  The session-token callback and the refresh token.  When the code
    exchange succeeds but yields no refresh token ([None] or the empty
    string), the flow closes its client and fails with status 400 without
    probing the identity.  When it yields one and the probe returns a
    user, the client is closed and the session token in the response is
    the one [create_refresh_token] makes from the request's application
    credentials and that refresh token. *)
Theorem backup_callback_refresh_token cfg env utcnow request w g :
  let n := length (trace w) in
  let fresh := length (heap w) in
  let code := AuthEndpointsBackup.OAuth2CallbackRequest.code request in
  on_init env n (callback_kwargs request) = None ->
  on_authorize env (S n) fresh code = Returns g ->
  (truthy (granted_refresh_token g) = false ->
   exists w',
     AuthEndpointsBackup.oauth2_callback cfg env utcnow request w
     = (Raise (HTTPException HTTP_400_BAD_REQUEST
                 "Failed to obtain refresh token from authorization code"
                 []), w')
     /\ trace w' = (trace w ++ [EvInit fresh; EvAuthorize fresh code;
                                EvClose fresh])%list)
  /\ (forall rt u,
        granted_refresh_token g = Some rt -> rt <> "" ->
        on_me env (S (S n)) fresh = Returns (Some u) ->
        exists w',
          AuthEndpointsBackup.oauth2_callback cfg env utcnow request w
          = (Ok {| AuthEndpointsBackup.TokenResponse.access_token :=
                     create_refresh_token cfg utcnow
                       (AuthEndpointsBackup.OAuth2CallbackRequest.client_id
                          request)
                       (AuthEndpointsBackup.OAuth2CallbackRequest.client_secret
                          request)
                       (AuthEndpointsBackup.OAuth2CallbackRequest.user_agent
                          request) rt;
                   AuthEndpointsBackup.TokenResponse.token_type := "bearer";
                   AuthEndpointsBackup.TokenResponse.expires_in := 43200;
                   AuthEndpointsBackup.TokenResponse.reddit_username :=
                     name u |}, w')
          /\ trace w' = (trace w ++ [EvInit fresh; EvAuthorize fresh code;
                                     EvMe fresh; EvClose fresh])%list).
Proof.
  cbv zeta. intros Hi Ha. split.
  - intros Hrt. unfold AuthEndpointsBackup.oauth2_callback.
    fold (callback_kwargs request). unfold_flow. cbn.
    rewrite Hi. cbn. rewrite length_snoc, Ha. cbn.
    destruct (granted_refresh_token g) as [rt|]; cbn in *.
    + rewrite Hrt. cbn. eexists. split; [reflexivity|].
      by rewrite <- !app_assoc.
    + eexists. split; [reflexivity|]. by rewrite <- !app_assoc.
  - intros rt u Hrt Hne Hme. unfold AuthEndpointsBackup.oauth2_callback.
    fold (callback_kwargs request). unfold_flow. cbn.
    rewrite Hi. cbn. rewrite length_snoc, Ha. cbn. rewrite Hrt. cbn.
    rewrite (bool_decide_eq_false_2 _ Hne). cbn.
    rewrite !length_snoc, Hme. cbn.
    eexists. split; [reflexivity|]. by rewrite <- !app_assoc.
Qed.

Lemma backup_callback_refresh_token_witness :
  exists w',
    AuthEndpointsBackup.oauth2_callback default_config env_granting 0
      sample_callback empty_world
    = (Ok {| AuthEndpointsBackup.TokenResponse.access_token :=
               create_refresh_token default_config 0 "cid" "secret" "agent"
                 "refresh-1";
             AuthEndpointsBackup.TokenResponse.token_type := "bearer";
             AuthEndpointsBackup.TokenResponse.expires_in := 43200;
             AuthEndpointsBackup.TokenResponse.reddit_username := "alice" |},
       w')
    /\ trace w' = [EvInit 0%nat; EvAuthorize 0%nat "rejected-code";
                   EvMe 0%nat; EvClose 0%nat].
Proof.
  exact (proj2 (backup_callback_refresh_token default_config env_granting 0
                  sample_callback empty_world sample_grant eq_refl eq_refl)
               "refresh-1" alice eq_refl ltac:(discriminate) eq_refl).
Defined.

(** X18.  The session-token flows keep to themselves.  The refresh-token
    login, the legacy login and the validation endpoint close the client
    they construct on every path, whatever the platform answers; and none
    of the four flows, the callback included, ever changes the client
    cache. *)
Theorem session_flows_release_and_keep_cache cfg env utcnow now callback
        refresh_login credentials bearer w :
  released w
    (snd (AuthEndpointsBackup.login_with_refresh_token cfg env utcnow
            refresh_login w))
  /\ released w (snd (AuthEndpointsBackup.login cfg env utcnow credentials w))
  /\ released w
       (snd (AuthEndpointsBackup.validate_token cfg env now bearer w))
  /\ cache (snd (AuthEndpointsBackup.login_with_refresh_token cfg env utcnow
                   refresh_login w)) = cache w
  /\ cache (snd (AuthEndpointsBackup.login cfg env utcnow credentials w))
     = cache w
  /\ cache (snd (AuthEndpointsBackup.validate_token cfg env now bearer w))
     = cache w
  /\ cache (snd (AuthEndpointsBackup.oauth2_callback cfg env utcnow callback
                   w)) = cache w.
Proof.
  split; [apply backup_login_refresh_releases|].
  split; [apply backup_login_releases|].
  split; [apply backup_validate_releases|].
  split; [unfold AuthEndpointsBackup.login_with_refresh_token; run_flow;
          reflexivity|].
  split; [unfold AuthEndpointsBackup.login; run_flow; reflexivity|].
  split.
  - unfold AuthEndpointsBackup.validate_token. unfold_flow.
    destruct (extract_reddit_credentials cfg now bearer) as [creds|e];
      [| cbn; by destruct (is_HTTPException e) ].
    unfold getitem. cbn. repeat step_oracle; repeat case_inner; reflexivity.
  - unfold AuthEndpointsBackup.oauth2_callback; run_flow; reflexivity.
Qed.

(** X19.  The token dependency.  [get_current_user_token] either hands
    back the very token it was given or raises 401 "Invalid authentication
    token" with the WWW-Authenticate: Bearer header, and nothing else.  A
    credential token issued by this process is handed back at any instant
    before issuance plus lifetime and refused once a later whole second
    has begun; a token issued under another signing key is refused at
    once. *)
Theorem get_current_user_token_outcomes cfg cfg' utcnow now data
        expires_delta t :
  credential_payload data ->
  SECRET_KEY cfg' <> SECRET_KEY cfg ->
  let issued := create_access_token cfg utcnow data expires_delta in
  (SessionEndpoints.get_current_user_token cfg now t = Ok t
   \/ SessionEndpoints.get_current_user_token cfg now t
      = Raise invalid_authentication_token)
  /\ (now < utcnow + ttl cfg expires_delta ->
      SessionEndpoints.get_current_user_token cfg now issued = Ok issued)
  /\ (timegm (utcnow + ttl cfg expires_delta) < timegm now ->
      SessionEndpoints.get_current_user_token cfg now issued
      = Raise invalid_authentication_token)
  /\ SessionEndpoints.get_current_user_token cfg now
       (create_access_token cfg' utcnow data expires_delta)
     = Raise invalid_authentication_token.
Proof.
  intros Hd Hkey issued. subst issued.
  unfold SessionEndpoints.get_current_user_token.
  split; [destruct (verify_token cfg now t); [by left | by right]|].
  rewrite (verify_issued cfg now utcnow data expires_delta Hd).
  split; [intros H; by rewrite not_expired_before|].
  split; [intros H%Z.ltb_lt; by rewrite H|].
  destruct (create_access_token_shape cfg' utcnow data expires_delta)
    as [claims ->].
  rewrite verify_bad_tag; [reflexivity|]. unfold hmac. congruence.
Qed.

Lemma get_current_user_token_outcomes_witness :
  SessionEndpoints.get_current_user_token default_config 1000000
    (create_refresh_token default_config 0 "cid" "secret" "agent" "rt")
  = Ok (create_refresh_token default_config 0 "cid" "secret" "agent" "rt")
  /\ SessionEndpoints.get_current_user_token default_config 43201000000
       (create_refresh_token default_config 0 "cid" "secret" "agent" "rt")
     = Raise invalid_authentication_token.
Proof.
  destruct (get_current_user_token_outcomes default_config
              {| SECRET_KEY := "rotated";
                 ACCESS_TOKEN_EXPIRE_MINUTES := 720 |}
              0 1000000 (refresh_token_data "cid" "secret" "agent" "rt")
              None (Garbage "") (refresh_payload "cid" "secret" "agent" "rt")
              ltac:(discriminate)) as (_ & Hlive & _).
  destruct (get_current_user_token_outcomes default_config
              {| SECRET_KEY := "rotated";
                 ACCESS_TOKEN_EXPIRE_MINUTES := 720 |}
              0 43201000000
              (refresh_token_data "cid" "secret" "agent" "rt")
              None (Garbage "") (refresh_payload "cid" "secret" "agent" "rt")
              ltac:(discriminate)) as (_ & _ & Hdead & _).
  split; [apply Hlive | apply Hdead]; reflexivity.
Defined.

Lemma authenticate_count env key kw tok w :
  size (cache (snd (authenticate env key kw tok w)))
  = match fst (authenticate env key kw tok w), cache w !! key with
    | Ok _, Some _ => size (cache w)
    | Ok _, None => S (size (cache w))
    | Raise _, Some _ => pred (size (cache w))
    | Raise _, None => size (cache w)
    end.
Proof.
  destruct (check_cached_client_cases env key w)
    as [(r & u & Hc & Hme & _)|(w1 & Hs & Hcache & _)].
  { rewrite (authenticate_live env key kw tok w r u Hc Hme). cbn.
    by rewrite Hc. }
  assert (Hdel : size (delete key (cache w))
                 = match cache w !! key with
                   | Some _ => pred (size (cache w))
                   | None => size (cache w)
                   end).
  { rewrite map_size_delete. by destruct (cache w !! key). }
  assert (Hins : forall r, size (<[key := r]> (delete key (cache w)))
                 = match cache w !! key with
                   | Some _ => size (cache w)
                   | None => S (size (cache w))
                   end).
  { intros r. rewrite map_size_insert_None by apply lookup_delete_eq.
    rewrite Hdel. destruct (cache w !! key) eqn:Hc; [|done].
    assert (size (cache w) <> 0%nat)
      by (apply (map_size_ne_0_lookup_2 _ key); by rewrite Hc).
    lia. }
  rewrite (authenticate_construct env key kw tok w w1 Hs).
  destruct (on_init env _ kw); [cbn; by rewrite Hcache|].
  cbn zeta. destruct (on_me env _ _) as [[u|]|msg]; cbn;
    rewrite Hcache; [apply Hins | apply Hdel | apply Hdel].
Qed.

Lemma authenticate_accounts env key kw tok w :
  accounts_for key (authenticate env key kw tok) w.
Proof.
  intros n [= <-]. unfold count_after, get_cached_client_count. cbn [fst].
  by rewrite authenticate_count.
Qed.

(** X20.  The cache count is kept like a ledger.  Against the count that
    [get_cached_client_count] reports before a call, a successful call of
    either dependency (or of the alias [get_current_user_reddit_client])
    leaves the count unchanged when the request's key was cached and adds
    one when it was not; a failed call takes one away when the key was
    cached (the stale entry is dropped) and leaves it unchanged when it
    was not.  [clear_reddit_client_cache] brings the count to zero, and it
    closes none of the clients it drops: heap and log stay as they
    were. *)
Theorem cached_client_count_accounting env credentials x_id x_secret x_ua
        w :
  accounts_for (cache_key_token credentials)
    (get_reddit_client env credentials) w
  /\ accounts_for (cache_key_token credentials)
       (get_current_user_reddit_client env credentials) w
  /\ accounts_for (cache_key_with_headers credentials x_id)
       (get_reddit_client_with_headers env credentials x_id x_secret x_ua) w
  /\ count_after clear_reddit_client_cache w = Ok 0%nat
  /\ heap (snd (clear_reddit_client_cache w)) = heap w
  /\ trace (snd (clear_reddit_client_cache w)) = trace w.
Proof.
  split; [rewrite get_reddit_client_authenticate;
          apply authenticate_accounts|].
  split; [unfold get_current_user_reddit_client;
          rewrite get_reddit_client_authenticate;
          apply authenticate_accounts|].
  split; [rewrite get_reddit_client_with_headers_authenticate;
          apply authenticate_accounts|].
  unfold count_after, get_cached_client_count, clear_reddit_client_cache.
  cbn. by rewrite map_size_empty.
Qed.

Lemma cached_client_count_accounting_witness :
  count_after (get_reddit_client env_live "tok") empty_world = Ok 1%nat
  /\ count_after (get_reddit_client env_live "tok") w_cached = Ok 2%nat.
Proof.
  split.
  - exact (proj1 (cached_client_count_accounting env_live "tok" None None
                    None empty_world) 0%nat eq_refl).
  - exact (proj1 (cached_client_count_accounting env_live "tok" None None
                    None w_cached) 2%nat eq_refl).
Defined.

Lemma cache_key_with_headers_tail b c :
  cache_key_with_headers b c = "reddit_" ++ header_key_tail b c.
Proof. apply cache_key_with_headers_form. Qed.

Lemma keys_coincide_iff b c t :
  cache_key_with_headers b c = cache_key_token t
  <-> header_key_tail b c = "token_" ++ prefix 16 t.
Proof.
  rewrite cache_key_with_headers_tail. unfold cache_key_token.
  change ("reddit_token_" ++ prefix 16 t)
    with ("reddit_" ++ ("token_" ++ prefix 16 t)).
  split; [apply (inj (String.append "reddit_")) | by intros ->].
Qed.

Lemma authenticate_build_then_hit env key kw kw' tok tok' w u1 u2 :
  cache w !! key = None ->
  on_init env (length (trace w)) kw = None ->
  on_me env (S (length (trace w))) (length (heap w)) = Returns (Some u1) ->
  on_me env (S (S (length (trace w)))) (length (heap w))
  = Returns (Some u2) ->
  exists w1 w2,
    authenticate env key kw tok w = (Ok (length (heap w)), w1)
    /\ authenticate env key kw' tok' w1 = (Ok (length (heap w)), w2)
    /\ heap w2 = (heap w ++ [fresh_client kw tok])%list
    /\ trace w2 = (trace w ++ [EvInit (length (heap w));
                               EvMe (length (heap w));
                               EvMe (length (heap w))])%list.
Proof.
  intros Hmiss Hinit Hme1 Hme2.
  rewrite (authenticate_builds env key kw tok w u1 Hmiss Hinit Hme1).
  eexists _, _. split; [reflexivity|].
  rewrite (authenticate_live env key kw' tok' _ (length (heap w)) u2).
  - split; [reflexivity|]. cbn [logged heap trace cache].
    split; [reflexivity|]. by rewrite <- app_assoc.
  - cbn [cache]. apply lookup_insert_eq.
  - cbn [trace]. rewrite length_app. cbn [length].
    by rewrite Nat.add_comm.
Qed.

(** X21.  The two dependencies share one cache, and their keys can meet.
    The key of the header-aware dependency equals the key of the plain
    dependency for a bearer value [t] exactly when the part of the former
    after "reddit_" reads "token_" followed by the first 16 characters of
    [t].  When the keys meet, a client that the plain dependency built
    and cached for [t] is returned by the header-aware dependency to a
    request with the other bearer value (nothing is constructed, and the
    client still holds [t] and its token-only configuration); and the
    other way round. *)
Theorem dependencies_share_cache_entries env b x_id x_secret x_ua t w
        u1 u2 :
  header_key_tail b x_id = "token_" ++ prefix 16 t ->
  cache w !! cache_key_token t = None ->
  on_me env (S (length (trace w))) (length (heap w)) = Returns (Some u1) ->
  on_me env (S (S (length (trace w)))) (length (heap w))
  = Returns (Some u2) ->
  cache_key_with_headers b x_id = cache_key_token t
  /\ (on_init env (length (trace w))
        (token_only_kwargs "RedditAPIWrapper/1.0") = None ->
      exists w1 w2,
        get_reddit_client env t w = (Ok (length (heap w)), w1)
        /\ get_reddit_client_with_headers env b x_id x_secret x_ua w1
           = (Ok (length (heap w)), w2)
        /\ heap w2
           = (heap w ++ [fresh_client
                           (token_only_kwargs "RedditAPIWrapper/1.0")
                           t])%list
        /\ trace w2 = (trace w ++ [EvInit (length (heap w));
                                   EvMe (length (heap w));
                                   EvMe (length (heap w))])%list)
  /\ (on_init env (length (trace w)) (header_kwargs x_id x_secret x_ua)
      = None ->
      exists w1 w2,
        get_reddit_client_with_headers env b x_id x_secret x_ua w
        = (Ok (length (heap w)), w1)
        /\ get_reddit_client env t w1 = (Ok (length (heap w)), w2)
        /\ heap w2
           = (heap w ++ [fresh_client (header_kwargs x_id x_secret x_ua)
                           b])%list
        /\ trace w2 = (trace w ++ [EvInit (length (heap w));
                                   EvMe (length (heap w));
                                   EvMe (length (heap w))])%list).
Proof.
  intros Hkey%keys_coincide_iff Hmiss Hme1 Hme2.
  split; [exact Hkey|].
  rewrite get_reddit_client_authenticate.
  rewrite get_reddit_client_with_headers_authenticate. rewrite Hkey.
  split; intros Hinit;
    by apply (authenticate_build_then_hit env _ _ _ _ _ w u1 u2).
Qed.

Lemma dependencies_share_cache_entries_witness :
  cache_key_with_headers "token_ABCDEFGHIJ-header-flow" (Some "KLMNO")
  = cache_key_token "ABCDEFGHIJ_KLMNO-plain-flow"
  /\ exists w1 w2,
       get_reddit_client env_live "ABCDEFGHIJ_KLMNO-plain-flow" empty_world
       = (Ok 0%nat, w1)
       /\ get_reddit_client_with_headers env_live
            "token_ABCDEFGHIJ-header-flow" (Some "KLMNO") (Some "secret")
            None w1
          = (Ok 0%nat, w2)
       /\ heap w2
          = [fresh_client (token_only_kwargs "RedditAPIWrapper/1.0")
               "ABCDEFGHIJ_KLMNO-plain-flow"].
Proof.
  destruct (dependencies_share_cache_entries env_live
              "token_ABCDEFGHIJ-header-flow" (Some "KLMNO") (Some "secret")
              None "ABCDEFGHIJ_KLMNO-plain-flow" empty_world alice alice
              eq_refl eq_refl eq_refl eq_refl)
    as (Hkey & Hplain & _).
  split; [exact Hkey|].
  destruct (Hplain eq_refl) as (w1 & w2 & H1 & H2 & Hheap & _).
  exists w1, w2. by repeat split.
Defined.

Lemma append_newline_nonempty (w : string) : w ++ newline <> "".
Proof. by destruct w. Qed.

Lemma class_then_end_iff cls s :
  Validation.class_then_end cls s = true
  <-> all_chars cls s = true
      \/ exists w, all_chars cls w = true /\ s = w ++ newline.
Proof.
  induction s as [|c rest IH]; cbn [Validation.class_then_end all_chars].
  { split; [by left | done]. }
  destruct (cls c) eqn:Hc; cbn [andb].
  - rewrite IH. split.
    + intros [H | (w & Hw & ->)]; [by left|].
      right. exists (String c w). cbn [all_chars]. by rewrite Hc.
    + intros [H | (w & Hw & E)]; [by left|].
      destruct w as [|c' w].
      * injection E as -> ->. by left.
      * injection E as -> ->. cbn [all_chars] in Hw. rewrite Hc in Hw.
        right. by exists w.
  - rewrite andb_true_iff, bool_decide_eq_true. split.
    + intros [H ->]. apply Ascii.eqb_eq in H as ->. right. by exists "".
    + intros [H | (w & Hw & E)]; [done|].
      destruct w as [|c' w].
      * injection E as -> ->. done.
      * injection E as -> ->. cbn [all_chars] in Hw. by rewrite Hc in Hw.
Qed.

Lemma re_match_class_plus_iff cls s :
  Validation.re_match_class_plus cls s = true <-> word_then_newline cls s.
Proof.
  unfold word_then_newline. destruct s as [|c rest];
    cbn [Validation.re_match_class_plus].
  { split; [done|]. intros (w & Hne & _ & [E|E]); [by subst|].
    symmetry in E. by apply append_newline_nonempty in E. }
  rewrite andb_true_iff, class_then_end_iff. split.
  - intros [Hc [H | (w & Hw & ->)]].
    + exists (String c rest). cbn [all_chars]. rewrite Hc, H. by eauto.
    + exists (String c w). cbn [all_chars]. rewrite Hc, Hw.
      split; [done|]. split; [done|]. by right.
  - intros (w & Hne & Hw & E). destruct w as [|c' w]; [done|].
    cbn [all_chars] in Hw. apply andb_true_iff in Hw as [Hc Hw].
    destruct E as [E|E]; injection E as -> ->; (split; [done|]);
      [by left | right; by exists w].
Qed.

Lemma word_then_newline_nonempty cls s :
  word_then_newline cls s -> s <> "".
Proof.
  intros (w & Hne & _ & [->| ->]); [done | apply append_newline_nonempty].
Qed.

Lemma validate_subreddit_name_iff name :
  Validation.validate_subreddit_name name = Ok true
  <-> word_then_newline Validation.word_char name
      /\ (String.length name <= 21)%nat.
Proof.
  unfold Validation.validate_subreddit_name.
  case_bool_decide as Hne.
  { split; [done|]. intros [H%word_then_newline_nonempty _]. done. }
  destruct (Nat.ltb_spec 21 (String.length name)).
  { split; [done|]. intros [_ ?]. lia. }
  rewrite <- re_match_class_plus_iff.
  destruct (Validation.re_match_class_plus _ name); cbn [negb].
  - split; [intros _; split; [done|lia] | done].
  - split; [done | by intros [? _]].
Qed.

Lemma validate_username_iff name :
  Validation.validate_username name = Ok true
  <-> word_then_newline Validation.word_or_hyphen name
      /\ (String.length name <= 20)%nat.
Proof.
  unfold Validation.validate_username.
  case_bool_decide as Hne.
  { split; [done|]. intros [H%word_then_newline_nonempty _]. done. }
  destruct (Nat.ltb_spec 20 (String.length name)).
  { split; [done|]. intros [_ ?]. lia. }
  rewrite <- re_match_class_plus_iff.
  destruct (Validation.re_match_class_plus _ name); cbn [negb].
  - split; [intros _; split; [done|lia] | done].
  - split; [done | by intros [? _]].
Qed.

(** X22.  Which names pass.  [validate_subreddit_name] returns [True]
    exactly for a non-empty word over letters, digits and underscore,
    alone or followed by one line feed, of at most 21 characters in all
    (the line feed counted); [validate_username] is the same with the
    hyphen added to the alphabet and a bound of 20.  So a name with a
    trailing line feed passes. *)
Theorem names_accepted_iff name :
  (Validation.validate_subreddit_name name = Ok true
   <-> word_then_newline Validation.word_char name
       /\ (String.length name <= 21)%nat)
  /\ (Validation.validate_username name = Ok true
      <-> word_then_newline Validation.word_or_hyphen name
          /\ (String.length name <= 20)%nat).
Proof.
  split; [apply validate_subreddit_name_iff | apply validate_username_iff].
Qed.

Lemma names_accepted_iff_witness :
  Validation.validate_subreddit_name ("learnpython" ++ newline) = Ok true
  /\ Validation.validate_username ("dash-ed_user" ++ newline) = Ok true.
Proof.
  split.
  - apply (proj2 (proj1 (names_accepted_iff ("learnpython" ++ newline)))).
    split; [|vm_compute; lia]. exists "learnpython".
    split; [done|]. split; [reflexivity | by right].
  - apply (proj2 (proj2 (names_accepted_iff ("dash-ed_user" ++ newline)))).
    split; [|vm_compute; lia]. exists "dash-ed_user".
    split; [done|]. split; [reflexivity | by right].
Defined.

Lemma all_chars_mono (cls cls' : ascii -> bool) s :
  (forall c, cls c = true -> cls' c = true) ->
  all_chars cls s = true -> all_chars cls' s = true.
Proof.
  intros Hsub. induction s as [|c rest IH]; [done|]. cbn [all_chars].
  rewrite !andb_true_iff. intros [Hc Hr]. split; [by apply Hsub | by apply IH].
Qed.

Lemma word_then_newline_mono (cls cls' : ascii -> bool) s :
  (forall c, cls c = true -> cls' c = true) ->
  word_then_newline cls s -> word_then_newline cls' s.
Proof.
  intros Hsub (w & Hne & Hw & E). exists w.
  split; [done|]. split; [by apply (all_chars_mono cls)|done].
Qed.

Lemma lower_alnum_word_char c :
  Validation.lower_alnum c = true -> Validation.word_char c = true.
Proof.
  unfold Validation.lower_alnum, Validation.word_char.
  rewrite !orb_true_iff. tauto.
Qed.

Lemma word_char_word_or_hyphen c :
  Validation.word_char c = true -> Validation.word_or_hyphen c = true.
Proof. unfold Validation.word_or_hyphen. by intros ->. Qed.

Lemma ids_accepted_helper s :
  (if bool_decide (s = "") then false
   else Validation.re_match_class_plus Validation.lower_alnum s) = true
  <-> word_then_newline Validation.lower_alnum s.
Proof.
  rewrite <- re_match_class_plus_iff. case_bool_decide as Hne; [|done].
  subst. done.
Qed.

(** X23.  Which identifiers pass, and how the validators nest.
    [validate_submission_id] and [validate_comment_id] return [True] for
    the same strings: a non-empty word over lower-case letters and
    digits, alone or followed by one line feed, of any length.  Every
    string that passes as an identifier and has at most 21 characters
    passes as a subreddit name, and every string that passes as a
    subreddit name and has at most 20 characters passes as a user
    name. *)
Theorem ids_accepted_iff s :
  (Validation.validate_submission_id s = Ok true
   <-> word_then_newline Validation.lower_alnum s)
  /\ (Validation.validate_comment_id s = Ok true
      <-> word_then_newline Validation.lower_alnum s)
  /\ (Validation.validate_submission_id s = Ok true ->
      (String.length s <= 21)%nat ->
      Validation.validate_subreddit_name s = Ok true)
  /\ (Validation.validate_subreddit_name s = Ok true ->
      (String.length s <= 20)%nat ->
      Validation.validate_username s = Ok true).
Proof.
  assert (Hsub : Validation.validate_submission_id s = Ok true
                 <-> word_then_newline Validation.lower_alnum s).
  { rewrite <- ids_accepted_helper.
    unfold Validation.validate_submission_id.
    case_bool_decide; [done|].
    by destruct (Validation.re_match_class_plus _ s). }
  split; [exact Hsub|]. split.
  { rewrite <- ids_accepted_helper.
    unfold Validation.validate_comment_id.
    case_bool_decide; [done|].
    by destruct (Validation.re_match_class_plus _ s). }
  split.
  - intros H%Hsub Hlen. apply validate_subreddit_name_iff. split; [|done].
    by apply (word_then_newline_mono _ _ _ lower_alnum_word_char).
  - intros [H _]%validate_subreddit_name_iff Hlen.
    apply validate_username_iff. split; [|done].
    by apply (word_then_newline_mono _ _ _ word_char_word_or_hyphen).
Qed.

Lemma ids_accepted_iff_witness :
  Validation.validate_comment_id "1abc9z" = Ok true
  /\ Validation.validate_subreddit_name "1abc9z" = Ok true.
Proof.
  destruct (ids_accepted_iff "1abc9z") as (Hs & Hc & Hname & _).
  split.
  - apply Hc. exists "1abc9z". split; [done|]. split; [reflexivity|by left].
  - apply Hname; [reflexivity | vm_compute; lia].
Defined.

Lemma lstrip_blank (s : Validation.text) :
  forallb Validation.isspace s = true -> Validation.lstrip s = [].
Proof.
  induction s as [|c rest IH]; [done|].
  cbn [forallb Validation.lstrip]. intros [Hc Hr]%andb_true_iff.
  rewrite Hc. by apply IH.
Qed.

Lemma lstrip_visible (s : Validation.text) :
  forallb Validation.isspace s = false ->
  exists c rest, Validation.lstrip s = c :: rest
                 /\ Validation.isspace c = false.
Proof.
  induction s as [|c rest IH]; [done|].
  cbn [forallb Validation.lstrip].
  destruct (Validation.isspace c) eqn:Hc; cbn [andb]; [exact IH|].
  intros _. by exists c, rest.
Qed.

Lemma rstrip_visible_head c (rest : Validation.text) :
  Validation.isspace c = false -> Validation.rstrip (c :: rest) <> [].
Proof.
  intros Hc. cbn [Validation.rstrip]. rewrite Hc.
  by destruct (Validation.rstrip rest).
Qed.

Lemma strip_empty_iff (s : Validation.text) :
  Validation.strip s = [] <-> forallb Validation.isspace s = true.
Proof.
  unfold Validation.strip. split.
  - intros H. destruct (forallb Validation.isspace s) eqn:E; [done|].
    destruct (lstrip_visible s E) as (c & rest & Hl & Hc).
    rewrite Hl in H. by apply rstrip_visible_head in H.
  - intros H. by rewrite (lstrip_blank s H).
Qed.

Lemma empty_or_blank (s : Validation.text) :
  bool_decide (s = []) || bool_decide (Validation.strip s = [])
  = forallb Validation.isspace s.
Proof.
  destruct (forallb Validation.isspace s) eqn:E.
  - apply orb_true_iff. right. apply bool_decide_eq_true.
    by apply strip_empty_iff.
  - apply orb_false_iff. split; apply bool_decide_eq_false.
    + intros ->. done.
    + intros H%strip_empty_iff. congruence.
Qed.

Lemma blank_iff (s : Validation.text) :
  forallb Validation.isspace s = true
  <-> forall c, c ∈ s -> Validation.isspace c = true.
Proof.
  rewrite forallb_forall. split; intros H c Hc; apply H;
    by apply list_elem_of_In.
Qed.

Lemma visible_iff (s : Validation.text) :
  forallb Validation.isspace s = false
  <-> exists c, c ∈ s /\ Validation.isspace c = false.
Proof.
  induction s as [|c rest IH]; cbn [forallb].
  { split; [done|]. intros (c & Hc & _). by apply elem_of_nil in Hc. }
  destruct (Validation.isspace c) eqn:Hc; cbn [andb].
  - rewrite IH. split.
    + intros (c' & Hin & Hs). exists c'. split; [by right | done].
    + intros (c' & Hin & Hs). apply elem_of_cons in Hin as [->|Hin];
        [congruence|]. by exists c'.
  - split; [|done]. intros _. exists c. split; [by left | done].
Qed.

(** X24.  Which texts pass.  A title or a body is any sequence of code
    points.  [validate_post_title] returns [True] exactly when the title
    has a character that is not white space and at most 300 characters in
    all; [validate_comment_body] likewise with 10000.  The bound is on the
    text as given, white space at the ends counted.  A text of white
    space only (the empty text included, and white space beyond Latin-1
    such as the em space too) gets the "cannot be empty" error whatever
    its length, also when it is over the bound. *)
Theorem texts_accepted_iff (s : Validation.text) :
  (Validation.validate_post_title s = Ok true
   <-> (exists c, c ∈ s /\ Validation.isspace c = false)
       /\ (length s <= 300)%nat)
  /\ (Validation.validate_comment_body s = Ok true
      <-> (exists c, c ∈ s /\ Validation.isspace c = false)
          /\ Z.of_nat (length s) <= 10000)
  /\ ((forall c, c ∈ s -> Validation.isspace c = true) ->
      Validation.validate_post_title s
      = Raise (Validation.bad_request "Post title cannot be empty")
      /\ Validation.validate_comment_body s
         = Raise (Validation.bad_request "Comment body cannot be empty")).
Proof.
  unfold Validation.validate_post_title, Validation.validate_comment_body.
  rewrite !empty_or_blank, <- visible_iff, <- blank_iff.
  destruct (forallb Validation.isspace s).
  { split; [split; [done | by intros [? _]]|].
    split; [split; [done | by intros [? _]]|]. done. }
  split; [|split; [|done]].
  - destruct (Nat.ltb_spec 300 (length s)).
    + split; [done|]. intros [_ ?]. lia.
    + split; [intros _; split; [done|lia] | done].
  - destruct (Z.ltb_spec 10000 (Z.of_nat (length s))).
    + split; [done|]. intros [_ ?]. lia.
    + split; [intros _; split; [done|lia] | done].
Qed.

Lemma texts_accepted_iff_witness :
  Validation.validate_post_title (repeat 20013%N 101) = Ok true
  /\ Validation.validate_post_title [32; 72; 105; 32]%N = Ok true
  /\ Validation.validate_comment_body [8195; 10]%N
     = Raise (Validation.bad_request "Comment body cannot be empty").
Proof.
  split; [|split].
  - apply (proj2 (proj1 (texts_accepted_iff (repeat 20013%N 101)))).
    split; [|vm_compute; lia]. exists 20013%N.
    split; [by left | reflexivity].
  - apply (proj2 (proj1 (texts_accepted_iff [32; 72; 105; 32]%N))).
    split; [|vm_compute; lia]. exists 72%N.
    split; [by right; left | reflexivity].
  - apply (proj2 (proj2 (texts_accepted_iff [8195; 10]%N))).
    intros c Hc. apply elem_of_cons in Hc as [->|Hc]; [reflexivity|].
    apply elem_of_cons in Hc as [->|Hc]; [reflexivity|].
    by apply elem_of_nil in Hc.
Defined.

(** X25.  No validator ever returns [False], and none fails with anything
    but HTTP 400: each of the seven either returns [True] or raises an
    [HTTPException] with status 400, a detail text and no headers. *)
Theorem validators_return_true_or_400 s (title body : Validation.text)
        limit max_limit :
  true_or_400 (Validation.validate_subreddit_name s)
  /\ true_or_400 (Validation.validate_username s)
  /\ true_or_400 (Validation.validate_submission_id s)
  /\ true_or_400 (Validation.validate_comment_id s)
  /\ true_or_400 (Validation.validate_post_title title)
  /\ true_or_400 (Validation.validate_comment_body body)
  /\ true_or_400 (Validation.validate_limit limit max_limit).
Proof.
  unfold true_or_400, Validation.validate_subreddit_name,
    Validation.validate_username, Validation.validate_submission_id,
    Validation.validate_comment_id, Validation.validate_post_title,
    Validation.validate_comment_body, Validation.validate_limit.
  repeat split; repeat case_match; eauto.
Qed.
